(** * PlayNexus System Monitor: sampler, chart window and plugin loader

    A shallow embedding of the parts of [src/main.js] and
    [src/renderer/js/app.js] that carry contracts:

    - [Chart]    : [updateChart], the 20-point retention window of a chart;
    - [Sampler]  : [getSystemData], [startSystemMonitoring],
                   [stopSystemMonitoring] and the timer callback;
    - [Json]     : the engine's [JSON.stringify] and [JSON.parse], which the
                   plugin loader and the plugin storage call;
    - [Plugins]  : the [PluginSystem] class: metadata extraction, loading,
                   toggling, unloading, deleting, and the plugin storage;
                   scanning the plugin directory, reloading, the tabs;
    - [Dashboard]: [updateDashboard], [updateDiskChart], [updateSystemInfo]
                   and [formatBytes], which show a sample on the page;
    - [Utils], [Validation] : the colour conversions and [validateEmail]
                   of [UIUtils];
    - [FileLog]  : [handleFileEvent], the log of file events;
    - [PluginEvents] : [onPluginEvent] and [emitPluginEvent];
    - [Config]   : [loadConfig], [saveConfig], the [save-config] handler and
                   the startup callback of the main process.

    JavaScript strings are sequences of UTF-16 code units; they are kept as
    lists of numbers ([text]).  Maps ([Map], [localStorage]) are [gmap]s and
    the active set ([Set]) is a [gset]. *)

From Stdlib Require Import ZArith NArith Ascii String.
From Stdlib Require Import Floats.PrimFloat Floats.FloatOps Floats.SpecFloat.
From Stdlib Require Uint63.
From stdpp Require Import gmap strings list.

Set Warnings "-register-all".
Local Open Scope nat_scope.

(** ** Text *)

(** A JavaScript string: its UTF-16 code units. *)
Abbreviation text := (list N).

(** The code units of an ASCII literal. *)
Definition str (s : string) : text :=
  (fun a => N_of_ascii a) <$> list_ascii_of_string s.
Arguments str : simpl never.

(** [s.startsWith(p)], returning what follows the prefix. *)
Fixpoint strip_prefix (p s : text) : option text :=
  match p, s with
  | [], _ => Some s
  | a :: p', b :: s' => if N.eqb a b then strip_prefix p' s' else None
  | _ :: _, [] => None
  end.

Lemma strip_prefix_app (p s : text) : strip_prefix p (p ++ s) = Some s.
Proof.
  induction p as [|a p IH]; simpl; [done|].
  by rewrite N.eqb_refl.
Qed.

Lemma strip_prefix_Some (p s r : text) :
  strip_prefix p s = Some r -> s = p ++ r.
Proof.
  revert s; induction p as [|a p IH]; intros [|b s]; simpl; try congruence.
  destruct (N.eqb_spec a b) as [->|]; [|done].
  intros H; f_equal; auto.
Qed.

(** ** The chart retention window ([updateChart], app.js) *)

Module Chart.
Section Window.
(** The plotted values (numbers in the application). *)
Context {V : Type}.

(** [chart.data.labels] and [chart.data.datasets[0].data]. *)
Record chart := Chart { labels : list text; data : list V }.

(** The charts are created with [labels: []] and [data: []]. *)
Definition empty_chart : chart := Chart [] [].

(** [Array.prototype.shift]: drops the first element. *)
Definition shift {A} (l : list A) : list A := tail l.

(** [updateChart(chart, value)]; [timeString] is what
    [new Date().toLocaleTimeString()] gave.  A missing chart
    ([if (!chart) return]) is [None]. *)
Definition updateChart (c : option chart) (timeString : text) (value : V)
  : option chart :=
  match c with
  | None => None
  | Some ch =>
      let labels1 := labels ch ++ [timeString] in
      let data1 := data ch ++ [value] in
      if 20 <? length labels1
      then Some (Chart (shift labels1) (shift data1))
      else Some (Chart labels1 data1)
  end.

(** Successive calls, one per delivered sample. *)
Definition pushes (c : option chart) (tvs : list (text * V)) : option chart :=
  foldl (fun c tv => updateChart c tv.1 tv.2) c tvs.

(** The last twenty elements of a list. *)
Definition window {A} (l : list A) : list A := drop (length l - 20) l.

Lemma window_length {A} (l : list A) : length (window l) = length l `min` 20.
Proof. unfold window. rewrite length_drop. lia. Qed.

Lemma tail_drop {A} (k : nat) (l : list A) : tail (drop k l) = drop (S k) l.
Proof.
  revert k; induction l as [|a l IH]; intros [|k]; simpl; done.
Qed.

Lemma window_snoc {A} (l : list A) (x : A) :
  window (l ++ [x]) =
  if 20 <? length (window l ++ [x]) then shift (window l ++ [x])
  else window l ++ [x].
Proof.
  unfold window, shift.
  rewrite !length_app, length_drop; simpl.
  destruct (Nat.ltb_spec 20 (length l - (length l - 20) + 1)) as [Hlt|Hge].
  - assert (Hl : 20 <= length l) by lia.
    replace (length l + 1 - 20) with (S (length l - 20)) by lia.
    rewrite drop_app_le by lia.
    rewrite <- tail_drop.
    assert (Hw : length (drop (length l - 20) l) = 20)
      by (rewrite length_drop; lia).
    by destruct (drop (length l - 20) l).
  - replace (length l - 20) with 0 by lia.
    replace (length l + 1 - 20) with 0 by lia.
    done.
Qed.

Lemma window_last {A} (l : list A) : last (window l) = last l.
Proof.
  destruct l as [|x l _] using rev_ind; [done|].
  unfold window. rewrite length_app; simpl.
  rewrite drop_app_le by lia. by rewrite !last_snoc.
Qed.

Lemma pushes_snoc c tvs tv :
  pushes c (tvs ++ [tv]) = updateChart (pushes c tvs) tv.1 tv.2.
Proof. unfold pushes. by rewrite foldl_app. Qed.

Lemma pushes_window (tvs : list (text * V)) :
  pushes (Some empty_chart) tvs =
  Some (Chart (window (tvs.*1)) (window (tvs.*2))).
Proof.
  induction tvs as [|tv tvs IH] using rev_ind; [done|].
  rewrite pushes_snoc, IH. unfold updateChart; simpl.
  rewrite !fmap_app; simpl.
  rewrite (window_snoc (tvs.*1)), (window_snoc (tvs.*2)).
  rewrite !length_app, !window_length, !length_fmap.
  by destruct (20 <? _).
Qed.
End Window.
Arguments chart V : clear implicits.

(** C8. Starting from a freshly created chart, after any sequence of pushes
    the chart exists and its window of values (a) holds at most 20 elements,
    (b) holds exactly 20 once more than 20 values were pushed, (c) is the
    sequence of pushed values without its oldest elements, in push order,
    and (d) ends with the value pushed last; the labels move in step. *)
Theorem updateChart_window {V} (tvs : list (text * V)) :
  exists ch, pushes (Some empty_chart) tvs = Some ch /\
    length (data ch) <= 20 /\
    length (data ch) = length tvs `min` 20 /\
    (if 20 <? length tvs then length (data ch) = 20 else data ch = tvs.*2) /\
    data ch = drop (length tvs - 20) (tvs.*2) /\
    last (data ch) = last (tvs.*2) /\
    length (labels ch) = length (data ch).
Proof.
  eexists; split; [apply pushes_window|]; simpl.
  pose proof (window_length (tvs.*2)) as Hd.
  pose proof (window_length (tvs.*1)) as Hl.
  rewrite length_fmap in Hd; rewrite length_fmap in Hl.
  repeat split; try lia.
  - destruct (Nat.ltb_spec 20 (length tvs)); [lia|].
    unfold window. rewrite length_fmap.
    by replace (length tvs - 20) with 0 by lia.
  - unfold window. by rewrite length_fmap.
  - apply window_last.
Qed.
(** *** More on the window *)

Lemma zip_drop {A B} (k : nat) (l : list A) (l' : list B) :
  zip (drop k l) (drop k l') = drop k (zip l l').
Proof.
  revert l l'; induction k as [|k IH]; intros [|a l] [|b l']; simpl; try done.
  by destruct (drop k l).
Qed.

(** X1. Starting from a freshly created chart, after any sequence of
    pushes every value still stands under the label it was pushed with: the
    labels paired with the values are the pushes themselves without the
    oldest ones. *)
Theorem updateChart_keeps_pairs {V} (tvs : list (text * V)) :
  exists ch, pushes (Some empty_chart) tvs = Some ch /\
    zip (labels ch) (data ch) = drop (length tvs - 20) tvs.
Proof.
  eexists; split; [apply pushes_window|]; simpl.
  unfold window. rewrite !length_fmap, zip_drop. by rewrite zip_fst_snd.
Qed.

(** A push into a chart that holds twenty labels or more. *)
Lemma updateChart_full {V} (ch : chart V) (t : text) (v : V) :
  20 <= length (labels ch) ->
  updateChart (Some ch) t v =
    Some (Chart (drop 1 (labels ch) ++ [t]) (shift (data ch ++ [v]))).
Proof.
  intros H. unfold updateChart. rewrite length_app; simpl.
  destruct (Nat.ltb_spec 20 (length (labels ch) + 1)); [|lia].
  do 2 f_equal. unfold shift. destruct (labels ch); simpl in *; [lia|done].
Qed.

(** X2. A push drops one point at most: a chart that holds twenty points
    or more (one handed over with data, say) keeps exactly the number it
    has, however many values are pushed; it is never cut back to twenty. *)
Theorem updateChart_never_shrinks {V} (ch : chart V) (tvs : list (text * V)) :
  20 <= length (labels ch) ->
  exists ch', pushes (Some ch) tvs = Some ch' /\
    length (labels ch') = length (labels ch) /\
    (length (data ch) = length (labels ch) ->
     length (data ch') = length (data ch)).
Proof.
  intros H. induction tvs as [|tv tvs IH] using rev_ind.
  - by exists ch.
  - destruct IH as (ch1 & Hp & Hl & Hd).
    rewrite pushes_snoc, Hp, updateChart_full by lia.
    eexists; split; [reflexivity|]; simpl.
    rewrite length_app, length_drop; simpl. split; [lia|].
    intros E. specialize (Hd E). unfold shift.
    destruct (data ch1) as [|x d]; simpl in *; [lia|].
    rewrite length_app; simpl. lia.
Qed.

(** A chart of twenty-five points takes three more and still has
    twenty-five. *)
Lemma updateChart_never_shrinks_sample :
  20 <= length (labels (Chart (replicate 25 []) (replicate 25 0))) /\
  exists ch',
    pushes (Some (Chart (replicate 25 []) (replicate 25 0)))
      [([], 1); ([], 2); ([], 3)] = Some ch' /\
    length (labels ch') = 25 /\ length (data ch') = 25.
Proof.
  split; [vm_compute; lia|].
  destruct (updateChart_never_shrinks
              (Chart (replicate 25 []) (replicate 25 0))
              [([], 1); ([], 2); ([], 3)])
    as (ch' & Hp & Hl & Hd); [vm_compute; lia|].
  exists ch'. split; [exact Hp|]. split; [exact Hl|]. by apply Hd.
Defined.

End Chart.


(** [Array.prototype.join(",")] of texts. *)
Fixpoint join_comma (parts : list text) : text :=
  match parts with
  | [] => []
  | [p] => p
  | p :: rest => p ++ 44%N :: join_comma rest
  end.

(** ** Exceptions and statements *)

(** What a [throw] or a rejected promise carries. *)
Inductive exn :=
| TypeError (what : string)
| SyntaxError (what : string)
| QuotaExceededError
| Error (message : text)
| Rejected (reason : text).

(** The outcome of evaluating an expression or awaiting a promise. *)
Inductive result (A : Type) :=
| Ok (a : A)
| Throw (e : exn).
Arguments Ok {A} a.
Arguments Throw {A} e.

#[global] Instance result_ret : MRet result := @Ok.
#[global] Instance result_bind : MBind result :=
  fun A B k r => match r with Ok a => k a | Throw e => Throw e end.

Lemma bind_Ok {A B} (r : result A) (k : A -> result B) (b : B) :
  r ≫= k = Ok b -> exists a, r = Ok a /\ k a = Ok b.
Proof. destruct r as [a|e]; simpl; [eauto|done]. Qed.

Ltac invert_binds :=
  repeat match goal with
    | H : _ ≫= _ = Ok _ |- _ =>
        apply bind_Ok in H; destruct H as (? & ? & H)
    | H : mret _ = Ok _ |- _ => injection H as <-
    end.

(** A statement over a state [S]: it may change the state and may throw. *)
Definition Stmt (S A : Type) : Type := S -> result A * S.

Definition ret {S A} (a : A) : Stmt S A := fun st => (Ok a, st).

Definition bind {S A B} (m : Stmt S A) (k : A -> Stmt S B) : Stmt S B :=
  fun st => match m st with
            | (Ok a, st') => k a st'
            | (Throw e, st') => (Throw e, st')
            end.

(** [try { body } catch (error) { handler }]. *)
Definition try_catch {S A} (body : Stmt S A) (handler : exn -> Stmt S A)
  : Stmt S A :=
  fun st => match body st with
            | (Ok a, st') => (Ok a, st')
            | (Throw e, st') => handler e st'
            end.

(** An expression evaluated inside a statement. *)
Definition lift {S A} (r : result A) : Stmt S A := fun st => (r, st).

(** Reading the state. *)
Definition gets {S A} (f : S -> A) : Stmt S A := fun st => (Ok (f st), st).

(** A statement, for its effect on the state. *)
Definition exec {S A} (m : Stmt S A) (st : S) : S := (m st).2.

Declare Scope stmt_scope.
Delimit Scope stmt_scope with stmt.
Notation "x <- m ;; k" := (bind m (fun x => k))
  (at level 100, m at next level, k at level 200, right associativity)
  : stmt_scope.
Notation "m ;; k" := (bind m (fun _ => k))
  (at level 100, k at level 200, right associativity) : stmt_scope.
Open Scope stmt_scope.

(** ** Decimal digits *)

(** The decimal digits of a natural number, most significant first
    ([fuel] bounds the number of digits). *)
Fixpoint digits_fuel (fuel : nat) (n : N) (acc : text) : text :=
  match fuel with
  | O => acc
  | S fuel' =>
      let acc' := (48 + n mod 10)%N :: acc in
      if (n <? 10)%N then acc' else digits_fuel fuel' (n / 10)%N acc'
  end.

Definition digits (n : N) : text :=
  digits_fuel (S (N.to_nat (N.log2 n))) n [].

(** ** [JSON.stringify] and [JSON.parse]

    The plugin loader parses the metadata block with [JSON.parse]; the plugin
    storage writes with [JSON.stringify] and reads back with [JSON.parse].
    Both are the engine's; they are written out here after ECMA-404 and the
    language specification, on the values JSON can express. *)

Module Json.
#[local] Open Scope N_scope.

(** A JSON value.  A number is kept as the decimal [m * 10^e] that its text
    denotes (its rounding to binary64, which printing and reading back undo,
    is not part of the model).  An object lists its members in the order of
    the text. *)
Inductive json :=
| JNull
| JBool (b : bool)
| JNum (m e : Z)
| JStr (s : text)
| JArr (items : list json)
| JObj (members : list (text * json)).

(** *** Printing *)

Definition hex_digit (k : N) : N := if k <? 10 then 48 + k else 87 + k.

Definition hex4 (c : N) : text :=
  [hex_digit (c / 4096 mod 16); hex_digit (c / 256 mod 16);
   hex_digit (c / 16 mod 16); hex_digit (c mod 16)].

(** A backslash, [u] and four hexadecimal digits. *)
Definition uescape (c : N) : text := 92 :: 117 :: hex4 c.

Definition is_high (c : N) : bool := (0xD800 <=? c) && (c <=? 0xDBFF).
Definition is_low (c : N) : bool := (0xDC00 <=? c) && (c <=? 0xDFFF).

(** A code unit that is not a surrogate, as [QuoteJSONString] writes it. *)
Definition quote_unit (c : N) : text :=
  if c =? 34 then [92; 34]
  else if c =? 92 then [92; 92]
  else if c =? 8 then [92; 98]
  else if c =? 12 then [92; 102]
  else if c =? 10 then [92; 110]
  else if c =? 13 then [92; 114]
  else if c =? 9 then [92; 116]
  else if c <? 32 then uescape c
  else [c].

(** The inside of a quoted string: a surrogate pair is written as it is, a
    lone surrogate is escaped. *)
Fixpoint quote_units (s : text) : text :=
  match s with
  | [] => []
  | c :: r =>
      if is_high c then
        match r with
        | d :: r' =>
            if is_low d then c :: d :: quote_units r'
            else uescape c ++ quote_units r
        | [] => uescape c
        end
      else if is_low c then uescape c ++ quote_units r
      else quote_unit c ++ quote_units r
  end.

Definition quote (s : text) : text := 34 :: quote_units s ++ [34].

(** A number: the digits of the mantissa and, unless it is zero, the
    exponent. *)
Definition print_number (m e : Z) : text :=
  (if (m <? 0)%Z then [45] else []) ++ digits (Z.abs_N m) ++
  (if (e =? 0)%Z then []
   else 101 :: (if (e <? 0)%Z then [45] else []) ++ digits (Z.abs_N e)).

(** [JSON.stringify(v)], without indentation. *)
Fixpoint stringify (v : json) : text :=
  match v with
  | JNull => str "null"
  | JBool true => str "true"
  | JBool false => str "false"
  | JNum m e => print_number m e
  | JStr s => quote s
  | JArr items => 91 :: join_comma (map stringify items) ++ [93]
  | JObj members =>
      123 :: join_comma
               (map (fun kx => quote kx.1 ++ 58 :: stringify kx.2) members)
          ++ [125]
  end.

(** *** Reading *)

(** JSON white space: space, tab, line feed, carriage return. *)
Definition is_ws (c : N) : bool :=
  (c =? 32) || (c =? 9) || (c =? 10) || (c =? 13).

Fixpoint skip_ws (s : text) : text :=
  match s with
  | c :: r => if is_ws c then skip_ws r else s
  | [] => []
  end.

Definition is_digit (c : N) : bool := (48 <=? c) && (c <=? 57).

(** A run of digits: its value on top of [acc], its length, what follows. *)
Fixpoint digit_run (acc : N) (count : nat) (s : text) : N * nat * text :=
  match s with
  | c :: r =>
      if is_digit c then digit_run (10 * acc + (c - 48)) (S count) r
      else (acc, count, s)
  | [] => (acc, count, [])
  end.

(** The exponent part of a number, if there is one. *)
Definition parse_exponent (neg : bool) (n : N) (e : Z) (s : text)
  : option (json * text) :=
  let m := if neg then (- Z.of_N n)%Z else Z.of_N n in
  let with_exponent (eneg : bool) (r : text) :=
    match digit_run 0 0 r with
    | (_, O, _) => None
    | (x, _, r') =>
        Some (JNum m (if eneg then e - Z.of_N x else e + Z.of_N x)%Z, r')
    end in
  match s with
  | c :: r =>
      if (c =? 101) || (c =? 69) then
        match r with
        | d :: r' =>
            if d =? 45 then with_exponent true r'
            else if d =? 43 then with_exponent false r'
            else with_exponent false r
        | [] => None
        end
      else Some (JNum m e, s)
  | [] => Some (JNum m e, s)
  end.

(** A number: sign, integer part without leading zero, fraction,
    exponent. *)
Definition parse_number (s : text) : option (json * text) :=
  let '(neg, s1) :=
    match s with
    | c :: r => if c =? 45 then (true, r) else (false, s)
    | [] => (false, s)
    end in
  match digit_run 0 0 s1 with
  | (_, O, _) => None
  | (n, k, s2) =>
      if match s1 with c :: _ => (c =? 48) && negb (k =? 1)%nat | [] => false end
      then None
      else
        match s2 with
        | c :: s3 =>
            if c =? 46 then
              match digit_run n 0 s3 with
              | (_, O, _) => None
              | (n', k', s4) => parse_exponent neg n' (- Z.of_nat k') s4
              end
            else parse_exponent neg n 0 s2
        | [] => parse_exponent neg n 0 s2
        end
  end.

Definition hex_val (c : N) : option N :=
  if is_digit c then Some (c - 48)
  else if (97 <=? c) && (c <=? 102) then Some (c - 87)
  else if (65 <=? c) && (c <=? 70) then Some (c - 55)
  else None.

(** The inside of a string up to its closing quote. *)
Fixpoint parse_chars (acc : text) (s : text) : option (text * text) :=
  match s with
  | [] => None
  | c :: r =>
      if c =? 34 then Some (acc, r)
      else if c =? 92 then
        match r with
        | [] => None
        | x :: r1 =>
            if x =? 34 then parse_chars (acc ++ [34]) r1
            else if x =? 92 then parse_chars (acc ++ [92]) r1
            else if x =? 47 then parse_chars (acc ++ [47]) r1
            else if x =? 98 then parse_chars (acc ++ [8]) r1
            else if x =? 102 then parse_chars (acc ++ [12]) r1
            else if x =? 110 then parse_chars (acc ++ [10]) r1
            else if x =? 114 then parse_chars (acc ++ [13]) r1
            else if x =? 116 then parse_chars (acc ++ [9]) r1
            else if x =? 117 then
              match r1 with
              | h1 :: h2 :: h3 :: h4 :: r2 =>
                  match hex_val h1, hex_val h2, hex_val h3, hex_val h4 with
                  | Some a, Some b, Some c', Some d =>
                      parse_chars
                        (acc ++ [((a * 16 + b) * 16 + c') * 16 + d]) r2
                  | _, _, _, _ => None
                  end
              | _ => None
              end
            else None
        end
      else if c <? 32 then None
      else parse_chars (acc ++ [c]) r
  end.

(** Defining a member: a name met again keeps its place and takes the new
    value. *)
Fixpoint obj_set (k : text) (v : json) (members : list (text * json))
  : list (text * json) :=
  match members with
  | [] => [(k, v)]
  | (k', v') :: rest =>
      if bool_decide (k = k') then (k', v) :: rest
      else (k', v') :: obj_set k v rest
  end.

(** A value, then the elements of an array after its bracket, then the
    members of an object after its brace; [fuel] bounds the nesting and the
    number of elements. *)
Fixpoint parse_value (fuel : nat) (s : text) {struct fuel}
  : option (json * text) :=
  match fuel with
  | O => None
  | S fuel' =>
      match skip_ws s with
      | [] => None
      | c :: r =>
          if c =? 123 then
            match skip_ws r with
            | d :: r' =>
                if d =? 125 then Some (JObj [], r')
                else parse_members fuel' [] r
            | [] => None
            end
          else if c =? 91 then
            match skip_ws r with
            | d :: r' =>
                if d =? 93 then Some (JArr [], r')
                else parse_elements fuel' [] r
            | [] => None
            end
          else if c =? 34 then
            match parse_chars [] r with
            | Some (x, r') => Some (JStr x, r')
            | None => None
            end
          else if (c =? 45) || is_digit c then parse_number (c :: r)
          else if c =? 116 then
            (fun r' => (JBool true, r')) <$> strip_prefix (str "rue") r
          else if c =? 102 then
            (fun r' => (JBool false, r')) <$> strip_prefix (str "alse") r
          else if c =? 110 then
            (fun r' => (JNull, r')) <$> strip_prefix (str "ull") r
          else None
      end
  end
with parse_elements (fuel : nat) (acc : list json) (s : text) {struct fuel}
  : option (json * text) :=
  match fuel with
  | O => None
  | S fuel' =>
      match parse_value fuel' s with
      | Some (v, r) =>
          match skip_ws r with
          | c :: r' =>
              if c =? 44 then parse_elements fuel' (acc ++ [v]) r'
              else if c =? 93 then Some (JArr (acc ++ [v]), r')
              else None
          | [] => None
          end
      | None => None
      end
  end
with parse_members (fuel : nat) (acc : list (text * json)) (s : text)
    {struct fuel} : option (json * text) :=
  match fuel with
  | O => None
  | S fuel' =>
      match skip_ws s with
      | q :: r0 =>
          if q =? 34 then
            match parse_chars [] r0 with
            | Some (k, r1) =>
                match skip_ws r1 with
                | c :: r2 =>
                    if c =? 58 then
                      match parse_value fuel' r2 with
                      | Some (v, r3) =>
                          match skip_ws r3 with
                          | d :: r4 =>
                              if d =? 44
                              then parse_members fuel' (obj_set k v acc) r4
                              else if d =? 125
                              then Some (JObj (obj_set k v acc), r4)
                              else None
                          | [] => None
                          end
                      | None => None
                      end
                    else None
                | [] => None
                end
            | None => None
            end
          else None
      | [] => None
      end
  end.

(** [JSON.parse(s)]: one value, white space around it, nothing else;
    [None] is a [SyntaxError]. *)
Definition parse (s : text) : option json :=
  match parse_value (S (length s)) s with
  | Some (v, rest) =>
      match skip_ws rest with
      | [] => Some v
      | _ :: _ => None
      end
  | None => None
  end.

(** The values that objects of the language give: no name twice in an
    object. *)
Fixpoint distinct_names (v : json) : Prop :=
  match v with
  | JArr items =>
      (fix all (l : list json) : Prop :=
         match l with
         | [] => True
         | x :: l' => distinct_names x /\ all l'
         end) items
  | JObj members =>
      NoDup (members.*1) /\
      (fix all (l : list (text * json)) : Prop :=
         match l with
         | [] => True
         | (_, x) :: l' => distinct_names x /\ all l'
         end) members
  | _ => True
  end.

(** *** Reading back what was printed *)

Lemma digits_fuel_acc (fuel : nat) (n : N) (acc : text) :
  digits_fuel fuel n acc = digits_fuel fuel n [] ++ acc.
Proof.
  revert n acc; induction fuel as [|fuel IH]; intros n acc; simpl; [done|].
  destruct (n <? 10); [done|].
  rewrite IH, (IH _ [_]), <- (assoc_L (++)). done.
Qed.

Lemma is_digit_spec (c : N) : is_digit c = true <-> 48 <= c <= 57.
Proof. unfold is_digit. rewrite andb_true_iff, !N.leb_le. done. Qed.

Lemma is_digit_add (k : N) : k < 10 -> is_digit (48 + k) = true.
Proof. intros. apply is_digit_spec. lia. Qed.

(** The digits of a number: a digit first, [0] first only for zero, and a
    digit run reads the number back. *)
Lemma digits_fuel_run (fuel : nat) (n : N) :
  n < 10 ^ N.of_nat (S fuel) ->
  exists c ds d,
    digits_fuel (S fuel) n [] = c :: ds /\
    is_digit c = true /\
    (c = 48 -> d = 1%nat) /\
    d = length (c :: ds) /\
    forall a k rest,
      digit_run a k ((c :: ds) ++ rest) =
      digit_run (a * 10 ^ N.of_nat d + n) (k + d)%nat rest.
Proof.
  revert n; induction fuel as [|fuel IH]; intros n Hn.
  - assert (n < 10) by (simpl in Hn; lia).
    exists (48 + n), [], 1%nat. simpl.
    destruct (N.ltb_spec n 10); [|lia].
    rewrite N.mod_small by done.
    split; [done|]. split; [by apply is_digit_add|]. do 2 (split; [done|]).
    intros a k rest. rewrite is_digit_add by done.
    f_equal; [f_equal; lia | lia].
  - change (digits_fuel (S (S fuel)) n []) with
      (if n <? 10 then [48 + n mod 10]
       else digits_fuel (S fuel) (n / 10) [48 + n mod 10]).
    destruct (N.ltb_spec n 10) as [Hlt|Hge].
    + rewrite N.mod_small by done.
      exists (48 + n), [], 1%nat. simpl.
      split; [done|]. split; [by apply is_digit_add|]. do 2 (split; [done|]).
      intros a k rest. rewrite is_digit_add by done.
      f_equal; [f_equal; lia | lia].
    + pose proof (N.div_mod n 10 ltac:(lia)) as Hdm.
      pose proof (N.mod_lt n 10 ltac:(lia)) as Hm.
      destruct (IH (n / 10)) as (c & ds & d & Hd & Hc & H0 & Hlen & Hrun).
      { rewrite Nat2N.inj_succ, N.pow_succ_r' in Hn.
        apply N.Div0.div_lt_upper_bound. lia. }
      rewrite digits_fuel_acc, Hd.
      exists c, (ds ++ [48 + n mod 10]), (S d).
      split; [done|]. split; [done|]. split.
      { intros ->. specialize (H0 eq_refl). subst d.
        exfalso. specialize (Hrun 0 0%nat []).
        rewrite app_nil_r in Hrun. simpl in Hrun.
        destruct ds; simpl in *; [|lia].
        injection Hrun as Hrun. lia. }
      split; [simpl; rewrite length_app; simpl in *; lia|].
      intros a k rest.
      replace ((c :: ds ++ [48 + n mod 10]) ++ rest)
        with ((c :: ds) ++ (48 + n mod 10) :: rest)
        by (simpl; rewrite <- (assoc_L (++)); done).
      rewrite Hrun. simpl. rewrite is_digit_add by done.
      f_equal; [|lia].
      rewrite Nat2N.inj_succ, N.pow_succ_r'.
      rewrite (N.mul_comm 10 (10 ^ _)), N.mul_assoc.
      generalize (a * 10 ^ N.of_nat d). intros X.
      clear - Hdm Hm. revert Hdm Hm.
      generalize (n / 10), (n mod 10). lia.
Qed.

Lemma digits_run (n : N) :
  exists c ds d,
    digits n = c :: ds /\
    is_digit c = true /\
    (c = 48 -> d = 1%nat) /\
    d = length (c :: ds) /\
    forall a k rest,
      digit_run a k ((c :: ds) ++ rest) =
      digit_run (a * 10 ^ N.of_nat d + n) (k + d)%nat rest.
Proof.
  apply digits_fuel_run.
  rewrite Nat2N.inj_succ, N2Nat.id.
  destruct (N.eq_dec n 0) as [->|Hn]; [done|].
  eapply N.lt_le_trans; [apply N.log2_spec; lia|].
  apply N.pow_le_mono_l. lia.
Qed.

(** What may follow a value inside a text: nothing, a comma, or a closing
    bracket or brace. *)
Definition delimited (rest : text) : Prop :=
  match rest with
  | [] => True
  | c :: _ => c = 44 \/ c = 93 \/ c = 125
  end.

Lemma digit_run_stop (a : N) (k : nat) (rest : text) :
  match rest with [] => True | c :: _ => is_digit c = false end ->
  digit_run a k rest = (a, k, rest).
Proof. destruct rest as [|c r]; simpl; [done|]. by intros ->. Qed.

Lemma delimited_no_digit (rest : text) :
  delimited rest ->
  match rest with [] => True | c :: _ => is_digit c = false end.
Proof.
  destruct rest as [|c r]; simpl; [done|].
  by intros [->|[->| ->]].
Qed.

Lemma parse_exponent_print (neg : bool) (n : N) (e : Z) (rest : text) :
  delimited rest ->
  parse_exponent neg n 0
    ((if (e =? 0)%Z then []
      else 101 :: (if (e <? 0)%Z then [45] else []) ++ digits (Z.abs_N e))
     ++ rest) =
  Some (JNum (if neg then (- Z.of_N n)%Z else Z.of_N n) e, rest).
Proof.
  intros Hrest.
  destruct (Z.eqb_spec e 0) as [->|He]; simpl.
  - destruct rest as [|c r]; simpl in *; [done|].
    by destruct Hrest as [->|[->| ->]].
  - destruct (digits_run (Z.abs_N e)) as (c & ds & d & Hd & Hc & _ & Hlen & Hrun).
    assert (Hstop : digit_run 0 0 ((c :: ds) ++ rest)
                    = (Z.abs_N e, d, rest)).
    { rewrite Hrun. simpl.
      by rewrite digit_run_stop by by apply delimited_no_digit. }
    apply is_digit_spec in Hc.
    rewrite Hd. destruct (Z.ltb_spec e 0) as [Hneg|Hpos].
    + change (([45] ++ c :: ds) ++ rest) with (45 :: (c :: ds) ++ rest).
      cbv beta iota. change (45 =? 45) with true. cbv iota.
      rewrite Hstop. rewrite Hlen. simpl.
      do 3 f_equal. lia.
    + change (([] ++ c :: ds) ++ rest) with ((c :: ds) ++ rest).
      rewrite <- app_comm_cons.
      destruct (N.eqb_spec c 45); [lia|].
      destruct (N.eqb_spec c 43); [lia|].
      rewrite app_comm_cons, Hstop. rewrite Hlen. simpl.
      do 3 f_equal. lia.
Qed.

Lemma parse_number_print (m e : Z) (rest : text) :
  delimited rest ->
  parse_number (print_number m e ++ rest) = Some (JNum m e, rest).
Proof.
  intros Hrest. unfold print_number.
  destruct (digits_run (Z.abs_N m)) as (c & ds & d & Hd & Hc & H0 & Hlen & Hrun).
  rewrite Hd. rewrite <- !(assoc_L (++)).
  set (tail := (if (e =? 0)%Z then [] else _) ++ rest).
  assert (Htail : match tail with [] => True
                  | c :: _ => is_digit c = false /\ c <> 46 end).
  { subst tail. destruct (e =? 0)%Z; simpl; [|done].
    destruct rest as [|x r]; simpl in *; [done|].
    by destruct Hrest as [->|[->| ->]]. }
  assert (Hstop : digit_run 0 0 (c :: ds ++ tail) = (Z.abs_N m, d, tail)).
  { rewrite app_comm_cons, Hrun. simpl. apply digit_run_stop.
    destruct tail; [done|]. by destruct Htail. }
  assert (Hexp : forall neg,
    match tail with
    | x :: s3 =>
        if x =? 46 then
          match digit_run (Z.abs_N m) 0 s3 with
          | (_, O, _) => None
          | (n', k', s4) => parse_exponent neg n' (- Z.of_nat k') s4
          end
        else parse_exponent neg (Z.abs_N m) 0 tail
    | [] => parse_exponent neg (Z.abs_N m) 0 tail
    end = Some (JNum (if neg then (- Z.of_N (Z.abs_N m))%Z
                      else Z.of_N (Z.abs_N m)) e, rest)).
  { intros neg. pose proof (parse_exponent_print neg (Z.abs_N m) e rest Hrest)
      as Hp. fold tail in Hp.
    destruct tail as [|x s3]; [done|].
    destruct Htail as [_ Hx]. by destruct (N.eqb_spec x 46). }
  apply is_digit_spec in Hc.
  assert (Hlead : (c =? 48) && negb (d =? 1)%nat = false).
  { destruct (N.eqb_spec c 48) as [Hc48|]; [|done].
    by rewrite (H0 Hc48). }
  destruct d as [|d']; [done|].
  unfold parse_number.
  destruct (Z.ltb_spec m 0) as [Hneg|Hpos]; cbn [app].
  - change (45 =? 45) with true. cbv iota beta.
    rewrite Hstop. cbv iota.
    rewrite Hlead, Hexp. do 3 f_equal. lia.
  - destruct (N.eqb_spec c 45); [lia|].
    rewrite Hstop. cbv iota.
    rewrite Hlead, Hexp. do 3 f_equal. lia.
Qed.

Lemma hex_val_digit (k : N) : k < 16 -> hex_val (hex_digit k) = Some k.
Proof.
  intros Hk.
  assert (Hj : exists j, (j < 16)%nat /\ k = N.of_nat j)
    by (exists (N.to_nat k); lia).
  destruct Hj as (j & Hj & ->).
  do 16 (destruct j as [|j]; [reflexivity|]). lia.
Qed.

Lemma hex4_value (c : N) :
  c < 65536 ->
  ((c / 4096 mod 16 * 16 + c / 256 mod 16) * 16 + c / 16 mod 16) * 16
    + c mod 16 = c.
Proof.
  intros Hc.
  pose proof (N.div_mod c 16 ltac:(lia)) as H1.
  pose proof (N.mod_lt c 16 ltac:(lia)) as H1'.
  pose proof (N.div_mod (c / 16) 16 ltac:(lia)) as H2.
  pose proof (N.mod_lt (c / 16) 16 ltac:(lia)) as H2'.
  pose proof (N.div_mod (c / 16 / 16) 16 ltac:(lia)) as H3.
  pose proof (N.mod_lt (c / 16 / 16) 16 ltac:(lia)) as H3'.
  assert (H4 : c / 16 / 16 / 16 < 16).
  { rewrite !N.Div0.div_div. change (16 * 16 * 16) with 4096.
    apply N.Div0.div_lt_upper_bound. lia. }
  rewrite (N.mod_small (c / 4096) 16)
    by (change 4096 with (16 * 16 * 16); by rewrite <- !N.Div0.div_div).
  change 4096 with (16 * 16 * 16). change 256 with (16 * 16).
  rewrite <- !N.Div0.div_div.
  revert H1 H1' H2 H2' H3 H3' H4.
  generalize (c mod 16), (c / 16 mod 16), (c / 16 / 16 mod 16).
  generalize (c / 16 / 16 / 16), (c / 16 / 16), (c / 16). lia.
Qed.

Lemma parse_chars_uescape (acc : text) (c : N) (t : text) :
  c < 65536 ->
  parse_chars acc (uescape c ++ t) = parse_chars (acc ++ [c]) t.
Proof.
  intros Hc. unfold uescape, hex4. cbn [app parse_chars].
  change (92 =? 34) with false. change (92 =? 92) with true.
  change (117 =? 34) with false. change (117 =? 92) with false.
  change (117 =? 47) with false. change (117 =? 98) with false.
  change (117 =? 102) with false. change (117 =? 110) with false.
  change (117 =? 114) with false. change (117 =? 116) with false.
  change (117 =? 117) with true. cbv iota.
  rewrite !hex_val_digit by (apply N.mod_lt; lia).
  by rewrite hex4_value.
Qed.

Lemma parse_chars_plain (acc : text) (c : N) (t : text) :
  c <> 34 -> c <> 92 -> 32 <= c ->
  parse_chars acc (c :: t) = parse_chars (acc ++ [c]) t.
Proof.
  intros H1 H2 H3. cbn [parse_chars].
  destruct (N.eqb_spec c 34); [done|].
  destruct (N.eqb_spec c 92); [done|].
  destruct (N.ltb_spec c 32); [lia|done].
Qed.

Lemma parse_chars_quote_unit (acc : text) (c : N) (t : text) :
  parse_chars acc (quote_unit c ++ t) = parse_chars (acc ++ [c]) t.
Proof.
  unfold quote_unit.
  destruct (N.eqb_spec c 34) as [->|]; [done|].
  destruct (N.eqb_spec c 92) as [->|]; [done|].
  destruct (N.eqb_spec c 8) as [->|]; [done|].
  destruct (N.eqb_spec c 12) as [->|]; [done|].
  destruct (N.eqb_spec c 10) as [->|]; [done|].
  destruct (N.eqb_spec c 13) as [->|]; [done|].
  destruct (N.eqb_spec c 9) as [->|]; [done|].
  destruct (N.ltb_spec c 32).
  - apply parse_chars_uescape. lia.
  - by apply parse_chars_plain.
Qed.

Lemma is_high_spec (c : N) : is_high c = true <-> 0xD800 <= c <= 0xDBFF.
Proof. unfold is_high. rewrite andb_true_iff, !N.leb_le. done. Qed.

Lemma is_low_spec (c : N) : is_low c = true <-> 0xDC00 <= c <= 0xDFFF.
Proof. unfold is_low. rewrite andb_true_iff, !N.leb_le. done. Qed.

(** Reading the inside of a printed string gives the string back. *)
Lemma parse_chars_quote_units (s : text) (acc rest : text) :
  parse_chars acc (quote_units s ++ 34 :: rest) = Some (acc ++ s, rest).
Proof.
  remember (length s) as n eqn:Hn.
  assert (Hle : (length s <= n)%nat) by lia. clear Hn.
  revert s acc Hle. induction n as [|n IH]; intros s acc Hle.
  { destruct s; simpl in *; [|lia]. by rewrite app_nil_r. }
  destruct s as [|c r]; [simpl; by rewrite app_nil_r|].
  assert (Hr : forall acc', parse_chars acc' (quote_units r ++ 34 :: rest)
                            = Some (acc' ++ r, rest)).
  { intros acc'. apply IH. simpl in Hle. lia. }
  cbn [quote_units].
  destruct (is_high c) eqn:Hhigh.
  - apply is_high_spec in Hhigh.
    destruct r as [|d r'].
    + rewrite parse_chars_uescape by lia. done.
    + destruct (is_low d) eqn:Hlow.
      * apply is_low_spec in Hlow. cbn [app].
        rewrite !parse_chars_plain by lia.
        rewrite IH by (simpl in Hle; lia).
        by rewrite <- !(assoc_L (++)).
      * rewrite <- (assoc_L (++)), parse_chars_uescape by lia.
        rewrite Hr. by rewrite <- (assoc_L (++)).
  - destruct (is_low c) eqn:Hlow.
    + apply is_low_spec in Hlow.
      rewrite <- (assoc_L (++)), parse_chars_uescape by lia.
      rewrite Hr. by rewrite <- (assoc_L (++)).
    + rewrite <- (assoc_L (++)), parse_chars_quote_unit.
      rewrite Hr. by rewrite <- (assoc_L (++)).
Qed.

(** Induction on a value, with the elements of an array and the members of
    an object as induction hypotheses. *)
Fixpoint json_nested_ind (P : json -> Prop)
    (HNull : P JNull) (HBool : forall b, P (JBool b))
    (HNum : forall m e, P (JNum m e)) (HStr : forall s, P (JStr s))
    (HArr : forall items, Forall P items -> P (JArr items))
    (HObj : forall members, Forall (fun kx => P kx.2) members ->
                            P (JObj members))
    (v : json) {struct v} : P v :=
  match v with
  | JNull => HNull
  | JBool b => HBool b
  | JNum m e => HNum m e
  | JStr s => HStr s
  | JArr items =>
      HArr items
        ((fix all (l : list json) : Forall P l :=
            match l with
            | [] => @List.Forall_nil _ P
            | x :: l' =>
                @List.Forall_cons _ P x l'
                  (json_nested_ind P HNull HBool HNum HStr HArr HObj x)
                  (all l')
            end) items)
  | JObj members =>
      HObj members
        ((fix all (l : list (text * json)) : Forall (fun kx => P kx.2) l :=
            match l with
            | [] => @List.Forall_nil _ (fun kx => P kx.2)
            | (k, x) :: l' =>
                @List.Forall_cons _ (fun kx => P kx.2) (k, x) l'
                  (json_nested_ind P HNull HBool HNum HStr HArr HObj x)
                  (all l')
            end) members)
  end.

Lemma distinct_names_arr (items : list json) :
  distinct_names (JArr items) <-> Forall distinct_names items.
Proof.
  simpl. induction items as [|x l IH]; [by split|].
  rewrite Forall_cons, <- IH. done.
Qed.

Lemma distinct_names_obj (members : list (text * json)) :
  distinct_names (JObj members) <->
  NoDup (members.*1) /\ Forall (fun kx => distinct_names kx.2) members.
Proof.
  simpl. apply and_iff_compat_l.
  induction members as [|[k x] l IH]; [by split|].
  rewrite Forall_cons, <- IH. done.
Qed.

(** A printed value reads back as itself, whatever delimiter follows. *)
Definition reads_back (v : json) : Prop :=
  forall fuel rest,
    (length (stringify v) <= fuel)%nat -> delimited rest ->
    parse_value fuel (stringify v ++ rest) = Some (v, rest).

Lemma parse_value_number (fuel : nat) (c : N) (t : text) :
  c = 45 \/ is_digit c = true ->
  parse_value (S fuel) (c :: t) = parse_number (c :: t).
Proof.
  intros Hc.
  assert (Hc' : c = 45 \/ 48 <= c <= 57)
    by (destruct Hc; [by left | right; by apply is_digit_spec]).
  assert (Hor : (c =? 45) || is_digit c = true).
  { destruct Hc as [-> | ->]; [done|]. by rewrite orb_true_r. }
  cbn [parse_value skip_ws]. unfold is_ws.
  destruct (N.eqb_spec c 32); [lia|].
  destruct (N.eqb_spec c 9); [lia|].
  destruct (N.eqb_spec c 10); [lia|].
  destruct (N.eqb_spec c 13); [lia|]. cbn [orb].
  destruct (N.eqb_spec c 123); [lia|].
  destruct (N.eqb_spec c 91); [lia|].
  destruct (N.eqb_spec c 34); [lia|].
  by rewrite Hor.
Qed.

Lemma print_number_head (m e : Z) :
  exists c r, print_number m e = c :: r /\ (c = 45 \/ is_digit c = true).
Proof.
  unfold print_number.
  destruct (digits_run (Z.abs_N m)) as (c & ds & d & Hd & Hc & _).
  rewrite Hd. destruct (m <? 0)%Z; simpl; eauto.
Qed.

(** The first character of a printed value. *)
Lemma stringify_head (v : json) :
  exists c r, stringify v = c :: r /\ is_ws c = false /\ c <> 93 /\ c <> 125.
Proof.
  destruct v as [|[]|m e|s|items|members]; try (by eexists _, _).
  cbn [stringify].
  destruct (print_number_head m e) as (c & r & -> & Hc).
  exists c, r. split; [done|].
  assert (c = 45 \/ 48 <= c <= 57)
    by (destruct Hc; [by left | right; by apply is_digit_spec]).
  unfold is_ws.
  destruct (N.eqb_spec c 32); [lia|].
  destruct (N.eqb_spec c 9); [lia|].
  destruct (N.eqb_spec c 10); [lia|].
  destruct (N.eqb_spec c 13); [lia|].
  split; [done|]. lia.
Qed.

Lemma parse_elements_S (fuel : nat) (acc : list json) (s : text) :
  parse_elements (S fuel) acc s =
  match parse_value fuel s with
  | Some (v, r) =>
      match skip_ws r with
      | c :: r' =>
          if c =? 44 then parse_elements fuel (acc ++ [v]) r'
          else if c =? 93 then Some (JArr (acc ++ [v]), r')
          else None
      | [] => None
      end
  | None => None
  end.
Proof. done. Qed.

Lemma join_comma_cons (p q : text) (l : list text) :
  join_comma (p :: q :: l) = p ++ 44 :: join_comma (q :: l).
Proof. done. Qed.

Lemma parse_elements_join (items : list json) :
  items <> [] -> Forall reads_back items ->
  forall fuel acc rest,
    (length (join_comma (map stringify items)) < fuel)%nat ->
    parse_elements fuel acc (join_comma (map stringify items) ++ 93 :: rest)
    = Some (JArr (acc ++ items), rest).
Proof.
  induction items as [|x l IH]; [done|].
  intros _ HF fuel acc rest Hfuel.
  apply Forall_cons in HF as [Hx Hl].
  destruct fuel as [|fuel]; [lia|]. rewrite parse_elements_S.
  destruct l as [|y l'].
  - cbn [map join_comma] in *.
    rewrite Hx by (done || lia || (simpl; auto)). done.
  - cbn [map] in *. rewrite join_comma_cons in *.
    rewrite length_app in Hfuel. cbn [length] in Hfuel.
    rewrite <- (assoc_L (++)), <- app_comm_cons.
    rewrite Hx by (lia || (simpl; auto)).
    cbn [skip_ws]. change (is_ws 44) with false. cbv iota.
    change (44 =? 44) with true. cbv iota.
    rewrite IH by (done || lia).
    by rewrite <- (assoc_L (++)).
Qed.

Lemma obj_set_fresh (k : text) (v : json) (acc : list (text * json)) :
  k ∉ acc.*1 -> obj_set k v acc = acc ++ [(k, v)].
Proof.
  induction acc as [|[k' v'] acc IH]; [done|].
  cbn [fmap list_fmap fst]. rewrite not_elem_of_cons. intros [Hne Hk].
  cbn [obj_set]. rewrite bool_decide_eq_false_2 by done.
  cbn [app]. by rewrite IH.
Qed.

Lemma parse_members_S (fuel : nat) (acc : list (text * json)) (s : text) :
  parse_members (S fuel) acc s =
  match skip_ws s with
  | q :: r0 =>
      if q =? 34 then
        match parse_chars [] r0 with
        | Some (k, r1) =>
            match skip_ws r1 with
            | c :: r2 =>
                if c =? 58 then
                  match parse_value fuel r2 with
                  | Some (v, r3) =>
                      match skip_ws r3 with
                      | d :: r4 =>
                          if d =? 44
                          then parse_members fuel (obj_set k v acc) r4
                          else if d =? 125
                          then Some (JObj (obj_set k v acc), r4)
                          else None
                      | [] => None
                      end
                  | None => None
                  end
                else None
            | [] => None
            end
        | None => None
        end
      else None
  | [] => None
  end.
Proof. done. Qed.

(** The text of a member: its quoted name, a colon, its value. *)
Definition member_text (kx : text * json) : text :=
  quote kx.1 ++ 58 :: stringify kx.2.

Lemma parse_members_join (members : list (text * json)) :
  members <> [] -> Forall (fun kx => reads_back kx.2) members ->
  forall fuel acc rest,
    NoDup (acc.*1 ++ members.*1) ->
    (length (join_comma (map member_text members)) < fuel)%nat ->
    parse_members fuel acc
      (join_comma (map member_text members) ++ 125 :: rest)
    = Some (JObj (acc ++ members), rest).
Proof.
  induction members as [|[k x] l IH]; [done|].
  intros _ HF fuel acc rest Hnodup Hfuel.
  apply Forall_cons in HF as [Hx Hl]. cbn [snd] in Hx.
  assert (Hfresh : k ∉ acc.*1).
  { apply NoDup_app in Hnodup as (_ & Hdisj & _).
    intros Hin. apply (Hdisj k Hin). cbn. left. }
  assert (Hnodup' : forall v, NoDup ((acc ++ [(k, v)]).*1 ++ l.*1)).
  { intros v. rewrite fmap_app, <- (assoc_L (++)). done. }
  destruct fuel as [|fuel]; [lia|]. rewrite parse_members_S.
  destruct l as [|ky l'].
  - cbn [map join_comma] in *. unfold member_text, quote in *.
    cbn [fst snd app] in *.
    rewrite <- !(assoc_L (++)). cbn [app skip_ws].
    change (is_ws 34) with false. cbv iota.
    change (34 =? 34) with true. cbv iota.
    rewrite parse_chars_quote_units. cbn [app skip_ws].
    change (is_ws 58) with false. cbv iota.
    change (58 =? 58) with true. cbv iota.
    repeat (progress cbn [length] in Hfuel || rewrite length_app in Hfuel).
    rewrite Hx by (lia || (simpl; auto)).
    rewrite obj_set_fresh by done. done.
  - cbn [map] in *. rewrite join_comma_cons in *.
    unfold member_text at 1. unfold member_text at 1 in Hfuel.
    unfold quote in *. cbn [fst snd app] in *.
    repeat (progress cbn [length] in Hfuel || rewrite length_app in Hfuel).
    rewrite <- !(assoc_L (++)). cbn [app skip_ws].
    change (is_ws 34) with false. cbv iota.
    change (34 =? 34) with true. cbv iota.
    rewrite parse_chars_quote_units. cbn [app skip_ws].
    change (is_ws 58) with false. cbv iota.
    change (58 =? 58) with true. cbv iota.
    rewrite Hx by (lia || (simpl; auto)).
    cbn [skip_ws]. change (is_ws 44) with false. cbv iota.
    change (44 =? 44) with true. cbv iota.
    rewrite obj_set_fresh by done.
    rewrite IH by (done || lia).
    by rewrite <- (assoc_L (++)).
Qed.

(** Every value with distinct names reads back from its text. *)
Lemma parse_value_stringify (v : json) : distinct_names v -> reads_back v.
Proof.
  induction v as [|b|m e|s|items IH|members IH] using json_nested_ind;
    intros Hd fuel rest Hfuel Hrest.
  - destruct fuel; [simpl in Hfuel; lia|]. done.
  - destruct fuel; [destruct b; simpl in Hfuel; lia|]. by destruct b.
  - cbn [stringify] in *.
    destruct (print_number_head m e) as (c & r & Hp & Hc).
    destruct fuel; [rewrite Hp in Hfuel; simpl in Hfuel; lia|].
    rewrite <- parse_number_print by done.
    rewrite Hp. cbn [app]. by apply parse_value_number.
  - destruct fuel; [simpl in Hfuel; lia|].
    cbn [stringify quote app parse_value skip_ws].
    change (is_ws 34) with false. cbv iota.
    change (34 =? 123) with false. change (34 =? 91) with false.
    change (34 =? 34) with true. cbv iota.
    rewrite <- (assoc_L (++)). cbn [app].
    by rewrite parse_chars_quote_units.
  - apply distinct_names_arr in Hd.
    assert (HF : Forall reads_back items).
    { rewrite Forall_forall in IH, Hd |- *. auto. }
    cbn [stringify] in *. cbn [length] in Hfuel.
    rewrite length_app in Hfuel. cbn [length] in Hfuel.
    destruct fuel as [|fuel]; [lia|].
    cbn [app parse_value skip_ws].
    change (is_ws 91) with false. cbv iota.
    change (91 =? 123) with false. change (91 =? 91) with true. cbv iota.
    rewrite <- (assoc_L (++)). cbn [app].
    destruct items as [|x l]; [done|].
    apply Forall_cons in HF as HF'. destruct HF' as [Hx _].
    destruct (stringify_head x) as (c & r & Hc & Hws & Hc93 & _).
    assert (Hskip : exists t,
      skip_ws (join_comma (map stringify (x :: l)) ++ 93 :: rest) = c :: t).
    { cbn [map]. destruct l; cbn [map join_comma];
        rewrite Hc; cbn [app skip_ws]; rewrite Hws; eauto. }
    destruct Hskip as [t ->].
    destruct (N.eqb_spec c 93); [done|].
    apply (parse_elements_join (x :: l) ltac:(done) HF fuel []). lia.
  - apply distinct_names_obj in Hd as [Hnodup Hd].
    assert (HF : Forall (fun kx => reads_back kx.2) members).
    { rewrite Forall_forall in IH, Hd |- *. auto. }
    cbn [stringify] in *. cbn [length] in Hfuel.
    rewrite length_app in Hfuel. cbn [length] in Hfuel.
    destruct fuel as [|fuel]; [lia|].
    cbn [app parse_value skip_ws].
    change (is_ws 123) with false. cbv iota.
    change (123 =? 123) with true. cbv iota.
    rewrite <- (assoc_L (++)). cbn [app].
    destruct members as [|[k x] l]; [done|].
    assert (Hskip : exists t,
      skip_ws (join_comma (map (fun kx => quote kx.1 ++ 58 :: stringify kx.2)
                               ((k, x) :: l)) ++ 125 :: rest) = 34 :: t).
    { cbn [map]. destruct l; cbn [map join_comma]; unfold quote;
        cbn [app skip_ws]; change (is_ws 34) with false; eauto. }
    destruct Hskip as [t ->].
    change (34 =? 125) with false. cbv iota.
    apply (parse_members_join ((k, x) :: l) ltac:(done) HF fuel [] rest
             Hnodup). unfold member_text. lia.
Qed.

(** [JSON.parse(JSON.stringify(v))] is [v]. *)
Lemma parse_stringify (v : json) :
  distinct_names v -> parse (stringify v) = Some v.
Proof.
  intros Hd. unfold parse.
  pose proof (parse_value_stringify v Hd (S (length (stringify v))) []
                ltac:(lia) I) as H.
  rewrite app_nil_r in H. by rewrite H.
Qed.

(** [JSON.stringify] never gives the empty text. *)
Lemma stringify_nonempty (v : json) : stringify v <> [].
Proof. destruct (stringify_head v) as (c & r & -> & _). done. Qed.
End Json.

(** ** The sampler of the main process ([main.js]) *)

Module Sampler.

(** *** JavaScript data

    What a provider of [systeminformation] resolves with is plain data:
    [undefined], [null], booleans, numbers (IEEE-754 binary64, the kernel's
    floats), strings, arrays and objects (own properties in order). *)
Inductive value :=
| VUndef
| VNull
| VBool (b : bool)
| VNum (x : float)
| VStr (s : text)
| VArr (items : list value)
| VObj (fields : list (string * value)).

(** An own property of an object. *)
Fixpoint own (k : string) (fields : list (string * value)) : value :=
  match fields with
  | [] => VUndef
  | (k', v) :: rest => if String.eqb k k' then v else own k rest
  end.

Definition of_nat (n : nat) : float :=
  PrimFloat.of_uint63 (Uint63.of_Z (Z.of_nat n)).

(** [v.k] for a data key [k]: a [TypeError] on [undefined] and [null];
    [length] of arrays and strings; an own property of an object;
    [undefined] otherwise. *)
Definition get (v : value) (k : string) : result value :=
  match v with
  | VUndef | VNull => Throw (TypeError "Cannot read properties of undefined or null")
  | VObj fields => Ok (own k fields)
  | VArr items => Ok (if String.eqb k "length" then VNum (of_nat (length items)) else VUndef)
  | VStr s => Ok (if String.eqb k "length" then VNum (of_nat (length s)) else VUndef)
  | VBool _ | VNum _ => Ok VUndef
  end.

(** [v[0]]. *)
Definition get0 (v : value) : result value :=
  match v with
  | VUndef | VNull => Throw (TypeError "Cannot read properties of undefined or null")
  | VObj fields => Ok (own "0" fields)
  | VArr items => Ok (default VUndef (head items))
  | VStr s => Ok (match s with c :: _ => VStr [c] | [] => VUndef end)
  | VBool _ | VNum _ => Ok VUndef
  end.

(** [v?.k]. *)
Definition get_opt (v : value) (k : string) : result value :=
  match v with
  | VUndef | VNull => Ok VUndef
  | _ => get v k
  end.

(** [ToBoolean]. *)
Definition truthy (v : value) : bool :=
  match v with
  | VUndef | VNull => false
  | VBool b => b
  | VNum x => negb (PrimFloat.is_zero x || PrimFloat.is_nan x)
  | VStr s => match s with [] => false | _ => true end
  | VArr _ | VObj _ => true
  end.

(** [a || b]. *)
Definition or_else (a b : value) : value := if truthy a then a else b.

Section Engine.
(** The engine's conversions between numbers and strings
    ([Number::toString] and [StringToNumber]) are taken as they are. *)
Context (NumberToString : float -> text) (StringToNumber : text -> float).

(** [ToString] on plain data. *)
Fixpoint ToString (v : value) : text :=
  match v with
  | VUndef => str "undefined"
  | VNull => str "null"
  | VBool true => str "true"
  | VBool false => str "false"
  | VNum x => NumberToString x
  | VStr s => s
  | VArr items =>
      join_comma
        ((fix each (l : list value) : list text :=
            match l with
            | [] => []
            | VUndef :: l' => [] :: each l'
            | VNull :: l' => [] :: each l'
            | e :: l' => ToString e :: each l'
            end) items)
  | VObj _ => str "[object Object]"
  end.

(** [ToNumber] on plain data. *)
Definition ToNumber (v : value) : float :=
  match v with
  | VUndef => PrimFloat.nan
  | VNull => PrimFloat.zero
  | VBool true => PrimFloat.one
  | VBool false => PrimFloat.zero
  | VNum x => x
  | VStr s => StringToNumber s
  | VArr _ | VObj _ => StringToNumber (ToString v)
  end.

(** [Number.prototype.toFixed(1)], from the exact value [m * 2^e] of a
    finite number: the integer [n] nearest to ten times the magnitude, the
    larger one on a tie; a magnitude of [10^21] or more, and a number that is
    not finite, print as [Number::toString] prints them. *)
Definition tenths (m : positive) (e : Z) : N :=
  Z.to_N (if (0 <=? e)%Z then 10 * Z.pos m * 2 ^ e
          else (20 * Z.pos m + 2 ^ (- e)) / 2 ^ (1 - e))%Z.

Definition at_least_1e21 (m : positive) (e : Z) : bool :=
  if (0 <=? e)%Z then (10 ^ 21 <=? Z.pos m * 2 ^ e)%Z
  else (10 ^ 21 * 2 ^ (- e) <=? Z.pos m)%Z.

Definition fixed1 (n : N) : text :=
  let m := digits n in
  let m := if length m <=? 1 then replicate (2 - length m) 48%N ++ m else m in
  take (length m - 1) m ++ 46%N :: drop (length m - 1) m.

Definition toFixed1 (x : float) : text :=
  match Prim2SF x with
  | S754_nan | S754_infinity _ => NumberToString x
  | S754_zero _ => fixed1 0
  | S754_finite neg m e =>
      (if neg then [45%N] else []) ++
      (if at_least_1e21 m e then NumberToString (PrimFloat.abs x)
       else fixed1 (tenths m e))
  end.

(** *** [getSystemData] *)

(** The [cpu] entry of the snapshot. *)
Definition cpu_entry (cpu : value) : result value :=
  load ← get cpu "currentLoad";
  cpus ← get cpu "cpus";
  cores ← get cpus "length";
  cpus' ← get cpu "cpus";
  first ← get0 cpus';
  temperature ← get_opt first "temperature";
  mret (VObj [("load", load); ("cores", cores);
              ("temperature", or_else temperature (VNum 0))]).

(** The [memory] entry; [percentage] is the string [toFixed(1)] returns. *)
Definition memory_entry (mem : value) : result value :=
  total ← get mem "total";
  used ← get mem "used";
  free ← get mem "free";
  active ← get mem "active";
  available ← get mem "available";
  used' ← get mem "used";
  total' ← get mem "total";
  mret (VObj [("total", total); ("used", used); ("free", free);
              ("active", active); ("available", available);
              ("percentage",
               VStr (toFixed1 (ToNumber used' / ToNumber total' * 100)%float))]).

(** The callback of [disk.map]. *)
Definition disk_entry (d : value) : result value :=
  fs ← get d "fs";
  size ← get d "size";
  used ← get d "used";
  available ← get d "available";
  use ← get d "use";
  mret (VObj [("fs", fs); ("size", size); ("used", used);
              ("available", available); ("percentage", use)]).

(** [Array.prototype.map] with a callback that may throw. *)
Fixpoint array_map (f : value -> result value) (items : list value)
  : result (list value) :=
  match items with
  | [] => Ok []
  | d :: rest => d' ← f d; rest' ← array_map f rest; mret (d' :: rest')
  end.

(** [disk.map(d => ...)]: only an array has a [map] to call. *)
Definition disk_entries (disk : value) : result value :=
  match disk with
  | VUndef | VNull => Throw (TypeError "Cannot read properties of undefined or null")
  | VArr items => items' ← array_map disk_entry items; mret (VArr items')
  | _ => Throw (TypeError "disk.map is not a function")
  end.

(** The [network] entry. *)
Definition network_entry (network : value) : result value :=
  n0 ← get0 network;
  rx ← get_opt n0 "rx_sec";
  n1 ← get0 network;
  tx ← get_opt n1 "tx_sec";
  n2 ← get0 network;
  connections ← get_opt n2 "connections";
  mret (VObj [("rx_sec", or_else rx (VNum 0));
              ("tx_sec", or_else tx (VNum 0));
              ("connections", or_else connections (VNum 0))]).

(** What the four providers settled with, in the order of the array given
    to [Promise.all]: [currentLoad], [mem], [fsSize], [networkStats]. *)
Record providers := Providers {
  currentLoad : result value;
  mem : result value;
  fsSize : result value;
  networkStats : result value
}.

(** [await Promise.all([...])]: the four values, or a rejection (of the
    rejections, the one of the earliest array position is reported here). *)
Definition Promise_all (p : providers)
  : result (value * value * value * value) :=
  cpu ← currentLoad p;
  memory ← mem p;
  disk ← fsSize p;
  network ← networkStats p;
  mret (cpu, memory, disk, network).

(** The object literal that [getSystemData] returns; [now] is [Date.now()]. *)
Definition snapshot (cpu mem disk network : value) (now : float)
  : result value :=
  c ← cpu_entry cpu;
  m ← memory_entry mem;
  d ← disk_entries disk;
  n ← network_entry network;
  mret (VObj [("cpu", c); ("memory", m); ("disk", d); ("network", n);
              ("timestamp", VNum now)]).

(** *** The state of the main process *)

(** A line written by [console.error]. *)
Record log_entry := LogError { log_message : string; log_error : exn }.

(** The module-level variables of [main.js] that the sampler touches, the
    interval timers of the event loop (identifier to delay), what was sent
    to the renderer, and the console. *)
Record main := Main {
  systemMonitorInterval : option nat;
  timers : gmap nat Z;
  next_timer : nat;
  mainWindow : bool;
  monitoring_interval : Z;
  sent : list (string * value);
  console : list log_entry
}.

(** Statements of the main process. *)
#[local] Abbreviation M := (Stmt main).

Definition console_error (message : string) (error : exn) : M unit :=
  fun st =>
    (Ok tt,
     Main (systemMonitorInterval st) (timers st) (next_timer st)
          (mainWindow st) (monitoring_interval st) (sent st)
          (console st ++ [LogError message error])).

(** [mainWindow.webContents.send(channel, data)]; [mainWindow] is [null]
    once the window was closed. *)
Definition send (channel : string) (data : value) : M unit :=
  fun st =>
    if mainWindow st
    then (Ok tt,
          Main (systemMonitorInterval st) (timers st) (next_timer st)
               (mainWindow st) (monitoring_interval st)
               (sent st ++ [(channel, data)]) (console st))
    else (Throw (TypeError "Cannot read properties of null"), st).

(** [getSystemData()]. *)
Definition getSystemData (p : providers) (now : float) : M value :=
  try_catch
    (settled <- lift (Promise_all p) ;;
     let '(cpu, memory, disk, network) := settled in
     lift (snapshot cpu memory disk network now))
    (fun error =>
       console_error "Error getting system data:" error ;;
       ret VNull).

(** The callback given to [setInterval]. *)
Definition tick (p : providers) (now : float) : M unit :=
  try_catch
    (data <- getSystemData p now ;;
     send "system-data-update" data)
    (fun error => console_error "System monitoring error:" error).
End Engine.

Abbreviation M := (Stmt main).

(** [clearInterval(id)]. *)
Definition clearInterval (id : nat) : M unit :=
  fun st =>
    (Ok tt,
     Main (systemMonitorInterval st) (delete id (timers st)) (next_timer st)
          (mainWindow st) (monitoring_interval st) (sent st) (console st)).

(** [setInterval(callback, delay)]: a new timer with the delay it is
    given, and its handle. *)
Definition setInterval (delay : Z) : M nat :=
  fun st =>
    (Ok (next_timer st),
     Main (systemMonitorInterval st)
          (<[next_timer st := delay]> (timers st)) (S (next_timer st))
          (mainWindow st) (monitoring_interval st) (sent st) (console st)).

(** Assignment to [systemMonitorInterval]. *)
Definition set_systemMonitorInterval (h : option nat) : M unit :=
  fun st =>
    (Ok tt,
     Main h (timers st) (next_timer st) (mainWindow st)
          (monitoring_interval st) (sent st) (console st)).

(** [startSystemMonitoring()]. *)
Definition startSystemMonitoring : M unit :=
  running <- gets systemMonitorInterval ;;
  match running with
  | Some id => clearInterval id
  | None => ret tt
  end ;;
  delay <- gets monitoring_interval ;;
  id <- setInterval delay ;;
  set_systemMonitorInterval (Some id).

(** [stopSystemMonitoring()]. *)
Definition stopSystemMonitoring : M unit :=
  running <- gets systemMonitorInterval ;;
  match running with
  | Some id => clearInterval id ;; set_systemMonitorInterval None
  | None => ret tt
  end.

(** The [save-config] handler as far as the sampler sees it:
    [config.monitoring.interval] takes a new value. *)
Definition set_monitoring_interval (delay : Z) : M unit :=
  fun st =>
    (Ok tt,
     Main (systemMonitorInterval st) (timers st) (next_timer st)
          (mainWindow st) delay (sent st) (console st)).

(** The state when the script has run and the window exists: no timer yet,
    the default interval of 5000 ms. *)
Definition initial : main := Main None ∅ 0 true 5000 [] [].

(** One period of the event loop: every active interval timer fires once. *)
Definition round (NumberToString : float -> text)
    (StringToNumber : text -> float) (p : providers) (now : float)
    (st : main) : main :=
  map_fold (fun _ _ acc => exec (tick NumberToString StringToNumber p now) acc)
           st (timers st).

(** The sampler owns at most one timer, the one its variable names. *)
Definition owns_timers (st : main) : Prop :=
  match systemMonitorInterval st with
  | None => timers st = ∅
  | Some id => id < next_timer st /\ exists delay, timers st = {[id := delay]}
  end.

(** A provider rejected. *)
Definition rejected (r : result value) : Prop :=
  match r with Ok _ => False | Throw _ => True end.

Definition is_object (v : value) : Prop :=
  match v with VObj _ => True | _ => False end.

Definition is_array (v : value) : Prop :=
  match v with VArr _ => True | _ => False end.

(** A snapshot with its four entries in place. *)
Definition complete (v : value) : Prop :=
  match v with
  | VObj fields =>
      is_object (own "cpu" fields) /\ is_object (own "memory" fields) /\
      is_array (own "disk" fields) /\ is_object (own "network" fields)
  | _ => False
  end.

(** *** Properties of [getSystemData] and of the timer callback *)

Section Facts.
Context (NumberToString : float -> text) (StringToNumber : text -> float).

Lemma cpu_entry_object cpu c : cpu_entry cpu = Ok c -> is_object c.
Proof. unfold cpu_entry. intros H. invert_binds. done. Qed.

Lemma memory_entry_object m v :
  memory_entry NumberToString StringToNumber m = Ok v -> is_object v.
Proof. unfold memory_entry. intros H. invert_binds. done. Qed.

Lemma disk_entries_array disk v : disk_entries disk = Ok v -> is_array v.
Proof.
  unfold disk_entries. intros H.
  destruct disk; try done. invert_binds. done.
Qed.

Lemma network_entry_object n v : network_entry n = Ok v -> is_object v.
Proof. unfold network_entry. intros H. invert_binds. done. Qed.

Lemma snapshot_complete cpu m disk network now v :
  snapshot NumberToString StringToNumber cpu m disk network now = Ok v ->
  complete v.
Proof.
  unfold snapshot. intros H. invert_binds. simpl.
  repeat split;
    eauto using cpu_entry_object, memory_entry_object, disk_entries_array,
      network_entry_object.
Qed.

Lemma Promise_all_rejected p :
  rejected (currentLoad p) \/ rejected (mem p) \/ rejected (fsSize p) \/
  rejected (networkStats p) ->
  exists e, Promise_all p = Throw e.
Proof.
  unfold Promise_all.
  destruct (currentLoad p), (mem p), (fsSize p), (networkStats p); simpl;
    intros H; try (by eexists); exfalso; tauto.
Qed.

(** [getSystemData] only adds to the console. *)
Lemma getSystemData_frame (p : providers) (now : float) (st : main) :
  exists v logs,
    getSystemData NumberToString StringToNumber p now st =
      (Ok v, Main (systemMonitorInterval st) (timers st) (next_timer st)
                  (mainWindow st) (monitoring_interval st) (sent st)
                  (console st ++ logs)) /\
    ((v = VNull /\ exists e, logs = [LogError "Error getting system data:" e])
     \/ (complete v /\ logs = [])) /\
    (rejected (currentLoad p) \/ rejected (mem p) \/ rejected (fsSize p) \/
     rejected (networkStats p) -> v = VNull).
Proof.
  unfold getSystemData, try_catch, bind, lift, console_error, ret.
  destruct (Promise_all p) as [[[[cpu m] disk] network]|e] eqn:HP.
  - destruct (snapshot _ _ cpu m disk network now) as [v|e] eqn:HS.
    + exists v, []. rewrite app_nil_r. destruct st; simpl.
      repeat split; [eauto using snapshot_complete|].
      intros Hr. apply Promise_all_rejected in Hr as [e He]. congruence.
    + eexists _, _. repeat split; eauto.
  - eexists _, _. repeat split; eauto.
Qed.

(** The timer callback only adds to the console and to what was sent: one
    message when the window is there, none when it is gone. *)
Lemma tick_frame (p : providers) (now : float) (st : main) :
  exists msgs logs,
    tick NumberToString StringToNumber p now st =
      (Ok tt, Main (systemMonitorInterval st) (timers st) (next_timer st)
                   (mainWindow st) (monitoring_interval st)
                   (sent st ++ msgs) (console st ++ logs)) /\
    length msgs = (if mainWindow st then 1 else 0).
Proof.
  destruct (getSystemData_frame p now st) as (v & logs & Hg & _).
  unfold tick, try_catch, bind. rewrite Hg.
  unfold send, console_error; simpl.
  destruct (mainWindow st) eqn:Hw.
  - exists [("system-data-update", v)], logs. done.
  - exists [], (logs ++ [LogError "System monitoring error:"
                          (TypeError "Cannot read properties of null")]).
    by rewrite app_nil_r, (assoc_L (++)).
Qed.

(** C1. Whatever the four providers settle with, [getSystemData] does not
    throw: it returns either [null], having logged the failure, or a snapshot
    whose [cpu], [memory], [disk] and [network] entries are all in place, the
    state untouched; it returns [null] as soon as one provider rejects.  The
    timer callback does not throw either, and neither of them touches the
    interval timer, so the next tick takes place. *)
Theorem getSystemData_all_or_nothing (p : providers) (now : float) (st : main) :
  (exists v st',
     getSystemData NumberToString StringToNumber p now st = (Ok v, st') /\
     timers st' = timers st /\
     systemMonitorInterval st' = systemMonitorInterval st /\
     ((v = VNull /\ exists e,
         console st' = console st ++ [LogError "Error getting system data:" e])
      \/ (complete v /\ st' = st)) /\
     (rejected (currentLoad p) \/ rejected (mem p) \/ rejected (fsSize p) \/
      rejected (networkStats p) -> v = VNull)) /\
  (exists st'',
     tick NumberToString StringToNumber p now st = (Ok tt, st'') /\
     timers st'' = timers st /\
     systemMonitorInterval st'' = systemMonitorInterval st).
Proof.
  split.
  - destruct (getSystemData_frame p now st) as (v & logs & Hg & Hv & Hr).
    eexists _, _. split; [exact Hg|]. repeat split; simpl; try done.
    destruct Hv as [[-> [e ->]]|[Hc ->]]; [left; eauto|right].
    split; [done|]. rewrite app_nil_r. by destruct st.
  - destruct (tick_frame p now st) as (msgs & logs & Ht & _).
    eexists. split; [exact Ht|]. done.
Qed.
End Facts.

(** *** The scenario of the four mocked providers *)

Definition field (k : string) (v : value) : value :=
  match v with VObj fields => own k fields | _ => VUndef end.

Definition item0 (v : value) : value :=
  match v with VArr (x :: _) => x | _ => VUndef end.

(** What the providers resolve with in the scenario, in the property names
    the code reads; [cpus] is the per-core list of [currentLoad]. *)
Definition mocked (cpus : list value) : providers :=
  Providers
    (Ok (VObj [("currentLoad", VNum 42); ("cpus", VArr cpus)]))
    (Ok (VObj [("total", VNum 1000); ("used", VNum 500)]))
    (Ok (VArr [VObj [("use", VNum 70)]]))
    (Ok (VArr [VObj [("rx_sec", VNum 100); ("tx_sec", VNum 50)]])).

Lemma get_opt_Ok (v : value) (k : string) : exists w, get_opt v k = Ok w.
Proof. destruct v; simpl; eauto. Qed.

(** C9 (as the code has it). With the four mocked results, whatever the
    per-core list and the engine's conversions, [getSystemData] returns a
    snapshot with cpu load 42, first disk percentage 70, receive rate 100
    and transmit rate 50 as numbers, and with the memory percentage as the
    string "50.0". *)
Theorem getSystemData_mocked (NumberToString : float -> text)
    (StringToNumber : text -> float) (cpus : list value) (now : float)
    (st : main) :
  exists v,
    getSystemData NumberToString StringToNumber (mocked cpus) now st
      = (Ok v, st) /\
    field "load" (field "cpu" v) = VNum 42 /\
    field "percentage" (field "memory" v) = VStr (str "50.0") /\
    field "percentage" (item0 (field "disk" v)) = VNum 70 /\
    field "rx_sec" (field "network" v) = VNum 100 /\
    field "tx_sec" (field "network" v) = VNum 50.
Proof.
  unfold getSystemData, try_catch, bind, lift, mocked, Promise_all; simpl.
  unfold snapshot, cpu_entry; simpl.
  destruct (get_opt_Ok (default VUndef (head cpus)) "temperature") as [w ->].
  simpl. eexists. split; [reflexivity|]. simpl.
  repeat split.
Qed.

(** With the scenario's results taken as the specification writes them,
    the cpu result being the bare number 42, reading [cpu.cpus.length]
    throws and the sample is [null]. *)
Example getSystemData_bare_cpu_number :
  (getSystemData (fun _ => []) (fun _ => PrimFloat.nan)
     (Providers (Ok (VNum 42)) (mem (mocked [])) (fsSize (mocked []))
                (networkStats (mocked [])))
     0%float initial).1 = Ok VNull.
Proof. reflexivity. Qed.

(** C9 (as stated) fails on the memory percentage: it is the string that
    [toFixed(1)] returns, not the number 50. *)
Lemma getSystemData_mocked_percentage_is_text :
  field "percentage" (field "memory"
    (match (getSystemData (fun _ => []) (fun _ => PrimFloat.nan)
              (mocked []) 0%float initial).1 with
     | Ok v => v
     | Throw _ => VUndef
     end)) = VStr [53; 48; 46; 48]%N /\
  VStr [53; 48; 46; 48]%N <> VNum 50.
Proof. split; [vm_compute; reflexivity | discriminate]. Qed.

(** *** Starting twice *)

Lemma startSystemMonitoring_owned (st : main) :
  owns_timers st ->
  startSystemMonitoring st =
    (Ok tt, Main (Some (next_timer st))
                 {[next_timer st := monitoring_interval st]}
                 (S (next_timer st)) (mainWindow st) (monitoring_interval st)
                 (sent st) (console st)).
Proof.
  unfold owns_timers, startSystemMonitoring, bind, gets, clearInterval,
    setInterval, set_systemMonitorInterval, ret.
  destruct (systemMonitorInterval st) as [id|]; simpl.
  - intros [_ [delay ->]]. by rewrite delete_singleton_eq, insert_empty.
  - intros ->. by rewrite insert_empty.
Qed.

Lemma initial_owns : owns_timers initial.
Proof. done. Qed.

Lemma start_owns (st : main) :
  owns_timers st -> owns_timers (exec startSystemMonitoring st).
Proof.
  intros H. unfold exec. rewrite startSystemMonitoring_owned by done.
  unfold owns_timers; simpl. split; [lia|eauto].
Qed.

Lemma stop_owns (st : main) :
  owns_timers st -> owns_timers (exec stopSystemMonitoring st).
Proof.
  unfold owns_timers, exec, stopSystemMonitoring, bind, gets, clearInterval,
    set_systemMonitorInterval, ret.
  destruct (systemMonitorInterval st) as [id|] eqn:E; simpl.
  - intros [_ [delay ->]]. apply delete_singleton_eq.
  - by rewrite E.
Qed.

Lemma set_interval_owns (delay : Z) (st : main) :
  owns_timers st -> owns_timers (exec (set_monitoring_interval delay) st).
Proof. done. Qed.

Lemma tick_owns NumberToString StringToNumber p now (st : main) :
  owns_timers st ->
  owns_timers (exec (tick NumberToString StringToNumber p now) st).
Proof.
  destruct (tick_frame NumberToString StringToNumber p now st)
    as (msgs & logs & Ht & _).
  unfold exec. by rewrite Ht.
Qed.

(** What happens to the sampler in the life of the process. *)
Inductive action :=
| Start
| Stop
| Configure (delay : Z)
| Fire (p : providers) (now : float)
| CloseWindow.

Definition close_window : M unit :=
  fun st =>
    (Ok tt,
     Main (systemMonitorInterval st) (timers st) (next_timer st) false
          (monitoring_interval st) (sent st) (console st)).

Definition perform (NumberToString : float -> text)
    (StringToNumber : text -> float) (st : main) (a : action) : main :=
  match a with
  | Start => exec startSystemMonitoring st
  | Stop => exec stopSystemMonitoring st
  | Configure delay => exec (set_monitoring_interval delay) st
  | Fire p now => exec (tick NumberToString StringToNumber p now) st
  | CloseWindow => exec close_window st
  end.

(** Every state the process reaches, running or not, is one in which the
    sampler owns at most one timer. *)
Lemma reachable_owns NumberToString StringToNumber (actions : list action) :
  owns_timers (foldl (perform NumberToString StringToNumber) initial actions).
Proof.
  induction actions as [|a actions IH] using rev_ind; [exact initial_owns|].
  rewrite foldl_app; simpl.
  destruct a; simpl;
    auto using start_owns, stop_owns, set_interval_owns, tick_owns.
Qed.

(** C2. From a state in which the sampler owns at most one timer (running or
    not), setting an interval and starting, then setting an interval and
    starting again, leaves exactly one interval timer: the handle names it,
    its delay is the interval configured last, the timer that ran before and
    the timer of the first start are both cancelled, and one period of the
    event loop sends one message (none when the window is gone). *)
Theorem start_twice_one_timer (NumberToString : float -> text)
    (StringToNumber : text -> float) (p : providers) (now : float)
    (I1 I2 : Z) (st : main) :
  owns_timers st ->
  exists id st',
    (set_monitoring_interval I1 ;;
     startSystemMonitoring ;;
     set_monitoring_interval I2 ;;
     startSystemMonitoring) st = (Ok tt, st') /\
    systemMonitorInterval st' = Some id /\
    timers st' = {[id := I2]} /\
    size (timers st') = 1 /\
    (forall old, systemMonitorInterval st = Some old ->
                 timers st' !! old = None) /\
    timers st' !! next_timer st = None /\
    owns_timers st' /\
    length (sent (round NumberToString StringToNumber p now st')) =
      length (sent st') + (if mainWindow st then 1 else 0).
Proof.
  intros Hst.
  pose proof (set_interval_owns I1 st Hst) as H1.
  pose proof (start_owns _ H1) as H2.
  pose proof (set_interval_owns I2 _ H2) as H3.
  revert H1 H2 H3. unfold exec.
  unfold bind at 1. simpl.
  intros H1. unfold bind at 1. rewrite (startSystemMonitoring_owned _ H1).
  simpl. intros H2 H3. unfold bind at 1. simpl.
  rewrite (startSystemMonitoring_owned _ H3). simpl.
  eexists _, _. split; [reflexivity|]. simpl.
  split; [reflexivity|]. split; [reflexivity|].
  split; [apply map_size_singleton|].
  split; [|split; [|split]].
  - intros old Hold. apply lookup_singleton_ne.
    unfold owns_timers in Hst. rewrite Hold in Hst. lia.
  - apply lookup_singleton_ne. lia.
  - unfold owns_timers; simpl. split; [lia|eauto].
  - unfold round; simpl. rewrite map_fold_singleton.
    match goal with |- context [exec (tick _ _ _ _) ?s] =>
      destruct (tick_frame NumberToString StringToNumber p now s)
        as (msgs & logs & Ht & Hn) end.
    unfold exec. rewrite Ht. simpl in *. rewrite length_app. lia.
Qed.

(** The sampler before its first start is such a state. *)
Lemma start_twice_one_timer_initial :
  owns_timers initial /\
  exists id st',
    (set_monitoring_interval 5000 ;;
     startSystemMonitoring ;;
     set_monitoring_interval 1000 ;;
     startSystemMonitoring) initial = (Ok tt, st') /\
    systemMonitorInterval st' = Some id /\
    timers st' = {[id := 1000%Z]} /\
    size (timers st') = 1 /\
    (forall old, systemMonitorInterval initial = Some old ->
                 timers st' !! old = None) /\
    timers st' !! next_timer initial = None /\
    owns_timers st' /\
    length (sent (round (fun _ => []) (fun _ => PrimFloat.nan)
                        (mocked []) 0%float st')) =
      length (sent st') + (if mainWindow initial then 1 else 0).
Proof.
  split; [exact initial_owns|].
  exact (start_twice_one_timer (fun _ => []) (fun _ => PrimFloat.nan)
           (mocked []) 0%float 5000 1000 initial initial_owns).
Defined.
(** *** More on the timer callback and on the entries *)

Section MoreFacts.
Context (NumberToString : float -> text) (StringToNumber : text -> float).

(** X3. When a provider rejects while the window is there, the timer
    callback still sends a message: the renderer is handed [null] on the
    channel [system-data-update], and the failure is on the console. *)
Theorem tick_sends_null_on_failure (p : providers) (now : float) (st : main) :
  rejected (currentLoad p) \/ rejected (mem p) \/ rejected (fsSize p) \/
  rejected (networkStats p) ->
  mainWindow st = true ->
  exists e,
    tick NumberToString StringToNumber p now st =
      (Ok tt, Main (systemMonitorInterval st) (timers st) (next_timer st)
                   true (monitoring_interval st)
                   (sent st ++ [("system-data-update", VNull)])
                   (console st ++ [LogError "Error getting system data:" e])).
Proof.
  intros Hr Hw. apply Promise_all_rejected in Hr as [e He].
  exists e. unfold tick, getSystemData, try_catch, bind, lift.
  rewrite He. unfold console_error, ret, send; simpl. by rewrite Hw.
Qed.

(** X4. Closing the window does not stop the sampler: the timers are as
    they were, and a tick then sends nothing and ends with a [TypeError] on
    the console, the timer still in place for the next one. *)
Theorem tick_without_window (p : providers) (now : float) (st : main) :
  timers (exec close_window st) = timers st /\
  exists logs,
    tick NumberToString StringToNumber p now (exec close_window st) =
      (Ok tt, Main (systemMonitorInterval st) (timers st) (next_timer st)
                   false (monitoring_interval st) (sent st)
                   (console st ++ logs ++
                    [LogError "System monitoring error:"
                       (TypeError "Cannot read properties of null")])).
Proof.
  split; [done|].
  destruct (getSystemData_frame NumberToString StringToNumber p now
              (exec close_window st)) as (v & logs & Hg & _).
  exists logs. unfold tick, try_catch, bind. rewrite Hg.
  unfold send, console_error; simpl. by rewrite (assoc_L (++)).
Qed.
End MoreFacts.

(** A rejecting disk provider, the window open. *)
Lemma tick_sends_null_on_failure_sample :
  exists e,
    tick (fun _ => []) (fun _ => PrimFloat.nan)
      (Providers (currentLoad (mocked [])) (mem (mocked []))
         (Throw (Rejected (str "EACCES"))) (networkStats (mocked [])))
      0%float initial =
      (Ok tt, Main None ∅ 0 true 5000 [("system-data-update", VNull)]
                   [LogError "Error getting system data:" e]).
Proof.
  exact (tick_sends_null_on_failure (fun _ => []) (fun _ => PrimFloat.nan)
           (Providers (currentLoad (mocked [])) (mem (mocked []))
              (Throw (Rejected (str "EACCES"))) (networkStats (mocked [])))
           0%float initial (or_intror (or_intror (or_introl I))) eq_refl).
Defined.

(** X5. From a state in which the sampler owns at most one timer,
    [stopSystemMonitoring] leaves no timer at all and an empty handle,
    touches nothing else, and stopping again changes nothing. *)
Theorem stop_leaves_no_timer (st : main) :
  owns_timers st ->
  exists st',
    stopSystemMonitoring st = (Ok tt, st') /\
    systemMonitorInterval st' = None /\
    timers st' = ∅ /\
    sent st' = sent st /\ console st' = console st /\
    stopSystemMonitoring st' = (Ok tt, st').
Proof.
  unfold owns_timers, stopSystemMonitoring, bind, gets, clearInterval,
    set_systemMonitorInterval, ret.
  destruct (systemMonitorInterval st) as [id|] eqn:E; simpl.
  - intros [_ [delay ->]]. eexists. split; [reflexivity|]. simpl.
    by rewrite delete_singleton_eq.
  - intros Ht. exists st. by rewrite E.
Qed.

(** The running sampler is stopped. *)
Lemma stop_leaves_no_timer_sample :
  exists st',
    stopSystemMonitoring (exec startSystemMonitoring initial) = (Ok tt, st') /\
    systemMonitorInterval st' = None /\
    timers st' = ∅ /\
    sent st' = [] /\ console st' = [] /\
    stopSystemMonitoring st' = (Ok tt, st').
Proof.
  exact (stop_leaves_no_timer (exec startSystemMonitoring initial)
           (start_owns initial initial_owns)).
Defined.

Lemma array_map_lookup (f : value -> result value) (items out : list value) :
  array_map f items = Ok out ->
  length out = length items /\
  forall i d, items !! i = Some d ->
              exists o, out !! i = Some o /\ f d = Ok o.
Proof.
  revert out; induction items as [|d items IH]; intros out; simpl.
  - intros [= <-]. done.
  - destruct (f d) as [o|] eqn:Hf; [|done]. simpl.
    destruct (array_map f items) as [out'|] eqn:Hm; [|done]. simpl.
    intros [= <-]. destruct (IH _ eq_refl) as [Hl Hi]. simpl.
    split; [by rewrite Hl|]. intros [|i] d'; simpl; [intros [= <-]; eauto|].
    apply Hi.
Qed.

(** X6. When the [disk] entry is built, it lists one entry per file
    system in the order the provider gave them; each entry takes [fs],
    [size], [used] and [available] as they are and holds the provider's
    [use] under the name [percentage]: the entry has no [use]. *)
Theorem disk_entries_in_order (items : list value) (out : value) :
  disk_entries (VArr items) = Ok out ->
  exists entries,
    out = VArr entries /\ length entries = length items /\
    forall i d, items !! i = Some d ->
      exists fields, entries !! i = Some (VObj fields) /\
        get d "fs" = Ok (own "fs" fields) /\
        get d "size" = Ok (own "size" fields) /\
        get d "used" = Ok (own "used" fields) /\
        get d "available" = Ok (own "available" fields) /\
        get d "use" = Ok (own "percentage" fields) /\
        own "use" fields = VUndef.
Proof.
  unfold disk_entries.
  destruct (array_map disk_entry items) as [entries|] eqn:Hm; [|done].
  intros [= <-]. apply array_map_lookup in Hm as [Hl Hi].
  exists entries. split; [reflexivity|]. split; [done|].
  intros i d Hd. destruct (Hi i d Hd) as (o & Ho & Hf).
  unfold disk_entry in Hf. invert_binds.
  eexists. split; [exact Ho|]. done.
Qed.

(** Two file systems. *)
Lemma disk_entries_in_order_sample :
  exists entries,
    VArr [VObj [("fs", VUndef); ("size", VUndef); ("used", VUndef);
                ("available", VUndef); ("percentage", VNum 70)];
          VObj [("fs", VUndef); ("size", VUndef); ("used", VUndef);
                ("available", VUndef); ("percentage", VNum 12)]]
      = VArr entries /\ length entries = 2.
Proof.
  destruct (disk_entries_in_order
              [VObj [("use", VNum 70)]; VObj [("use", VNum 12)]]
              (VArr [VObj [("fs", VUndef); ("size", VUndef);
                           ("used", VUndef); ("available", VUndef);
                           ("percentage", VNum 70)];
                     VObj [("fs", VUndef); ("size", VUndef);
                           ("used", VUndef); ("available", VUndef);
                           ("percentage", VNum 12)]]) eq_refl)
    as (entries & He & Hl & _).
  exists entries. split; [exact He|exact Hl].
Defined.

(** X7. The [network] entry is read off the first interface alone, the
    others are never looked at; without any interface its three rates are
    0; and each of the three values is either one that counts as true or
    the number 0, never [undefined], [null] or [NaN]. *)
Theorem network_entry_first_interface (first : value) (rest : list value) :
  network_entry (VArr (first :: rest)) = network_entry (VArr [first]) /\
  network_entry (VArr []) =
    Ok (VObj [("rx_sec", VNum 0); ("tx_sec", VNum 0);
              ("connections", VNum 0)]) /\
  (forall network entry,
     network_entry network = Ok entry ->
     exists rx tx connections,
       entry = VObj [("rx_sec", rx); ("tx_sec", tx);
                     ("connections", connections)] /\
       Forall (fun v => truthy v = true \/ v = VNum 0) [rx; tx; connections]).
Proof.
  split; [done|]. split; [done|].
  intros network entry H. unfold network_entry in H. invert_binds.
  eexists _, _, _. split; [reflexivity|].
  assert (Hz : forall v, truthy (or_else v (VNum 0)) = true
                         \/ or_else v (VNum 0) = VNum 0).
  { intros v. unfold or_else. destruct (truthy v) eqn:E; [by left|by right]. }
  repeat apply List.Forall_cons; auto.
Qed.

End Sampler.

(** ** The dashboard of the renderer ([updateDashboard], app.js)

    What the renderer does with a snapshot: the labels, the charts and the
    panel of system information. *)

Module Dashboard.
Import Sampler.

(** *** Numbers *)

(** The number with sign [neg] and magnitude [n], an integer below
    [2^53]. *)
Definition of_integer (neg : bool) (n : Z) : float :=
  let x := PrimFloat.of_uint63 (Uint63.of_Z (Z.abs n)) in
  if neg then (- x)%float else x.

(** [Math.round(x)]: the nearest integer, the larger one on a tie, from the
    exact value [m * 2^e] of a finite number. *)
Definition Math_round (x : float) : float :=
  match Prim2SF x with
  | S754_finite neg m e =>
      if (0 <=? e)%Z then x
      else of_integer neg
             (((if neg then - (2 * Z.pos m) else 2 * Z.pos m) + 2 ^ (- e))
              / 2 ^ (1 - e))%Z
  | _ => x
  end.

(** [Math.floor(x)]. *)
Definition Math_floor (x : float) : float :=
  match Prim2SF x with
  | S754_finite neg m e =>
      if (0 <=? e)%Z then x
      else of_integer neg
             ((if neg then - Z.pos m else Z.pos m) / 2 ^ (- e))%Z
  | _ => x
  end.

(** [value > 0]. *)
Definition positive_number (x : float) : bool := PrimFloat.ltb 0 x.

(** [bytes === 0]. *)
Definition is_number_zero (v : value) : bool :=
  match v with
  | VNum x => PrimFloat.eqb x 0
  | _ => false
  end.

(** [sizes[i]] for a number [i]: the element when [i] is one of the
    indices, [undefined] otherwise. *)
Definition at_index (items : list value) (i : float) : value :=
  match list_find (fun k => PrimFloat.eqb i (of_nat k) = true)
          (seq 0 (length items)) with
  | Some (_, k) => default VUndef (items !! k)
  | None => VUndef
  end.

Section Engine.
(** The engine's [Number::toString], [StringToNumber], [Math.log],
    [Math.pow] and [parseFloat] are taken as they are. *)
Context (NumberToString : float -> text) (StringToNumber : text -> float)
        (Math_log : float -> float) (Math_pow : float -> float -> float)
        (parseFloat : text -> float).

#[local] Abbreviation ToString := (Sampler.ToString NumberToString).
#[local] Abbreviation ToNumber :=
  (Sampler.ToNumber NumberToString StringToNumber).

(** [Number.prototype.toFixed(2)], as [toFixed1] with two digits. *)
Definition hundredths (m : positive) (e : Z) : N :=
  Z.to_N (if (0 <=? e)%Z then 100 * Z.pos m * 2 ^ e
          else (200 * Z.pos m + 2 ^ (- e)) / 2 ^ (1 - e))%Z.

Definition fixed2 (n : N) : text :=
  let m := digits n in
  let m := if length m <=? 2 then replicate (3 - length m) 48%N ++ m else m in
  take (length m - 2) m ++ 46%N :: drop (length m - 2) m.

Definition toFixed2 (x : float) : text :=
  match Prim2SF x with
  | S754_nan | S754_infinity _ => NumberToString x
  | S754_zero _ => fixed2 0
  | S754_finite neg m e =>
      (if neg then [45%N] else []) ++
      (if at_least_1e21 m e then NumberToString (PrimFloat.abs x)
       else fixed2 (hundredths m e))
  end.

(** [ToPrimitive]: an array or an object gives its string. *)
Definition ToPrimitive (v : value) : value :=
  match v with
  | VArr _ | VObj _ => VStr (ToString v)
  | _ => v
  end.

(** [a + b]. *)
Definition add (a b : value) : value :=
  match ToPrimitive a, ToPrimitive b with
  | VStr s, pb => VStr (s ++ ToString pb)
  | pa, VStr s => VStr (ToString pa ++ s)
  | pa, pb => VNum (ToNumber pa + ToNumber pb)%float
  end.

(** [formatBytes(bytes)]. *)
Definition formatBytes (bytes : value) : text :=
  if is_number_zero bytes then str "0 B"
  else
    let k := 1024%float in
    let sizes := [VStr (str "B"); VStr (str "KB"); VStr (str "MB");
                  VStr (str "GB"); VStr (str "TB")] in
    let i := Math_floor (Math_log (ToNumber bytes) / Math_log k)%float in
    NumberToString
      (parseFloat (toFixed2 (ToNumber bytes / Math_pow k i)%float))
    ++ str " " ++ ToString (at_index sizes i).

(** *** The page *)

(** The text of the elements the dashboard writes to, by [id] (an element
    that is not on the page has no entry); the three line charts and the
    data of the disk chart, [None] for a chart that was not created; the
    rows of the [systemInfo] panel, a label and the text of a value each
    ([None] when the page has no such panel). *)
Record view := View {
  texts : gmap string text;
  cpu_chart : option (Chart.chart value);
  memory_chart : option (Chart.chart value);
  network_chart : option (Chart.chart value);
  disk_chart : option (list value);
  systemInfo : option (list (string * text))
}.

Abbreviation D := (Stmt view).

(** [document.getElementById(id).textContent = text]. *)
Definition set_textContent (id : string) (content : text) : D unit :=
  fun st =>
    match texts st !! id with
    | Some _ =>
        (Ok tt, View (<[id := content]> (texts st)) (cpu_chart st)
                  (memory_chart st) (network_chart st) (disk_chart st)
                  (systemInfo st))
    | None => (Throw (TypeError "Cannot set properties of null"), st)
    end.

Definition set_cpu_chart (f : option (Chart.chart value)
                              -> option (Chart.chart value)) : D unit :=
  fun st =>
    (Ok tt, View (texts st) (f (cpu_chart st)) (memory_chart st)
              (network_chart st) (disk_chart st) (systemInfo st)).

Definition set_memory_chart (f : option (Chart.chart value)
                                 -> option (Chart.chart value)) : D unit :=
  fun st =>
    (Ok tt, View (texts st) (cpu_chart st) (f (memory_chart st))
              (network_chart st) (disk_chart st) (systemInfo st)).

Definition set_network_chart (f : option (Chart.chart value)
                                  -> option (Chart.chart value)) : D unit :=
  fun st =>
    (Ok tt, View (texts st) (cpu_chart st) (memory_chart st)
              (f (network_chart st)) (disk_chart st) (systemInfo st)).

(** [updateDiskChart(usage)]. *)
Definition updateDiskChart (usage : float) : D unit :=
  fun st =>
    (Ok tt, View (texts st) (cpu_chart st) (memory_chart st)
              (network_chart st)
              (match disk_chart st with
               | Some _ => Some [VNum usage; VNum (100 - usage)%float]
               | None => None
               end)
              (systemInfo st)).

(** [value?.[0]]. *)
Definition get0_opt (v : value) : result value :=
  match v with
  | VUndef | VNull => Ok VUndef
  | _ => get0 v
  end.

(** [updateSystemInfo(data)]. *)
Definition updateSystemInfo (data : value) : D unit :=
  panel <- gets systemInfo ;;
  match panel with
  | None => ret tt
  | Some _ =>
      cpu <- lift (get data "cpu") ;;
      cores <- lift (get_opt cpu "cores") ;;
      cores_length <- lift (get_opt cores "length") ;;
      memory <- lift (get data "memory") ;;
      total <- lift (get_opt memory "total") ;;
      memory' <- lift (get data "memory") ;;
      available <- lift (get_opt memory' "available") ;;
      disk <- lift (get data "disk") ;;
      first <- lift (get0_opt disk) ;;
      size <- lift (get_opt first "size") ;;
      network <- lift (get data "network") ;;
      network_length <- lift (get_opt network "length") ;;
      let info :=
        [("OS", VStr (str "Windows 10"));
         ("Architecture", VStr (str "x64"));
         ("CPU Cores", or_else cores_length (VStr (str "Unknown")));
         ("Total Memory", VStr (formatBytes (or_else total (VNum 0))));
         ("Available Memory",
          VStr (formatBytes (or_else available (VNum 0))));
         ("Disk Space", VStr (formatBytes (or_else size (VNum 0))));
         ("Network Interfaces", or_else network_length (VNum 0))] in
      fun st =>
        (Ok tt, View (texts st) (cpu_chart st) (memory_chart st)
                  (network_chart st) (disk_chart st)
                  (Some ((fun item => (item.1, ToString item.2)) <$> info)))
  end.

(** [updateDashboard(data)]; [timeString c] is what
    [new Date().toLocaleTimeString()] gives in the call of [updateChart]
    for the chart [c]. *)
Definition updateDashboard (data : value) (timeString : string -> text)
  : D unit :=
  if negb (truthy data) then ret tt
  else
    cpu <- lift (get data "cpu") ;;
    (if truthy cpu then
       load <- lift (get cpu "load") ;;
       let cpuUsage := Math_round (ToNumber load) in
       set_textContent "cpuUsage" (NumberToString cpuUsage ++ str "%") ;;
       set_cpu_chart
         (fun c => Chart.updateChart c (timeString "cpu") (VNum cpuUsage))
     else ret tt) ;;
    memory <- lift (get data "memory") ;;
    (if truthy memory then
       used <- lift (get memory "used") ;;
       total <- lift (get memory "total") ;;
       let memoryUsage :=
         Math_round (ToNumber used / ToNumber total * 100)%float in
       set_textContent "memoryUsage"
         (NumberToString memoryUsage ++ str "%") ;;
       set_memory_chart
         (fun c => Chart.updateChart c (timeString "memory")
                    (VNum memoryUsage))
     else ret tt) ;;
    disk <- lift (get data "disk") ;;
    disk_length <- lift (if truthy disk then get disk "length"
                         else Ok VUndef) ;;
    (if truthy disk && positive_number (ToNumber disk_length) then
       mainDisk <- lift (get0 disk) ;;
       use <- lift (get mainDisk "use") ;;
       let diskUsage := Math_round (ToNumber use) in
       set_textContent "diskUsage" (NumberToString diskUsage ++ str "%") ;;
       updateDiskChart diskUsage
     else ret tt) ;;
    network <- lift (get data "network") ;;
    network_length <- lift (if truthy network then get network "length"
                            else Ok VUndef) ;;
    (if truthy network && positive_number (ToNumber network_length) then
       mainNetwork <- lift (get0 network) ;;
       rxSec <- lift (get mainNetwork "rxSec") ;;
       txSec <- lift (get mainNetwork "txSec") ;;
       let networkSpeed := formatBytes (add rxSec txSec) in
       set_textContent "networkSpeed" (networkSpeed ++ str "/s") ;;
       mainNetwork' <- lift (get0 network) ;;
       rxSec' <- lift (get mainNetwork' "rxSec") ;;
       txSec' <- lift (get mainNetwork' "txSec") ;;
       set_network_chart
         (fun c => Chart.updateChart c (timeString "network")
                    (add rxSec' txSec'))
     else ret tt) ;;
    updateSystemInfo data.

(** *** Snapshots on the dashboard *)

(** An entry of the [disk] list of a snapshot. *)
Definition disk_row (d : value) : Prop :=
  exists fs size used available percentage,
    d = VObj [("fs", fs); ("size", size); ("used", used);
              ("available", available); ("percentage", percentage)].

Lemma array_map_rows (items out : list value) :
  array_map disk_entry items = Ok out -> Forall disk_row out.
Proof.
  revert out; induction items as [|d items IH]; intros out; simpl.
  - intros [= <-]. apply List.Forall_nil.
  - destruct (disk_entry d) as [o|] eqn:Hd; [|done]. simpl.
    destruct (array_map disk_entry items) as [out'|]; [|done]. simpl.
    intros [= <-]. apply List.Forall_cons; [|by apply IH].
    unfold disk_entry in Hd. invert_binds. by eexists _, _, _, _, _.
Qed.

(** What [getSystemData] puts together, entry by entry. *)
Lemma snapshot_shape (cpu mem disk network : value) (now : float)
    (data : value) :
  snapshot NumberToString StringToNumber cpu mem disk network now = Ok data ->
  exists load cores temperature total used free active available percentage
         entries rx tx connections,
    data = VObj [("cpu", VObj [("load", load); ("cores", cores);
                               ("temperature", temperature)]);
                 ("memory", VObj [("total", total); ("used", used);
                                  ("free", free); ("active", active);
                                  ("available", available);
                                  ("percentage", percentage)]);
                 ("disk", VArr entries);
                 ("network", VObj [("rx_sec", rx); ("tx_sec", tx);
                                   ("connections", connections)]);
                 ("timestamp", VNum now)] /\
    get cpu "cpus" ≫= (fun cpus => get cpus "length") = Ok cores /\
    disk_entries disk = Ok (VArr entries) /\
    Forall disk_row entries.
Proof.
  unfold snapshot. intros H.
  destruct (cpu_entry cpu) as [c|] eqn:Hc; [|done].
  destruct (memory_entry _ _ mem) as [m|] eqn:Hm; [|done].
  destruct (disk_entries disk) as [d|] eqn:Hd; [|done].
  destruct (network_entry network) as [n|] eqn:Hn; [|done].
  cbn in H. injection H as <-.
  unfold memory_entry in Hm. invert_binds.
  unfold network_entry in Hn. invert_binds.
  assert (Hcores : exists load cores temperature,
    c = VObj [("load", load); ("cores", cores); ("temperature", temperature)]
    /\ get cpu "cpus" ≫= (fun cpus => get cpus "length") = Ok cores).
  { unfold cpu_entry in Hc.
    destruct (get cpu "currentLoad") as [load|]; [|done]. cbn in Hc.
    destruct (get cpu "cpus") as [cpus|]; [|done]. cbn in Hc.
    destruct (get cpus "length") as [cores|] eqn:Hl; [|done]. cbn in Hc.
    destruct (get0 cpus) as [first|]; [|done]. cbn in Hc.
    destruct (get_opt first "temperature") as [t|]; [|done]. cbn in Hc.
    injection Hc as <-. eexists _, _, _. split; [reflexivity|]. done. }
  destruct Hcores as (load & cores & temperature & -> & Hcores).
  assert (Hrows : exists entries, d = VArr entries /\ Forall disk_row entries).
  { unfold disk_entries in Hd.
    destruct disk as [| | | | |items|]; try done.
    destruct (array_map disk_entry items) as [out|] eqn:Hout; [|done].
    cbn in Hd. injection Hd as <-. eauto using array_map_rows. }
  destruct Hrows as (entries & -> & Hrows).
  eexists _, _, _, _, _, _, _, _, _, _, _, _, _.
  split; [reflexivity|]. repeat split; assumption.
Qed.

(** Running a statement of the dashboard, one step at a time. *)
Lemma bind_bind {S A B C} (m : Stmt S A) (f : A -> Stmt S B)
    (g : B -> Stmt S C) (st : S) :
  bind (bind m f) g st = bind m (fun a => bind (f a) g) st.
Proof. unfold bind. by destruct (m st) as [[a|e] st']. Qed.

Lemma bind_lift_Ok {S A B} (a : A) (k : A -> Stmt S B) (st : S) :
  bind (lift (Ok a)) k st = k a st.
Proof. done. Qed.

Lemma bind_ret {S A B} (a : A) (k : A -> Stmt S B) (st : S) :
  bind (ret a) k st = k a st.
Proof. done. Qed.

Lemma bind_gets {S A B} (f : S -> A) (k : A -> Stmt S B) (st : S) :
  bind (gets f) k st = k (f st) st.
Proof. done. Qed.

Lemma bind_set_textContent {B} (id : string) (content old : text)
    (k : unit -> D B) (st : view) :
  texts st !! id = Some old ->
  bind (set_textContent id content) k st =
    k tt (View (<[id := content]> (texts st)) (cpu_chart st)
            (memory_chart st) (network_chart st) (disk_chart st)
            (systemInfo st)).
Proof. intros H. unfold bind, set_textContent. by rewrite H. Qed.

Lemma bind_set_cpu_chart {B} f (k : unit -> D B) (st : view) :
  bind (set_cpu_chart f) k st =
    k tt (View (texts st) (f (cpu_chart st)) (memory_chart st)
            (network_chart st) (disk_chart st) (systemInfo st)).
Proof. done. Qed.

Lemma bind_set_memory_chart {B} f (k : unit -> D B) (st : view) :
  bind (set_memory_chart f) k st =
    k tt (View (texts st) (cpu_chart st) (f (memory_chart st))
            (network_chart st) (disk_chart st) (systemInfo st)).
Proof. done. Qed.

Lemma bind_updateDiskChart {B} (usage : float) (k : unit -> D B)
    (st : view) :
  bind (updateDiskChart usage) k st =
    k tt (View (texts st) (cpu_chart st) (memory_chart st)
            (network_chart st)
            (match disk_chart st with
             | Some _ => Some [VNum usage; VNum (100 - usage)%float]
             | None => None
             end)
            (systemInfo st)).
Proof. done. Qed.

Ltac run_dashboard :=
  repeat first
    [ rewrite bind_bind
    | rewrite bind_lift_Ok; cbv beta
    | rewrite bind_ret; cbv beta
    | rewrite bind_gets; cbv beta
    | rewrite bind_set_cpu_chart
    | rewrite bind_set_memory_chart
    | rewrite bind_updateDiskChart
    | erewrite bind_set_textContent
        by (cbn [texts]; rewrite ?lookup_insert_ne by done; eassumption)
    | progress cbn [truthy negb andb get get0 get_opt get0_opt own
                    String.eqb Ascii.eqb Bool.eqb head from_option id
                    texts cpu_chart memory_chart network_chart disk_chart
                    systemInfo Sampler.ToNumber] ].

Lemma Math_round_nan : Math_round nan = nan.
Proof. reflexivity. Qed.

Lemma not_a_number_of_bytes : (100 - nan)%float = nan.
Proof. reflexivity. Qed.

Lemma nan_not_positive : positive_number nan = false.
Proof. reflexivity. Qed.

Lemma zero_not_positive : positive_number (of_nat 0) = false.
Proof. reflexivity. Qed.

(** The rows of the panel for a snapshot. *)
Definition rows (cores_length total available size : value)
  : list (string * text) :=
  [("OS", str "Windows 10");
   ("Architecture", str "x64");
   ("CPU Cores", ToString (or_else cores_length (VStr (str "Unknown"))));
   ("Total Memory", formatBytes (or_else total (VNum 0)));
   ("Available Memory", formatBytes (or_else available (VNum 0)));
   ("Disk Space", formatBytes (or_else size (VNum 0)));
   ("Network Interfaces", NumberToString 0)].

Lemma updateDashboard_snapshot (cpu mem disk network : value) (now : float)
    (data : value) (timeString : string -> text) (st : view) :
  snapshot NumberToString StringToNumber cpu mem disk network now = Ok data ->
  is_Some (texts st !! "cpuUsage") -> is_Some (texts st !! "memoryUsage") ->
  is_Some (texts st !! "diskUsage") ->
  exists st' cores cores_length total available size (shown : bool),
    updateDashboard data timeString st = (Ok tt, st') /\
    get cpu "cpus" ≫= (fun cpus => get cpus "length") = Ok cores /\
    get_opt cores "length" = Ok cores_length /\
    texts st' !! "networkSpeed" = texts st !! "networkSpeed" /\
    network_chart st' = network_chart st /\
    texts st' !! "diskUsage" =
      (if shown then Some (NumberToString nan ++ str "%")
       else texts st !! "diskUsage") /\
    disk_chart st' =
      (if shown then match disk_chart st with
                     | Some _ => Some [VNum nan; VNum nan]
                     | None => None
                     end
       else disk_chart st) /\
    (disk = VArr [] -> shown = false) /\
    systemInfo st' =
      match systemInfo st with
      | Some _ => Some (rows cores_length total available size)
      | None => None
      end.
Proof.
  intros Hs [t1 H1] [t2 H2] [t3 H3].
  apply snapshot_shape in Hs
    as (load & cores & temperature & total & used & free & active & available
        & percentage & entries & rx & tx & connections & -> & Hcores & Hd
        & Hrows).
  destruct (get_opt_Ok cores "length") as [cores_length Hcl].
  destruct (get_opt_Ok (default VUndef (head entries)) "size") as [size Hsize].
  assert (Hinfo : forall st0,
    updateSystemInfo
      (VObj [("cpu", VObj [("load", load); ("cores", cores);
                           ("temperature", temperature)]);
             ("memory", VObj [("total", total); ("used", used);
                              ("free", free); ("active", active);
                              ("available", available);
                              ("percentage", percentage)]);
             ("disk", VArr entries);
             ("network", VObj [("rx_sec", rx); ("tx_sec", tx);
                               ("connections", connections)]);
             ("timestamp", VNum now)]) st0 =
    (Ok tt, View (texts st0) (cpu_chart st0) (memory_chart st0)
              (network_chart st0) (disk_chart st0)
              match systemInfo st0 with
              | Some _ => Some (rows cores_length total available size)
              | None => None
              end)).
  { intros st0. unfold updateSystemInfo. rewrite bind_gets. cbv beta.
    destruct (systemInfo st0) as [old|] eqn:Hold;
      [|unfold ret; by destruct st0; cbn in *; subst].
    run_dashboard. rewrite Hcl. run_dashboard. rewrite Hsize. run_dashboard.
    done. }
  exists (exec (updateDashboard
                  (VObj [("cpu", VObj [("load", load); ("cores", cores);
                                       ("temperature", temperature)]);
                         ("memory", VObj [("total", total); ("used", used);
                                          ("free", free); ("active", active);
                                          ("available", available);
                                          ("percentage", percentage)]);
                         ("disk", VArr entries);
                         ("network", VObj [("rx_sec", rx); ("tx_sec", tx);
                                           ("connections", connections)]);
                         ("timestamp", VNum now)]) timeString) st).
  exists cores, cores_length, total, available, size.
  exists (match entries with
          | [] => false
          | _ => positive_number (of_nat (length entries))
          end).
  unfold exec, updateDashboard. run_dashboard.
  destruct entries as [|d entries].
  - cbn [length]. rewrite zero_not_positive. run_dashboard.
    rewrite nan_not_positive. run_dashboard. rewrite Hinfo.
    cbn [snd texts cpu_chart memory_chart network_chart disk_chart
         systemInfo].
    rewrite !lookup_insert_ne by done.
    repeat split; try done.
  - assert (Hne : disk <> VArr []) by (by intros ->).
    apply Forall_cons in Hrows
      as [(fs & dsize & dused & davailable & dpercentage & ->) _].
    destruct (positive_number (of_nat (length (_ :: entries)))) eqn:Hpos.
    + run_dashboard. rewrite Math_round_nan, not_a_number_of_bytes.
      run_dashboard. rewrite nan_not_positive. run_dashboard. rewrite Hinfo.
      cbn [snd texts cpu_chart memory_chart network_chart disk_chart
           systemInfo].
      rewrite lookup_insert_eq, !lookup_insert_ne by done.
      repeat split; try done.
    + run_dashboard. rewrite nan_not_positive. run_dashboard. rewrite Hinfo.
      cbn [snd texts cpu_chart memory_chart network_chart disk_chart
           systemInfo].
      rewrite !lookup_insert_ne by done.
      repeat split; try done.
Qed.

(** X8. For every snapshot that [getSystemData] puts together, on a page
    that has the three labels, [updateDashboard] runs through and never
    shows a disk percentage: it reads [use] from the first disk entry,
    which holds the figure under [percentage], so the label [diskUsage] is
    either left as it was (the disk list is empty) or reads [NaN%], and the
    disk chart, if there is one, is either left or set to [NaN], [NaN]. *)
Theorem updateDashboard_shows_no_disk_usage (cpu mem disk network : value)
    (now : float) (data : value) (timeString : string -> text)
    (st : view) :
  snapshot NumberToString StringToNumber cpu mem disk network now = Ok data ->
  is_Some (texts st !! "cpuUsage") -> is_Some (texts st !! "memoryUsage") ->
  is_Some (texts st !! "diskUsage") ->
  exists st',
    updateDashboard data timeString st = (Ok tt, st') /\
    ((texts st' !! "diskUsage" = texts st !! "diskUsage" /\
      disk_chart st' = disk_chart st) \/
     (texts st' !! "diskUsage" = Some (NumberToString nan ++ str "%") /\
      disk_chart st' = match disk_chart st with
                       | Some _ => Some [VNum nan; VNum nan]
                       | None => None
                       end)) /\
    (disk = VArr [] -> texts st' !! "diskUsage" = texts st !! "diskUsage").
Proof.
  intros Hs H1 H2 H3.
  destruct (updateDashboard_snapshot cpu mem disk network now data timeString
              st Hs H1 H2 H3)
    as (st' & cores & cl & total & available & size & shown & Hrun & _ & _
        & _ & _ & Ht & Hc & Hempty & _).
  exists st'. split; [done|]. split.
  - destruct shown; [right|left]; done.
  - intros Hd. by rewrite Ht, (Hempty Hd).
Qed.

(** X9. For every snapshot that [getSystemData] puts together, on a page
    that has the three labels, [updateDashboard] leaves the network label
    and the network chart as they were: the [network] entry is an object
    without a [length], and the update is made for a list only. *)
Theorem updateDashboard_shows_no_network (cpu mem disk network : value)
    (now : float) (data : value) (timeString : string -> text)
    (st : view) :
  snapshot NumberToString StringToNumber cpu mem disk network now = Ok data ->
  is_Some (texts st !! "cpuUsage") -> is_Some (texts st !! "memoryUsage") ->
  is_Some (texts st !! "diskUsage") ->
  exists st',
    updateDashboard data timeString st = (Ok tt, st') /\
    texts st' !! "networkSpeed" = texts st !! "networkSpeed" /\
    network_chart st' = network_chart st.
Proof.
  intros Hs H1 H2 H3.
  destruct (updateDashboard_snapshot cpu mem disk network now data timeString
              st Hs H1 H2 H3)
    as (st' & cores & cl & total & available & size & shown & Hrun & _ & _
        & Ht & Hn & _).
  by exists st'.
Qed.

(** X10. For every snapshot built from a per-core list, the panel that
    [updateDashboard] fills has seven rows, of which [CPU Cores] reads
    [Unknown] (the entry [cores] is a number, and the [length] of a number
    is asked for) and [Network Interfaces] reads as the number 0. *)
Theorem updateSystemInfo_cores_unknown (cpu mem disk network : value)
    (cpus : list value) (now : float) (data : value)
    (timeString : string -> text) (st : view) :
  snapshot NumberToString StringToNumber cpu mem disk network now = Ok data ->
  get cpu "cpus" = Ok (VArr cpus) ->
  is_Some (texts st !! "cpuUsage") -> is_Some (texts st !! "memoryUsage") ->
  is_Some (texts st !! "diskUsage") -> is_Some (systemInfo st) ->
  exists st' panel,
    updateDashboard data timeString st = (Ok tt, st') /\
    systemInfo st' = Some panel /\
    length panel = 7 /\
    panel !! 2 = Some ("CPU Cores", str "Unknown") /\
    panel !! 6 = Some ("Network Interfaces", NumberToString 0).
Proof.
  intros Hs Hcpus H1 H2 H3 [old Hold].
  destruct (updateDashboard_snapshot cpu mem disk network now data timeString
              st Hs H1 H2 H3)
    as (st' & cores & cl & total & available & size & shown & Hrun & Hcores
        & Hcl & _ & _ & _ & _ & _ & Hinfo).
  rewrite Hcpus in Hcores. cbn in Hcores. injection Hcores as <-.
  cbn in Hcl. injection Hcl as <-.
  rewrite Hold in Hinfo.
  exists st', (rows VUndef total available size). by rewrite Hinfo.
Qed.
End Engine.

(** *** A page and a snapshot to run the dashboard on *)

(** A stand-in for the engine's [Number::toString]: right on [NaN], the
    infinities and the integers below [2^53], the integer part otherwise. *)
Definition decimal (x : float) : text :=
  match Prim2SF x with
  | S754_nan => str "NaN"
  | S754_infinity neg => (if neg then [45%N] else []) ++ str "Infinity"
  | S754_zero _ => str "0"
  | S754_finite neg m e =>
      (if neg then [45%N] else []) ++
      digits (Z.to_N (if (0 <=? e)%Z then Z.pos m * 2 ^ e
                      else Z.pos m / 2 ^ (- e))%Z)
  end.

(** A page with the four labels, the four charts as [initCharts] makes
    them, and the panel. *)
Definition blank : view :=
  View {[ "cpuUsage" := []; "memoryUsage" := []; "diskUsage" := [];
          "networkSpeed" := [] ]}
       (Some Chart.empty_chart) (Some Chart.empty_chart)
       (Some Chart.empty_chart) (Some [VNum 0; VNum 100]) (Some []).

(** The snapshot of the four mocked providers, two cores. *)
Definition sample : value :=
  match snapshot decimal (fun _ => PrimFloat.nan)
          (VObj [("currentLoad", VNum 42); ("cpus", VArr [VObj []; VObj []])])
          (VObj [("total", VNum 1000); ("used", VNum 500)])
          (VArr [VObj [("use", VNum 70)]])
          (VArr [VObj [("rx_sec", VNum 100); ("tx_sec", VNum 50)]])
          0 with
  | Ok data => data
  | Throw _ => VUndef
  end.

(** The dashboard after the sample: the load and the memory are shown,
    the disk label reads [NaN%], the network label is empty. *)
Example updateDashboard_sample :
  let st' := exec (updateDashboard decimal (fun _ => PrimFloat.nan)
                     (fun x => x) (fun x _ => x) (fun _ => PrimFloat.nan)
                     sample (fun _ => [])) blank in
  texts st' !! "cpuUsage" = Some (str "42%") /\
  texts st' !! "memoryUsage" = Some (str "50%") /\
  texts st' !! "diskUsage" = Some (str "NaN%") /\
  texts st' !! "networkSpeed" = Some [].
Proof. repeat split; vm_compute; reflexivity. Qed.

Lemma updateDashboard_shows_no_disk_usage_sample :
  exists st',
    updateDashboard decimal (fun _ => PrimFloat.nan)
      (fun x => x) (fun x _ => x) (fun _ => PrimFloat.nan)
      sample (fun _ => []) blank = (Ok tt, st') /\
    ((texts st' !! "diskUsage" = texts blank !! "diskUsage" /\
      disk_chart st' = disk_chart blank) \/
     (texts st' !! "diskUsage" = Some (decimal nan ++ str "%") /\
      disk_chart st' = match disk_chart blank with
                       | Some _ => Some [VNum nan; VNum nan]
                       | None => None
                       end)).
Proof.
  destruct (updateDashboard_shows_no_disk_usage decimal
              (fun _ => PrimFloat.nan) (fun x => x) (fun x _ => x)
              (fun _ => PrimFloat.nan)
              (VObj [("currentLoad", VNum 42);
                     ("cpus", VArr [VObj []; VObj []])])
              (VObj [("total", VNum 1000); ("used", VNum 500)])
              (VArr [VObj [("use", VNum 70)]])
              (VArr [VObj [("rx_sec", VNum 100); ("tx_sec", VNum 50)]])
              0 sample (fun _ => []) blank)
    as (st' & Hrun & Hdisk & _).
  - vm_compute. reflexivity.
  - exists []. vm_compute. reflexivity.
  - exists []. vm_compute. reflexivity.
  - exists []. vm_compute. reflexivity.
  - exists st'. split; [exact Hrun|exact Hdisk].
Defined.

Lemma updateDashboard_shows_no_network_sample :
  exists st',
    updateDashboard decimal (fun _ => PrimFloat.nan)
      (fun x => x) (fun x _ => x) (fun _ => PrimFloat.nan)
      sample (fun _ => []) blank = (Ok tt, st') /\
    texts st' !! "networkSpeed" = texts blank !! "networkSpeed" /\
    network_chart st' = network_chart blank.
Proof.
  refine (updateDashboard_shows_no_network decimal
            (fun _ => PrimFloat.nan) (fun x => x) (fun x _ => x)
            (fun _ => PrimFloat.nan)
            (VObj [("currentLoad", VNum 42);
                   ("cpus", VArr [VObj []; VObj []])])
            (VObj [("total", VNum 1000); ("used", VNum 500)])
            (VArr [VObj [("use", VNum 70)]])
            (VArr [VObj [("rx_sec", VNum 100); ("tx_sec", VNum 50)]])
            0 sample (fun _ => []) blank _ _ _ _).
  - vm_compute. reflexivity.
  - exists []. vm_compute. reflexivity.
  - exists []. vm_compute. reflexivity.
  - exists []. vm_compute. reflexivity.
Defined.

Lemma updateSystemInfo_cores_unknown_sample :
  exists st' panel,
    updateDashboard decimal (fun _ => PrimFloat.nan)
      (fun x => x) (fun x _ => x) (fun _ => PrimFloat.nan)
      sample (fun _ => []) blank = (Ok tt, st') /\
    systemInfo st' = Some panel /\
    length panel = 7 /\
    panel !! 2 = Some ("CPU Cores", str "Unknown") /\
    panel !! 6 = Some ("Network Interfaces", decimal 0).
Proof.
  refine (updateSystemInfo_cores_unknown decimal
            (fun _ => PrimFloat.nan) (fun x => x) (fun x _ => x)
            (fun _ => PrimFloat.nan)
            (VObj [("currentLoad", VNum 42);
                   ("cpus", VArr [VObj []; VObj []])])
            (VObj [("total", VNum 1000); ("used", VNum 500)])
            (VArr [VObj [("use", VNum 70)]])
            (VArr [VObj [("rx_sec", VNum 100); ("tx_sec", VNum 50)]])
            [VObj []; VObj []] 0 sample (fun _ => []) blank _ _ _ _ _ _).
  - vm_compute. reflexivity.
  - reflexivity.
  - exists []. vm_compute. reflexivity.
  - exists []. vm_compute. reflexivity.
  - exists []. vm_compute. reflexivity.
  - exists []. reflexivity.
Defined.
End Dashboard.

(** ** The plugin system of the renderer ([PluginSystem], app.js) *)

Module Plugins.
Import Json.
#[local] Open Scope N_scope.

(** *** The metadata block

    [content.match(/\/\*\s*@plugin\s*({[\s\S]*?})\s*\*\//)]: the comment
    opener, white space, [@plugin], white space, then from a brace through
    the first closing brace that white space and the comment closer follow;
    the match is the leftmost one. *)

(** The class [\s] of regular expressions. *)
Definition is_space (c : N) : bool :=
  (c =? 9) || (c =? 10) || (c =? 11) || (c =? 12) || (c =? 13) || (c =? 32)
  || (c =? 0xA0) || (c =? 0x1680) || ((0x2000 <=? c) && (c <=? 0x200A))
  || (c =? 0x2028) || (c =? 0x2029) || (c =? 0x202F) || (c =? 0x205F)
  || (c =? 0x3000) || (c =? 0xFEFF).

(** [\s*] (greedy; no character that may follow it here is a space). *)
Fixpoint skip_spaces (s : text) : text :=
  match s with
  | c :: r => if is_space c then skip_spaces r else s
  | [] => []
  end.

(** [\s*\*\/] at the start of [s]. *)
Definition closes_comment (s : text) : bool :=
  match strip_prefix (str "*/") (skip_spaces s) with
  | Some _ => true
  | None => false
  end.

(** [[\s\S]*?}] followed by [\s*\*\/]: the shortest run of characters up
    to a closing brace after which the comment closes; the run is returned. *)
Fixpoint lazy_body (s : text) : option text :=
  match s with
  | [] => None
  | c :: r =>
      if (c =? 125) && closes_comment r then Some []
      else cons c <$> lazy_body r
  end.

(** The pattern at the start of [s]; the result is its group 1. *)
Definition match_here (s : text) : option text :=
  r1 ← strip_prefix (str "/*") s;
  r2 ← strip_prefix (str "@plugin") (skip_spaces r1);
  match skip_spaces r2 with
  | c :: r3 =>
      if c =? 123 then body ← lazy_body r3; Some (123 :: body ++ [125])
      else None
  | [] => None
  end.

(** The leftmost match in [s]; the result is its group 1. *)
Fixpoint search (s : text) : option text :=
  match match_here s with
  | Some group => Some group
  | None =>
      match s with
      | [] => None
      | _ :: r => search r
      end
  end.

(** No position inside [pre] starts a match in [pre ++ rest]. *)
Fixpoint unmatched_before (pre rest : text) : bool :=
  match pre with
  | [] => true
  | _ :: pre' =>
      match match_here (pre ++ rest) with
      | Some _ => false
      | None => unmatched_before pre' rest
      end
  end.

(** [ToBoolean] of a parsed value. *)
Definition truthy (v : json) : bool :=
  match v with
  | JNull => false
  | JBool b => b
  | JNum m _ => negb (m =? 0)%Z
  | JStr s => match s with [] => false | _ => true end
  | JArr _ | JObj _ => true
  end.

(** *** The state of the renderer *)

(** What the console shows. *)
Inductive log_entry :=
| LogError (message : text) (error : option exn)
| LogInfo (message : text).

(** An entry of [pluginConfigs]: a value read from the config document or
    the object that [togglePlugin] makes; an array may carry, besides its
    items, the property [enabled] that [togglePlugin] has set on it, which
    [JSON.stringify] leaves out. *)
Inductive entry :=
| Value (v : json)
| Flagged (items : list json) (enabled : bool).

(** What [JSON.stringify] sees of an entry. *)
Definition to_json (config : entry) : json :=
  match config with
  | Value v => v
  | Flagged items _ => JArr items
  end.

(** The steps whose order matters: the call [pluginConfigs.set] of
    [togglePlugin] with the entry it stores, an entry into [loadPlugin], an
    entry into [unloadPlugin], a call of [electronAPI.writeFile] with the
    document it is given (the object of which the file holds the JSON
    text). *)
Inductive event :=
| EvSetConfig (path : text) (config : entry)
| EvLoad (path : text)
| EvUnload (path : text)
| EvWriteFile (path : text) (document : gmap text json).

(** A pane that [createPluginTab] has put into the main content: the
    element with the identifier [pane_id], and inside it the element
    [pane_id-body], as long as that one is there. *)
Record pane := Pane {
  pane_id : text;
  pane_body : bool
}.

(** The three registries of the [PluginSystem] ([plugins], [pluginConfigs],
    [activePlugins]), the plugin tabs of the page (the [data-tab] of the
    sidebar items and the panes, in document order), the notifications
    shown, the console, [localStorage], and [trace], the steps which the
    operations below have taken so far, in their order (the program keeps
    no such list; it is the record from which the order of setting,
    loading, unloading and saving is read). *)
Record system := System {
  plugins : gmap text json;
  pluginConfigs : gmap text entry;
  activePlugins : gset text;
  navItems : list text;
  tabContents : list pane;
  notifications : list (text * text);
  console : list log_entry;
  localStorage : gmap text text;
  trace : list event
}.

Definition empty_system : system := System ∅ ∅ ∅ [] [] [] [] ∅ [].

(** *** Statements that may wait for ever

    The operations of the plugin system are [async]: one that awaits a
    promise which never settles does not go on, and neither does its
    caller.  [Pending] is that outcome; the state is the one reached when
    the wait began. *)
Inductive outcome (A : Type) :=
| Settled (r : result A)
| Pending.
Arguments Settled {A} r.
Arguments Pending {A}.
Coercion Settled : result >-> outcome.
#[local] Arguments pair {A B} & a b.

Definition R (A : Type) : Type := system -> outcome A * system.

Definition ret {A} (a : A) : R A := fun st => (Settled (Ok a), st).

Definition bind {A B} (m : R A) (k : A -> R B) : R B :=
  fun st => match m st with
            | (Settled (Ok a), st') => k a st'
            | (Settled (Throw e), st') => (Settled (Throw e), st')
            | (Pending, st') => (Pending, st')
            end.

(** [try { body } catch (error) { handler }]: a wait that never ends is
    not an exception. *)
Definition try_catch {A} (body : R A) (handler : exn -> R A) : R A :=
  fun st => match body st with
            | (Settled (Ok a), st') => (Settled (Ok a), st')
            | (Settled (Throw e), st') => handler e st'
            | (Pending, st') => (Pending, st')
            end.

(** An expression evaluated inside a statement, or a promise that settles
    awaited. *)
Definition lift {A} (r : result A) : R A := fun st => (Settled r, st).

(** Reading the state. *)
Definition gets {A} (f : system -> A) : R A :=
  fun st => (Settled (Ok (f st)), st).

(** A statement, for its effect on the state. *)
Definition exec {A} (m : R A) (st : system) : system := (m st).2.

Declare Scope plugin_scope.
Notation "x <- m ;; k" := (bind m (fun x => k))
  (at level 100, m at next level, k at level 200, right associativity)
  : plugin_scope.
Notation "m ;; k" := (bind m (fun _ => k))
  (at level 100, k at level 200, right associativity) : plugin_scope.
#[local] Open Scope plugin_scope.

Definition set_plugins (f : gmap text json -> gmap text json) : R unit :=
  fun st =>
    (Settled (Ok tt),
     System (f (plugins st)) (pluginConfigs st) (activePlugins st)
       (navItems st) (tabContents st) (notifications st) (console st)
       (localStorage st) (trace st)).

Definition set_pluginConfigs (f : gmap text entry -> gmap text entry)
  : R unit :=
  fun st =>
    (Settled (Ok tt),
     System (plugins st) (f (pluginConfigs st)) (activePlugins st)
       (navItems st) (tabContents st) (notifications st) (console st)
       (localStorage st) (trace st)).

Definition set_activePlugins (f : gset text -> gset text) : R unit :=
  fun st =>
    (Settled (Ok tt),
     System (plugins st) (pluginConfigs st) (f (activePlugins st))
       (navItems st) (tabContents st) (notifications st) (console st)
       (localStorage st) (trace st)).

Definition set_tabs (nav : list text) (panes : list pane) : R unit :=
  fun st =>
    (Settled (Ok tt),
     System (plugins st) (pluginConfigs st) (activePlugins st)
       nav panes (notifications st) (console st)
       (localStorage st) (trace st)).

Definition log (entry : log_entry) : R unit :=
  fun st =>
    (Settled (Ok tt),
     System (plugins st) (pluginConfigs st) (activePlugins st)
       (navItems st) (tabContents st) (notifications st)
       (console st ++ [entry]) (localStorage st) (trace st)).

Definition set_localStorage (f : gmap text text -> gmap text text) : R unit :=
  fun st =>
    (Settled (Ok tt),
     System (plugins st) (pluginConfigs st) (activePlugins st)
       (navItems st) (tabContents st) (notifications st) (console st)
       (f (localStorage st)) (trace st)).

Definition record (e : event) : R unit :=
  fun st =>
    (Settled (Ok tt),
     System (plugins st) (pluginConfigs st) (activePlugins st)
       (navItems st) (tabContents st) (notifications st) (console st)
       (localStorage st) (trace st ++ [e])).

Definition show (message type : text) : R unit :=
  fun st =>
    (Settled (Ok tt),
     System (plugins st) (pluginConfigs st) (activePlugins st)
       (navItems st) (tabContents st)
       (notifications st ++ [(message, type)]) (console st)
       (localStorage st) (trace st)).

(** *** What a plugin does *)

(** The code of a plugin runs in the page, with [window.pluginSystem] and
    the document in reach like any other script: a run of it is any change
    of the state at all.  The top-level code ends by returning (and then
    [exports.init] holds something to call, or nothing) or by throwing; the
    promise of [init] is fulfilled, is rejected, or never settles. *)
Definition init_code : Type := system -> outcome unit * system.
Definition plugin_code : Type := system -> result (option init_code) * system.

(** The argument of [api.setStorage]: a value JSON can express, or
    [undefined], or an object that refers to itself. *)
Inductive js_arg :=
| Serializable (v : json)
| Undefined
| Cyclic.

(** The calls on the capability object that change what the host keeps;
    any other call is [OtherCall]. *)
Inductive api_call :=
| CreateTab (id title icon : text)
| RemoveTab (id : text)
| ShowNotification (message type : text)
| SetStorage (key : text) (value : js_arg)
| OtherCall.

(** What [require] hands out: [window[module] || {}]. *)
Inductive module_object :=
| WindowProperty (name : text)
| EmptyObject.

(** A plugin that keeps to the capability object: its top-level code makes
    some calls on it and then throws or returns, and its [init], if it
    exports one, makes some calls and then its promise is fulfilled or
    rejected. *)
Record init_program := InitProgram {
  init_calls : list api_call;
  init_error : option exn
}.

Record program := Program {
  top_calls : list api_call;
  top_result : result (option init_program)
}.

(** The run of such a plugin, given what a call on the capability object
    does (an exception of a call stays inside the plugin). *)
Definition run_calls (api : api_call -> system -> system)
    (cs : list api_call) (st : system) : system :=
  foldl (fun st c => api c st) st cs.

Definition init_through (api : api_call -> system -> system)
    (init : init_program) : init_code :=
  fun st =>
    (Settled (match init_error init with
              | Some e => Throw e
              | None => Ok tt
              end),
     run_calls api (init_calls init) st).

Definition through_api (run : program)
    (api : api_call -> system -> system) : plugin_code :=
  fun st =>
    (match top_result run with
     | Ok (Some init) => Ok (Some (init_through api init))
     | Ok None => Ok None
     | Throw e => Throw e
     end,
     run_calls api (top_calls run) st).

(** *** The page and its collaborators *)

(** What the plugin system is given: [electronAPI.readFile] (a promise of
    the content or of [null]), [electronAPI.writeFile], what a function made
    by [new Function] from parameter names and a body does when it is called
    with the exports object, [moduleRequire] and the capability object,
    [document.querySelector] on an attribute selector for [data-tab] (the
    position of the element found among the sidebar items, or a
    [SyntaxError]), whether [localStorage.setItem] has room for a value,
    which properties of [window] are set, whether the page holds the element
    [plugins-list] of the plugin manager, and the engine's
    [Number::toString] of the number with the decimal [m * 10^e]. *)
Record browser := Browser {
  readFile : text -> result (option text);
  writeFile : text -> result bool;
  new_Function : list text -> text ->
                 (text -> result module_object) ->
                 (api_call -> system -> system) -> plugin_code;
  querySelector_data_tab : text -> list text -> result (option nat);
  has_room : gmap text text -> text -> text -> bool;
  window_has : text -> bool;
  plugins_list : bool;
  NumberToString : Z -> Z -> text
}.

(** Text that a quoted attribute selector takes as it is: printable ASCII
    without the quote and the backslash. *)
Definition plain (s : text) : Prop :=
  Forall (fun c => 32 <= c <= 126 /\ c <> 34 /\ c <> 92) s.

(** The position of the first element equal to [x]. *)
Fixpoint index_of (x : text) (l : list text) : option nat :=
  match l with
  | [] => None
  | y :: l' => if bool_decide (x = y) then Some O else S <$> index_of x l'
  end.

(** For such text the selector finds the first element with that value. *)
Definition standard (env : browser) : Prop :=
  forall tabId items,
    plain tabId -> querySelector_data_tab env tabId items
                   = Ok (index_of tabId items).

(** [document.getElementById(tabId)] among the panes and their inner
    elements, in document order: the position of the pane, and whether the
    element found is the pane itself ([true]) or the [-body] element inside
    it.  (The rest of the page is taken to hold no element with such an
    identifier; the plugin manager has one, [plugin-details].) *)
Fixpoint getElementById (tabId : text) (panes : list pane)
  : option (nat * bool) :=
  match panes with
  | [] => None
  | p :: rest =>
      if bool_decide (pane_id p = tabId) then Some (O, true)
      else if pane_body p && bool_decide (pane_id p ++ str "-body" = tabId)
           then Some (O, false)
           else (fun found => (S found.1, found.2))
                  <$> getElementById tabId rest
  end.

(** [element.remove()] for the element found. *)
Definition remove_element (found : nat * bool) (panes : list pane)
  : list pane :=
  if found.2 then delete found.1 panes
  else alter (fun p => Pane (pane_id p) false) found.1 panes.

(** Running a piece of plugin code from inside an operation: whatever the
    code does to the state, the steps recorded so far are not its to see
    or to change. *)
Definition keep_trace (st st' : system) : system :=
  System (plugins st') (pluginConfigs st') (activePlugins st')
    (navItems st') (tabContents st') (notifications st') (console st')
    (localStorage st') (trace st).

Definition run_code {A} (code : system -> A * system) (st : system)
  : A * system :=
  let run := code (keep_trace empty_system st) in
  (run.1, keep_trace st run.2).

(** A step that returns or throws. *)
Definition settled {A} (m : system -> result A * system) : R A :=
  fun st => (Settled (m st).1, (m st).2).

Section PluginSystem.
Context (env : browser).

Definition pluginDirectory : text := str "plugins".
Definition configFile : text := str "plugin-config.json".

(** [`${this.pluginDirectory}/${name}`]. *)
Definition in_directory (name : text) : text := pluginDirectory ++ 47 :: name.

(** [window.uiUtils?.showNotification(message, type)], the utilities being
    in place. *)
Definition showNotification (message type : text) : R unit :=
  show message type.

(** **** Tabs *)

(** [createPluginTab(pluginId, title, icon)]: a sidebar item, and a pane
    with its [-body] element, appended to the sidebar and to the main
    content of the page ([pluginId], [title] and [icon] taken to hold
    nothing that [innerHTML] reads as markup or as a character
    reference). *)
Definition createPluginTab (pluginId : text) : R unit :=
  let tabId := str "plugin-" ++ pluginId in
  nav <- gets navItems ;;
  panes <- gets tabContents ;;
  set_tabs (nav ++ [tabId]) (panes ++ [Pane tabId true]).

(** [removePluginTab(pluginId)]. *)
Definition removePluginTab (pluginId : text) : R unit :=
  let tabId := str "plugin-" ++ pluginId in
  nav <- gets navItems ;;
  navItem <- lift (querySelector_data_tab env tabId nav) ;;
  panes <- gets tabContents ;;
  match navItem with
  | Some i => set_tabs (delete i nav) panes
  | None => ret tt
  end ;;
  nav' <- gets navItems ;;
  match getElementById tabId panes with
  | Some found => set_tabs nav' (remove_element found panes)
  | None => ret tt
  end.

(** **** Storage *)

(** [JSON.stringify(value)]: a text, [undefined], or a [TypeError]. *)
Definition JSON_stringify (value : js_arg) : result (option text) :=
  match value with
  | Serializable v => Ok (Some (stringify v))
  | Undefined => Ok None
  | Cyclic => Throw (TypeError "Converting circular structure to JSON")
  end.

(** [localStorage.setItem(key, value)], the value converted to a string. *)
Definition setItem (key : text) (value : option text) : R unit :=
  let value := default (str "undefined") value in
  stored <- gets localStorage ;;
  if has_room env stored key value
  then set_localStorage (insert key value)
  else lift (Throw QuotaExceededError).

(** [getPluginStorage(key)]; the result [null] is [JNull]. *)
Definition getPluginStorage (key : text) : R json :=
  try_catch
    (storage <- gets (fun st => localStorage st !! (str "plugin_" ++ key)) ;;
     match storage with
     | Some (c :: t) =>
         match parse (c :: t) with
         | Some v => ret v
         | None => lift (Throw (SyntaxError "JSON.parse"))
         end
     | Some [] | None => ret JNull
     end)
    (fun error =>
       log (LogError (str "Failed to get plugin storage:") (Some error)) ;;
       ret JNull).

(** [setPluginStorage(key, value)]. *)
Definition setPluginStorage (key : text) (value : js_arg) : R bool :=
  try_catch
    (document <- lift (JSON_stringify value) ;;
     setItem (str "plugin_" ++ key) document ;;
     ret true)
    (fun error =>
       log (LogError (str "Failed to set plugin storage:") (Some error)) ;;
       ret false).

(** **** Running a plugin *)

(** The capability object [this.pluginAPI], by the effect of a call on
    it. *)
Definition call (c : api_call) (st : system) : system :=
  match c with
  | CreateTab id _ _ => exec (createPluginTab id) st
  | RemoveTab id => exec (removePluginTab id) st
  | ShowNotification message type => exec (showNotification message type) st
  | SetStorage key value => exec (setPluginStorage key value) st
  | OtherCall => st
  end.

(** The names the plugin code is given:
    [new Function('exports', 'require', 'api', content)]. *)
Definition pluginFunction_parameters : list text :=
  [str "exports"; str "require"; str "api"].

Definition allowedModules : list text := [str "chart.js"].

(** [moduleRequire(module)]. *)
Definition moduleRequire (module : text) : result module_object :=
  if bool_decide (module ∈ allowedModules)
  then Ok (if window_has env module then WindowProperty module
           else EmptyObject)
  else Throw (Error (str "Module " ++ module ++ str " not allowed in plugins")).

(** The run of the plugin function, [pluginFunction(moduleExports,
    moduleRequire, this.pluginAPI)]. *)
Definition behaviour (source : text) : plugin_code :=
  new_Function env pluginFunction_parameters source moduleRequire call.

(** [createPluginModule(content, metadata)]: the exports (here: what
    [exports.init] holds), or [null]; a [null] content makes a function with
    the body [null], which exports nothing. *)
Definition createPluginModule (content : option text)
  : R (option (option init_code)) :=
  try_catch
    (match content with
     | Some source =>
         init <- settled (run_code (behaviour source)) ;;
         ret (Some init)
     | None => ret (Some None)
     end)
    (fun error =>
       log (LogError (str "Failed to create plugin module:") (Some error)) ;;
       ret None).

(** **** Texts *)

(** [ToString] of a parsed value, as a template literal applies it: an
    object has the [toString] of [Object.prototype] unless a member of its
    own is in the way, which, read from JSON, is nothing to call; an array
    is joined from its items. *)
Fixpoint ToString (v : json) : result text :=
  match v with
  | JNull => Ok (str "null")
  | JBool true => Ok (str "true")
  | JBool false => Ok (str "false")
  | JNum m e => Ok (NumberToString env m e)
  | JStr s => Ok s
  | JArr items =>
      parts ← (fix each (l : list json) : result (list text) :=
                 match l with
                 | [] => Ok []
                 | x :: l' =>
                     t ← match x with JNull => Ok [] | _ => ToString x end;
                     ts ← each l';
                     Ok (t :: ts)
                 end) items;
      Ok (join_comma parts)
  | JObj members =>
      if bool_decide (str "toString" ∈ members.*1)
      then Throw (TypeError "Cannot convert object to primitive value")
      else Ok (str "[object Object]")
  end.

(** [`${value[name]}`] for a value that is not [null] and one of the names
    [name], [version], [description]: the member of an object, [undefined]
    for any other value. *)
Definition member_text (name : text) (v : json) : result text :=
  match v with
  | JObj members =>
      match list_find (fun kx => kx.1 = name) members with
      | Some (_, (_, x)) => ToString x
      | None => Ok (str "undefined")
      end
  | _ => Ok (str "undefined")
  end.

(** [`${metadata.name}`]. *)
Definition name_text (metadata : json) : result text :=
  match metadata with
  | JNull => Throw (TypeError "Cannot read properties of null")
  | _ => member_text (str "name") metadata
  end.

(** [`${metadata?.name}`]. *)
Definition name_of (metadata : option json) : result text :=
  match metadata with
  | Some JNull | None => Ok (str "undefined")
  | Some m => member_text (str "name") m
  end.

(** [renderPluginsList()]: the list is drawn anew from the registries, and
    nothing kept here changes (paths and metadata taken to hold no markup);
    what matters is whether the texts of an item can be made.  (When the
    items of several plugins fail, the error is that of the first of them
    in the order of the [Map], which the registry here does not keep: the
    order of the keys stands in for it.) *)
Definition item_markup (metadata : json) : result unit :=
  match metadata with
  | JNull => Throw (TypeError "Cannot read properties of null")
  | _ =>
      member_text (str "name") metadata ≫= fun _ =>
      member_text (str "version") metadata ≫= fun _ =>
      member_text (str "description") metadata ≫= fun _ => Ok tt
  end.

Definition renderPluginsList : R unit :=
  if plugins_list env then
    registry <- gets plugins ;;
    lift (foldr (fun item rest => item_markup item.2 ≫= fun _ => rest)
            (Ok tt) (map_to_list registry))
  else ret tt.

(** **** Loading and unloading *)

(** [loadPlugin(pluginPath, metadata)]. *)
Definition loadPlugin (pluginPath : text) (metadata : json) : R unit :=
  record (EvLoad pluginPath) ;;
  try_catch
    (content <- lift (readFile env (in_directory pluginPath)) ;;
     pluginModule <- createPluginModule content ;;
     match pluginModule with
     | Some (Some init) =>
         run_code init ;;
         set_activePlugins (fun active => {[pluginPath]} ∪ active) ;;
         name <- lift (name_text metadata) ;;
         log (LogInfo (str "Plugin loaded: " ++ name))
     | Some None | None => ret tt
     end)
    (fun error =>
       log (LogError (str "Failed to load plugin " ++ pluginPath ++ str ":")
              (Some error))).

(** [unloadPlugin(pluginPath)]. *)
Definition unloadPlugin (pluginPath : text) : R unit :=
  record (EvUnload pluginPath) ;;
  try_catch
    (removePluginTab pluginPath ;;
     set_activePlugins (fun active => active ∖ {[pluginPath]}) ;;
     metadata <- gets (fun st => plugins st !! pluginPath) ;;
     name <- lift (name_of metadata) ;;
     log (LogInfo (str "Plugin unloaded: " ++ name)))
    (fun error =>
       log (LogError (str "Failed to unload plugin:") (Some error))).

(** [savePluginConfigs()]. *)
Definition savePluginConfigs : R unit :=
  try_catch
    (config <- gets (fun st => to_json <$> pluginConfigs st) ;;
     record (EvWriteFile (in_directory configFile) config) ;;
     lift (writeFile env (in_directory configFile)) ;;
     ret tt)
    (fun error =>
       log (LogError (str "Failed to save plugin configs:") (Some error))).

(** [const config = this.pluginConfigs.get(pluginPath) || {};
    config.enabled = enabled]: the entry, a new object in place of a
    missing one or of one that counts as false, with [enabled] set; on a
    number, a string or [true] the assignment is a [TypeError] (the body of
    a class is strict code). *)
Definition with_enabled (enabled : bool) (config : option entry)
  : result entry :=
  match config with
  | Some (Flagged items _) => Ok (Flagged items enabled)
  | Some (Value (JArr items)) => Ok (Flagged items enabled)
  | Some (Value (JObj members)) =>
      Ok (Value (JObj (obj_set (str "enabled") (JBool enabled) members)))
  | Some (Value v) =>
      if truthy v
      then Throw (TypeError "Cannot create property 'enabled'")
      else Ok (Value (JObj [(str "enabled", JBool enabled)]))
  | None => Ok (Value (JObj [(str "enabled", JBool enabled)]))
  end.

(** [togglePlugin(pluginPath, enabled)]. *)
Definition togglePlugin (pluginPath : text) (enabled : bool) : R unit :=
  try_catch
    (config <- gets (fun st => pluginConfigs st !! pluginPath) ;;
     config <- lift (with_enabled enabled config) ;;
     set_pluginConfigs (insert pluginPath config) ;;
     record (EvSetConfig pluginPath config) ;;
     (if enabled
      then metadata <- gets (fun st => plugins st !! pluginPath) ;;
           match metadata with
           | Some m => if truthy m then loadPlugin pluginPath m else ret tt
           | None => ret tt
           end
      else unloadPlugin pluginPath) ;;
     savePluginConfigs ;;
     renderPluginsList ;;
     metadata <- gets (fun st => plugins st !! pluginPath) ;;
     name <- lift (name_of metadata) ;;
     showNotification
       (str "Plugin " ++ (if enabled then str "enabled" else str "disabled")
        ++ str ": " ++ name)
       (str "success"))
    (fun error =>
       log (LogError (str "Failed to toggle plugin:") (Some error)) ;;
       showNotification (str "Failed to toggle plugin") (str "error")).

(** [deletePlugin(pluginPath)]; [confirmed] is the operator's answer to
    the question asked first. *)
Definition deletePlugin (pluginPath : text) (confirmed : bool) : R unit :=
  if confirmed then
    unloadPlugin pluginPath ;;
    set_plugins (delete pluginPath) ;;
    set_pluginConfigs (delete pluginPath) ;;
    savePluginConfigs ;;
    renderPluginsList ;;
    showNotification (str "Plugin deleted") (str "success")
  else ret tt.

(** **** Metadata *)

(** [extractPluginMetadata(content)]; [content] is [null] when the file
    could not be read, and [null.match] is a [TypeError]. *)
Definition extractPluginMetadata (content : option text) : R (option json) :=
  match content with
  | None => lift (Throw (TypeError "Cannot read properties of null"))
  | Some source =>
      match search source with
      | Some group =>
          match parse group with
          | Some metadata => ret (Some metadata)
          | None =>
              log (LogError (str "Invalid plugin metadata:")
                     (Some (SyntaxError "JSON.parse"))) ;;
              ret None
          end
      | None => ret None
      end
  end.

(** [loadPluginMetadata(pluginPath)]. *)
Definition loadPluginMetadata (pluginPath : text) : R unit :=
  try_catch
    (content <- lift (readFile env (in_directory pluginPath)) ;;
     metadata <- extractPluginMetadata content ;;
     match metadata with
     | Some m => if truthy m then set_plugins (insert pluginPath m)
                 else ret tt
     | None => ret tt
     end)
    (fun error =>
       log (LogError (str "Failed to load plugin metadata for " ++ pluginPath
                      ++ str ":") (Some error))).
End PluginSystem.

(** *** What the operations leave alone *)

Section Facts.
Context (env : browser).

(** The notification a call shows. *)
Definition notice (c : api_call) : list (text * text) :=
  match c with
  | ShowNotification message type => [(message, type)]
  | _ => []
  end.

(** [st'] differs from [st] at most in the tabs, the storage, and by more
    lines on the console and more notifications [shown]. *)
Definition same_registries (shown : list (text * text)) (st st' : system)
  : Prop :=
  plugins st' = plugins st /\
  pluginConfigs st' = pluginConfigs st /\
  activePlugins st' = activePlugins st /\
  trace st' = trace st /\
  notifications st' = notifications st ++ shown /\
  exists entries, console st' = console st ++ entries.

Lemma same_registries_refl (st : system) : same_registries [] st st.
Proof.
  unfold same_registries. rewrite app_nil_r.
  repeat split; try done. exists []. by rewrite app_nil_r.
Qed.

Lemma same_registries_trans shown1 shown2 (st1 st2 st3 : system) :
  same_registries shown1 st1 st2 -> same_registries shown2 st2 st3 ->
  same_registries (shown1 ++ shown2) st1 st3.
Proof.
  intros (H1 & H2 & H3 & H4 & H5 & [e1 H6]) (G1 & G2 & G3 & G4 & G5 & [e2 G6]).
  unfold same_registries.
  rewrite G1, G2, G3, G4, G5, G6, H1, H2, H3, H4, H5, H6.
  repeat split; try done.
  - by rewrite (assoc_L (++)).
  - exists (e1 ++ e2). by rewrite (assoc_L (++)).
Qed.

Ltac frame :=
  unfold same_registries;
  cbn [plugins pluginConfigs activePlugins trace notifications console
       fst snd];
  rewrite ?app_nil_r;
  repeat split; try done;
  try (by exists []; rewrite app_nil_r); eauto.

Lemma removePluginTab_frame (pluginId : text) (st : system) :
  same_registries [] st (exec (removePluginTab env pluginId) st).
Proof.
  unfold exec, removePluginTab, bind, gets, lift, set_tabs, ret.
  cbv beta iota zeta.
  destruct (querySelector_data_tab env _ (navItems st)) as [[i|]|e];
    cbv beta iota zeta; try destruct (getElementById _ _); frame.
Qed.

Lemma setPluginStorage_frame (key : text) (value : js_arg) (st : system) :
  same_registries [] st (exec (setPluginStorage env key value) st).
Proof.
  unfold exec, setPluginStorage, setItem, try_catch, bind, gets, lift,
    set_localStorage, log, ret.
  destruct (JSON_stringify value) as [document|e]; cbv beta iota zeta.
  - destruct (has_room env _ _ _); frame.
  - frame.
Qed.

Lemma call_frame (c : api_call) (st : system) :
  same_registries (notice c) st (call env c st).
Proof.
  destruct c; simpl.
  - frame.
  - apply removePluginTab_frame.
  - frame.
  - apply setPluginStorage_frame.
  - apply same_registries_refl.
Qed.

(** The notifications a run of calls shows. *)
Definition notices (cs : list api_call) : list (text * text) :=
  cs ≫= notice.

Lemma run_calls_frame (cs : list api_call) (st : system) :
  same_registries (notices cs) st (run_calls (call env) cs st).
Proof.
  unfold run_calls. revert st.
  induction cs as [|c cs IH]; intros st; simpl.
  - apply same_registries_refl.
  - change (notices (c :: cs)) with (notice c ++ notices cs).
    eapply same_registries_trans; [apply call_frame|apply IH].
Qed.

(** *** Loading a plugin *)

(** How the run of a plugin's code ends when the plugin is loaded. *)
Inductive ending :=
| ReadRejected (e : exn)
| NothingToCall
| CodeThrew (e : exn)
| InitRejected (e : exn)
| InitPending
| InitFulfilled.

(** The run of the code of the plugin at [pluginPath] from the state [st]:
    the read, the top-level code, the call of what [exports.init] holds;
    how it ends, and the state the code leaves.  [NothingToCall]: the
    content is [null], or the code returns with nothing under
    [exports.init]. *)
Definition plugin_run (pluginPath : text) (st : system) : ending * system :=
  match readFile env (in_directory pluginPath) with
  | Throw e => (ReadRejected e, st)
  | Ok None => (NothingToCall, st)
  | Ok (Some source) =>
      match run_code (behaviour env source) st with
      | (Throw e, st1) => (CodeThrew e, st1)
      | (Ok None, st1) => (NothingToCall, st1)
      | (Ok (Some init), st1) =>
          match run_code init st1 with
          | (Pending, st2) => (InitPending, st2)
          | (Settled (Throw e), st2) => (InitRejected e, st2)
          | (Settled (Ok _), st2) => (InitFulfilled, st2)
          end
      end
  end.


(** The plugin at [pluginPath] keeps to the capability object. *)
Definition keeps_to_api (pluginPath : text) : Prop :=
  forall source,
    readFile env (in_directory pluginPath) = Ok (Some source) ->
    exists run, behaviour env source = through_api run (call env).

(** The state [st] with one more step on record, one more line on the
    console, one more plugin in the active set. *)
Definition recorded (e : event) (st : system) : system :=
  exec (record e) st.
Definition logged (entry : log_entry) (st : system) : system :=
  exec (log entry) st.
Definition activated (pluginPath : text) (st : system) : system :=
  exec (set_activePlugins (fun active => {[pluginPath]} ∪ active)) st.

Lemma run_code_recorded {A} (code : system -> A * system) (e : event)
    (st : system) :
  run_code code (recorded e st) =
  ((run_code code st).1, recorded e (run_code code st).2).
Proof. done. Qed.

Lemma run_code_trace {A} (code : system -> A * system) (st : system) :
  trace (run_code code st).2 = trace st.
Proof. done. Qed.

Lemma plugin_run_recorded (pluginPath : text) (e : event) (st : system) :
  plugin_run pluginPath (recorded e st) =
  ((plugin_run pluginPath st).1, recorded e (plugin_run pluginPath st).2).
Proof.
  unfold plugin_run.
  destruct (readFile env (in_directory pluginPath)) as [[source|]|e0];
    try done.
  rewrite run_code_recorded.
  destruct (run_code (behaviour env source) st) as [[[init|]|e1] st1];
    try done.
  cbn [fst snd]. rewrite run_code_recorded.
  by destruct (run_code init st1) as [[[[]|e2]|] st2].
Qed.

Lemma plugin_run_trace (pluginPath : text) (st : system) :
  trace (plugin_run pluginPath st).2 = trace st.
Proof.
  unfold plugin_run.
  destruct (readFile env (in_directory pluginPath)) as [[source|]|e0];
    try done.
  pose proof (run_code_trace (behaviour env source) st) as H1.
  destruct (run_code (behaviour env source) st) as [[[init|]|e1] st1];
    try done.
  pose proof (run_code_trace init st1) as H2.
  destruct (run_code init st1) as [[[[]|e2]|] st2]; cbn in *; congruence.
Qed.

(** The line that [loadPlugin] writes when it catches [e]. *)
Definition load_failure (pluginPath : text) (e : exn) : log_entry :=
  LogError (str "Failed to load plugin " ++ pluginPath ++ str ":") (Some e).

(** [loadPlugin], case by case. *)
Lemma loadPlugin_cases (pluginPath : text) (metadata : json) (st : system) :
  loadPlugin env pluginPath metadata st =
  match plugin_run pluginPath (recorded (EvLoad pluginPath) st) with
  | (ReadRejected e, st1) | (InitRejected e, st1) =>
      (Settled (Ok tt), logged (load_failure pluginPath e) st1)
  | (CodeThrew e, st1) =>
      (Settled (Ok tt),
       logged (LogError (str "Failed to create plugin module:") (Some e)) st1)
  | (NothingToCall, st1) => (Settled (Ok tt), st1)
  | (InitPending, st1) => (Pending, st1)
  | (InitFulfilled, st1) =>
      match name_text env metadata with
      | Ok name =>
          (Settled (Ok tt),
           logged (LogInfo (str "Plugin loaded: " ++ name))
             (activated pluginPath st1))
      | Throw e =>
          (Settled (Ok tt),
           logged (load_failure pluginPath e) (activated pluginPath st1))
      end
  end.
Proof.
  unfold loadPlugin, plugin_run.
  unfold bind at 1. unfold record at 1. cbv beta iota.
  change (System _ _ _ _ _ _ _ _ _) with (recorded (EvLoad pluginPath) st).
  set (st0 := recorded (EvLoad pluginPath) st).
  unfold try_catch at 1, bind at 1, lift at 1.
  destruct (readFile env (in_directory pluginPath)) as [[source|]|e0];
    try done.
  unfold bind at 1, createPluginModule, try_catch at 1, bind at 1,
    settled at 1.
  destruct (run_code (behaviour env source) st0) as [[[init|]|e1] st1];
    try done.
  cbn [fst snd]. unfold ret at 1. cbv beta iota.
  unfold bind at 1.
  destruct (run_code init st1) as [[[[]|e2]|] st2]; try done.
  unfold bind at 1, set_activePlugins at 1. cbv beta iota.
  unfold bind at 1, lift at 1.
  by destruct (name_text env metadata).
Qed.

(** What [loadPlugin] makes of the state that the code of the plugin
    leaves. *)
Lemma loadPlugin_run (pluginPath : text) (metadata : json) (st : system) :
  exists r st',
    loadPlugin env pluginPath metadata st = (r, st') /\
    plugins st' = plugins (plugin_run pluginPath st).2 /\
    pluginConfigs st' = pluginConfigs (plugin_run pluginPath st).2 /\
    notifications st' = notifications (plugin_run pluginPath st).2 /\
    navItems st' = navItems (plugin_run pluginPath st).2 /\
    tabContents st' = tabContents (plugin_run pluginPath st).2 /\
    localStorage st' = localStorage (plugin_run pluginPath st).2 /\
    trace st' = trace st ++ [EvLoad pluginPath] /\
    match (plugin_run pluginPath st).1 with
    | ReadRejected e | InitRejected e =>
        r = Settled (Ok tt) /\
        activePlugins st' = activePlugins (plugin_run pluginPath st).2 /\
        console st' = console (plugin_run pluginPath st).2
                      ++ [load_failure pluginPath e]
    | CodeThrew e =>
        r = Settled (Ok tt) /\
        activePlugins st' = activePlugins (plugin_run pluginPath st).2 /\
        console st' = console (plugin_run pluginPath st).2
                      ++ [LogError (str "Failed to create plugin module:")
                            (Some e)]
    | NothingToCall =>
        r = Settled (Ok tt) /\
        activePlugins st' = activePlugins (plugin_run pluginPath st).2 /\
        console st' = console (plugin_run pluginPath st).2
    | InitPending =>
        r = Pending /\
        activePlugins st' = activePlugins (plugin_run pluginPath st).2 /\
        console st' = console (plugin_run pluginPath st).2
    | InitFulfilled =>
        r = Settled (Ok tt) /\
        activePlugins st' =
          {[pluginPath]} ∪ activePlugins (plugin_run pluginPath st).2 /\
        console st' =
          console (plugin_run pluginPath st).2
          ++ [match name_text env metadata with
              | Ok name => LogInfo (str "Plugin loaded: " ++ name)
              | Throw e => load_failure pluginPath e
              end]
    end.
Proof.
  rewrite loadPlugin_cases, plugin_run_recorded.
  pose proof (plugin_run_trace pluginPath st) as Htr.
  destruct (plugin_run pluginPath st) as [o st1]. cbn [fst snd] in *.
  destruct o; try destruct (name_text env metadata);
    eexists _, _; (split; [reflexivity|]); cbn; rewrite Htr; done.
Qed.

Lemma keep_trace_frame shown (st st1 : system) :
  same_registries shown (keep_trace empty_system st) st1 ->
  same_registries shown st (keep_trace st st1).
Proof. intros (H1 & H2 & H3 & _ & H5 & H6). by repeat split. Qed.

(** A plugin that keeps to the capability object leaves the registries
    alone, its promise settles, and how it ends does not depend on the
    state it is loaded in. *)
Lemma keeps_to_api_run (pluginPath : text) (st : system) :
  keeps_to_api pluginPath ->
  (exists shown,
     same_registries shown st (plugin_run pluginPath st).2) /\
  (plugin_run pluginPath st).1 <> InitPending /\
  forall st0, (plugin_run pluginPath st0).1 = (plugin_run pluginPath st).1.
Proof.
  intros Hapi. unfold plugin_run, keeps_to_api in *.
  destruct (readFile env (in_directory pluginPath)) as [[source|]|e0].
  - destruct (Hapi source eq_refl) as [run ->].
    unfold run_code, through_api. cbn [fst snd].
    pose proof (fun s => keep_trace_frame _ s _
                  (run_calls_frame (top_calls run) (keep_trace empty_system s)))
      as Htop.
    destruct (top_result run) as [[init|]|e1]; cbn [fst snd].
    + unfold init_through. cbn [fst snd].
      assert (Hinit : exists shown,
        same_registries shown st
          (keep_trace
             (keep_trace st
                (run_calls (call env) (top_calls run)
                   (keep_trace empty_system st)))
             (run_calls (call env) (init_calls init)
                (keep_trace empty_system
                   (keep_trace st
                      (run_calls (call env) (top_calls run)
                         (keep_trace empty_system st))))))).
      { eexists. eapply same_registries_trans; [apply Htop|].
        apply keep_trace_frame, run_calls_frame. }
      destruct (init_error init); (split; [exact Hinit|]); done.
    + split; [eauto|]. done.
    + split; [eauto|]. done.
  - split; [exists []; apply same_registries_refl|]. done.
  - split; [exists []; apply same_registries_refl|]. done.
Qed.

(** *** Unloading, saving, drawing the list *)

(** [tabContent.remove()] for what [getElementById] finds. *)
Definition remove_found (tabId : text) (panes : list pane) : list pane :=
  match getElementById tabId panes with
  | Some found => remove_element found panes
  | None => panes
  end.

(** [Array.prototype] removal of the first element equal to [x]. *)
Definition remove_first (x : text) (l : list text) : list text :=
  match index_of x l with
  | Some i => delete i l
  | None => l
  end.

Lemma unloadPlugin_cases (pluginPath : text) (st : system) :
  exists st',
    unloadPlugin env pluginPath st = (Settled (Ok tt), st') /\
    plugins st' = plugins st /\
    pluginConfigs st' = pluginConfigs st /\
    trace st' = trace st ++ [EvUnload pluginPath] /\
    notifications st' = notifications st /\
    localStorage st' = localStorage st /\
    match querySelector_data_tab env (str "plugin-" ++ pluginPath)
            (navItems st) with
    | Ok found =>
        activePlugins st' = activePlugins st ∖ {[pluginPath]} /\
        navItems st' = from_option (fun i => delete i (navItems st))
                         (navItems st) found /\
        tabContents st' = remove_found (str "plugin-" ++ pluginPath)
                            (tabContents st) /\
        exists line, console st' = console st ++ [line]
    | Throw e =>
        activePlugins st' = activePlugins st /\
        navItems st' = navItems st /\ tabContents st' = tabContents st /\
        console st' =
          console st ++ [LogError (str "Failed to unload plugin:") (Some e)]
    end.
Proof.
  unfold unloadPlugin, removePluginTab, remove_found.
  unfold bind at 1. unfold record at 1. cbv beta iota.
  unfold try_catch, bind, lift, set_tabs, ret, gets, set_activePlugins, log.
  cbn [navItems tabContents plugins].
  destruct (querySelector_data_tab env _ (navItems st)) as [[i|]|e];
    cbn [navItems tabContents plugins];
    try destruct (getElementById _ (tabContents st));
    cbn [navItems tabContents plugins pluginConfigs activePlugins
         notifications console localStorage trace];
    try destruct (name_of env (plugins st !! pluginPath));
    eexists; (split; [reflexivity|]); cbn; repeat split; eauto.
Qed.

Lemma savePluginConfigs_cases (st : system) :
  exists st',
    savePluginConfigs env st = (Settled (Ok tt), st') /\
    plugins st' = plugins st /\
    pluginConfigs st' = pluginConfigs st /\
    activePlugins st' = activePlugins st /\
    navItems st' = navItems st /\
    tabContents st' = tabContents st /\
    notifications st' = notifications st /\
    localStorage st' = localStorage st /\
    (exists lines, console st' = console st ++ lines) /\
    trace st' = trace st ++ [EvWriteFile (in_directory configFile)
                               (to_json <$> pluginConfigs st)].
Proof.
  unfold savePluginConfigs, try_catch, bind, lift, gets, record, log, ret.
  cbv beta iota.
  destruct (writeFile env (in_directory configFile));
    eexists; (split; [reflexivity|]); cbn; repeat split; try done.
  - exists []. by rewrite app_nil_r.
  - eauto.
Qed.

(** Whether the list can be drawn from a registry. *)
Definition drawn (registry : gmap text json) : result unit :=
  if plugins_list env then
    foldr (fun item rest => item_markup env item.2 ≫= fun _ => rest)
      (Ok tt) (map_to_list registry)
  else Ok tt.

Lemma renderPluginsList_run (st : system) :
  renderPluginsList env st = (Settled (drawn (plugins st)), st).
Proof.
  unfold renderPluginsList, drawn. by destruct (plugins_list env).
Qed.

(** *** Toggling *)

(** The step of [togglePlugin] between the change of the entry and the
    save. *)
Definition load_or_unload (pluginPath : text) (enabled : bool) : R unit :=
  if enabled
  then metadata <- gets (fun st => plugins st !! pluginPath) ;;
       match metadata with
       | Some m => if truthy m then loadPlugin env pluginPath m else ret tt
       | None => ret tt
       end
  else unloadPlugin env pluginPath.

(** What that step puts on record. *)
Definition toggle_step (pluginPath : text) (enabled : bool) (st : system)
  : list event :=
  if enabled then
    match plugins st !! pluginPath with
    | Some m => if truthy m then [EvLoad pluginPath] else []
    | None => []
    end
  else [EvUnload pluginPath].

(** The entry stored and the step on record. *)
Definition entry_set (pluginPath : text) (config : entry) (st : system)
  : system :=
  recorded (EvSetConfig pluginPath config)
    (exec (set_pluginConfigs (insert pluginPath config)) st).

(** The lines of the failure branch. *)
Definition toggle_failed (e : exn) (st : system) : system :=
  exec (showNotification (str "Failed to toggle plugin") (str "error"))
    (logged (LogError (str "Failed to toggle plugin:") (Some e)) st).

(** [config?.enabled], as a condition. *)
Definition is_enabled (config : option entry) : bool :=
  match config with
  | Some (Value (JObj members)) =>
      match list_find (fun kx => kx.1 = str "enabled") members with
      | Some (_, (_, v)) => truthy v
      | None => false
      end
  | Some (Flagged _ enabled) => enabled
  | _ => false
  end.

Lemma load_or_unload_cases (pluginPath : text) (enabled : bool)
    (st : system) :
  exists r st',
    load_or_unload pluginPath enabled st = (r, st') /\
    trace st' = trace st ++ toggle_step pluginPath enabled st /\
    (r = Settled (Ok tt) \/
     (r = Pending /\ enabled = true /\
      (exists m, plugins st !! pluginPath = Some m /\ truthy m = true) /\
      (plugin_run pluginPath st).1 = InitPending)) /\
    (enabled = false \/ keeps_to_api pluginPath ->
     plugins st' = plugins st /\ pluginConfigs st' = pluginConfigs st /\
     r = Settled (Ok tt)).
Proof.
  unfold load_or_unload, toggle_step. destruct enabled.
  - unfold bind, gets.
    destruct (plugins st !! pluginPath) as [m|] eqn:Hm;
      [destruct (truthy m) eqn:Ht|].
    + destruct (loadPlugin_run pluginPath m st)
        as (r & st' & -> & H1 & H2 & H3 & _ & _ & _ & H4 & H5).
      exists r, st'. split; [done|]. split; [done|]. split.
      * destruct (plugin_run pluginPath st).1; destruct H5 as (-> & _);
          first [by left | right; repeat split; eauto].
      * intros [?|Hapi]; [done|].
        destruct (keeps_to_api_run pluginPath st Hapi)
          as ([shown (K1 & K2 & _)] & Hp & _).
        rewrite H1, H2, K1, K2. repeat split; try done.
        destruct (plugin_run pluginPath st).1; destruct H5 as (-> & _); done.
    + eexists _, _. split; [reflexivity|]. rewrite app_nil_r.
      split; [done|]. split; [by left|]. done.
    + eexists _, _. split; [reflexivity|]. rewrite app_nil_r.
      split; [done|]. split; [by left|]. done.
  - destruct (unloadPlugin_cases pluginPath st)
      as (st' & -> & H1 & H2 & Ht & H3 & _).
    eexists _, _. split; [reflexivity|].
    split; [done|]. split; [by left|]. done.
Qed.

(** [togglePlugin], step by step. *)
Lemma togglePlugin_cases (pluginPath : text) (enabled : bool) (st : system) :
  togglePlugin env pluginPath enabled st =
  match with_enabled enabled (pluginConfigs st !! pluginPath) with
  | Throw e => (Settled (Ok tt), toggle_failed e st)
  | Ok config =>
      match load_or_unload pluginPath enabled
              (entry_set pluginPath config st) with
      | (Pending, st1) => (Pending, st1)
      | (Settled (Throw e), st1) => (Settled (Ok tt), toggle_failed e st1)
      | (Settled (Ok _), st1) =>
          let st2 := exec (savePluginConfigs env) st1 in
          match drawn (plugins st2) ≫= fun _ =>
                name_of env (plugins st2 !! pluginPath) with
          | Ok name =>
              (Settled (Ok tt),
               exec (showNotification
                       (str "Plugin "
                        ++ (if enabled then str "enabled" else str "disabled")
                        ++ str ": " ++ name) (str "success")) st2)
          | Throw e => (Settled (Ok tt), toggle_failed e st2)
          end
      end
  end.
Proof.
  unfold togglePlugin.
  unfold try_catch at 1, bind at 1, gets at 1. cbv beta iota.
  unfold bind at 1, lift at 1.
  destruct (with_enabled enabled (pluginConfigs st !! pluginPath))
    as [config|e]; [|done].
  unfold bind at 1, set_pluginConfigs at 1. cbv beta iota.
  unfold bind at 1, record at 1. cbv beta iota.
  change (System _ _ _ _ _ _ _ _ _) with (entry_set pluginPath config st).
  unfold bind at 1.
  change (if enabled then _ else unloadPlugin env pluginPath)
    with (load_or_unload pluginPath enabled).
  destruct (load_or_unload pluginPath enabled (entry_set pluginPath config st))
    as [[[[]|e]|] st1]; try done.
  unfold bind at 1.
  destruct (savePluginConfigs_cases st1) as (st2 & Hs & _).
  unfold exec. rewrite Hs. cbn [snd].
  unfold bind at 1. rewrite renderPluginsList_run.
  destruct (drawn (plugins st2)) as [[]|e]; [|done].
  unfold bind at 1, gets at 1. cbv beta iota.
  unfold bind at 1, lift at 1. cbn [mbind result_bind].
  by destruct (name_of env (plugins st2 !! pluginPath)).
Qed.

(** *** Deleting *)

Lemma deletePlugin_cases (pluginPath : text) (st : system) :
  exists r st',
    deletePlugin env pluginPath true st = (Settled r, st') /\
    plugins st' = delete pluginPath (plugins st) /\
    pluginConfigs st' = delete pluginPath (pluginConfigs st) /\
    trace st' =
      trace st ++ [EvUnload pluginPath;
                   EvWriteFile (in_directory configFile)
                     (to_json <$> delete pluginPath (pluginConfigs st))] /\
    r = drawn (plugins st') /\
    notifications st' =
      notifications st ++
      match r with
      | Ok _ => [(str "Plugin deleted", str "success")]
      | Throw _ => []
      end /\
    match querySelector_data_tab env (str "plugin-" ++ pluginPath)
            (navItems st) with
    | Ok found =>
        activePlugins st' = activePlugins st ∖ {[pluginPath]} /\
        navItems st' = from_option (fun i => delete i (navItems st))
                         (navItems st) found /\
        tabContents st' = remove_found (str "plugin-" ++ pluginPath)
                            (tabContents st)
    | Throw _ =>
        activePlugins st' = activePlugins st /\
        navItems st' = navItems st /\ tabContents st' = tabContents st
    end.
Proof.
  unfold deletePlugin. unfold bind at 1.
  destruct (unloadPlugin_cases pluginPath st)
    as (st1 & -> & U1 & U2 & U3 & U4 & _ & U5).
  unfold bind at 1. unfold set_plugins at 1. cbv beta iota.
  unfold bind at 1. unfold set_pluginConfigs at 1. cbv beta iota.
  set (st2 := System _ _ _ _ _ _ _ _ _).
  unfold bind at 1.
  destruct (savePluginConfigs_cases st2)
    as (st3 & -> & V1 & V2 & V3 & V4 & V5 & V6 & _ & _ & V7).
  unfold bind at 1. rewrite renderPluginsList_run.
  assert (Hq : match querySelector_data_tab env (str "plugin-" ++ pluginPath)
                       (navItems st) with
               | Ok found =>
                   activePlugins st3 = activePlugins st ∖ {[pluginPath]} /\
                   navItems st3 = from_option (fun i => delete i (navItems st))
                                    (navItems st) found /\
                   tabContents st3 = remove_found (str "plugin-" ++ pluginPath)
                                       (tabContents st)
               | Throw _ =>
                   activePlugins st3 = activePlugins st /\
                   navItems st3 = navItems st /\
                   tabContents st3 = tabContents st
               end).
  { rewrite V3, V4, V5. subst st2. cbn [activePlugins navItems tabContents].
    destruct (querySelector_data_tab env _ (navItems st)) as [found|e];
      [destruct U5 as (? & ? & ? & _)|destruct U5 as (? & ? & ? & _)]; done. }
  assert (Hr : plugins st3 = delete pluginPath (plugins st) /\
               pluginConfigs st3 = delete pluginPath (pluginConfigs st) /\
               trace st3 =
                 trace st ++ [EvUnload pluginPath;
                   EvWriteFile (in_directory configFile)
                     (to_json <$> delete pluginPath (pluginConfigs st))] /\
               notifications st3 = notifications st).
  { rewrite V1, V2, V6, V7. subst st2.
    cbn [plugins pluginConfigs trace notifications].
    by rewrite U1, U2, U3, U4, <- (assoc_L (++)). }
  destruct Hr as (R1 & R2 & R3 & R4).
  destruct (drawn (plugins st3)) as [[]|e] eqn:Hd.
  - unfold showNotification, show. eexists _, _. split; [reflexivity|].
    cbn [plugins pluginConfigs trace notifications activePlugins navItems
         tabContents].
    rewrite R4. by repeat split.
  - eexists _, _. split; [reflexivity|]. rewrite app_nil_r. by repeat split.
Qed.
End Facts.
(** *** The metadata block, found and parsed *)

(** Replaces the text of a literal by its code units. *)
Ltac eval_str :=
  repeat match goal with
    | |- context [str ?s] =>
        let v := eval vm_compute in (str s) in change (str s) with v
    end.

Lemma search_unmatched (pre rest : text) :
  unmatched_before pre rest = true -> search (pre ++ rest) = search rest.
Proof.
  induction pre as [|c pre IH]; [done|].
  cbn [unmatched_before]. 
  destruct (match_here ((c :: pre) ++ rest)) eqn:Hm; [done|].
  intros H. rewrite <- (IH H).
  cbn [app search] in *. by rewrite Hm.
Qed.

Lemma lazy_body_first (body t : text) :
  125 ∉ body -> closes_comment t = true ->
  lazy_body (body ++ 125 :: t) = Some body.
Proof.
  intros Hb Ht. induction body as [|c body IH]; cbn [app lazy_body].
  - change (125 =? 125) with true. by rewrite Ht.
  - apply not_elem_of_cons in Hb as [Hc Hb].
    destruct (N.eqb_spec c 125); [done|].
    cbn [andb]. by rewrite IH.
Qed.

(** The pattern matches a block written with single spaces, and its group
    is the payload between the braces, when no brace closes inside. *)
Lemma match_here_block (body post : text) :
  125 ∉ body ->
  match_here (str "/* @plugin " ++ (123 :: body ++ [125]) ++ str " */" ++ post)
  = Some (123 :: body ++ [125]).
Proof.
  intros Hb. eval_str. unfold match_here. eval_str.
  cbn [app strip_prefix]. 
  change (47 =? 47) with true. change (42 =? 42) with true. cbv iota.
  cbn [mbind option_bind skip_spaces].
  change (is_space 32) with true. change (is_space 64) with false.
  cbv iota. cbn [strip_prefix].
  change (64 =? 64) with true. change (112 =? 112) with true.
  change (108 =? 108) with true. change (117 =? 117) with true.
  change (103 =? 103) with true. change (105 =? 105) with true.
  change (110 =? 110) with true. cbv iota.
  cbn [mbind option_bind skip_spaces].
  change (is_space 32) with true. change (is_space 123) with false.
  cbv iota. change (123 =? 123) with true. cbv iota.
  rewrite <- (assoc_L (++)). cbn [app]. by rewrite lazy_body_first.
Qed.

(** Printing a string brings in no closing brace. *)
Lemma hex_digit_no_brace (k : N) : k < 16 -> hex_digit k <> 125.
Proof. unfold hex_digit. destruct (N.ltb_spec k 10); lia. Qed.

Lemma uescape_no_brace (c : N) : 125 ∉ uescape c.
Proof.
  unfold uescape, hex4. rewrite !not_elem_of_cons.
  repeat split; try lia;
    try (intros H; symmetry in H; revert H; apply hex_digit_no_brace,
           N.mod_lt; lia).
  apply not_elem_of_nil.
Qed.

Lemma quote_unit_no_brace (c : N) : c <> 125 -> 125 ∉ quote_unit c.
Proof.
  intros Hc. unfold quote_unit.
  repeat (case_match; [rewrite !not_elem_of_cons;
                       repeat split; try lia; apply not_elem_of_nil|]).
  case_match; [apply uescape_no_brace|].
  rewrite not_elem_of_cons. split; [lia|apply not_elem_of_nil].
Qed.

Lemma quote_units_no_brace (s : text) : 125 ∉ s -> 125 ∉ quote_units s.
Proof.
  remember (length s) as n eqn:Hn.
  assert (Hle : (length s <= n)%nat) by lia. clear Hn.
  revert s Hle. induction n as [|n IH]; intros s Hle Hs.
  { destruct s; simpl in *; [apply not_elem_of_nil|lia]. }
  destruct s as [|c r]; [apply not_elem_of_nil|].
  apply not_elem_of_cons in Hs as [Hc Hr].
  assert (IHr : 125 ∉ quote_units r) by (apply IH; [simpl in Hle; lia|done]).
  cbn [quote_units].
  destruct (is_high c).
  - destruct r as [|d r']; [apply uescape_no_brace|].
    apply not_elem_of_cons in Hr as [Hd Hr'].
    destruct (is_low d).
    + rewrite !not_elem_of_cons. repeat split; try lia.
      apply IH; [simpl in Hle; lia|done].
    + rewrite not_elem_of_app. split; [apply uescape_no_brace|done].
  - destruct (is_low c).
    + rewrite not_elem_of_app. split; [apply uescape_no_brace|done].
    + rewrite not_elem_of_app. split; [by apply quote_unit_no_brace|done].
Qed.

Lemma quote_no_brace (s : text) : 125 ∉ s -> 125 ∉ quote s.
Proof.
  intros Hs. unfold quote.
  rewrite not_elem_of_cons, not_elem_of_app, not_elem_of_cons.
  repeat split; try lia; [by apply quote_units_no_brace|apply not_elem_of_nil].
Qed.

(** The metadata record of a plugin with the four required fields. *)
Definition metadata_of (name version author description : text) : json :=
  JObj [(str "name", JStr name); (str "version", JStr version);
        (str "author", JStr author); (str "description", JStr description)].

(** What stands between the braces of its text. *)
Definition metadata_body (name version author description : text) : text :=
  quote (str "name") ++ 58 :: quote name ++ 44 ::
  quote (str "version") ++ 58 :: quote version ++ 44 ::
  quote (str "author") ++ 58 :: quote author ++ 44 ::
  quote (str "description") ++ 58 :: quote description.

Lemma stringify_metadata (name version author description : text) :
  stringify (metadata_of name version author description) =
  123 :: metadata_body name version author description ++ [125].
Proof.
  unfold metadata_of, metadata_body. cbn [stringify map join_comma fst snd].
  repeat (rewrite <- (assoc_L (++)) || rewrite <- app_comm_cons); done.
Qed.

Lemma metadata_body_no_brace (name version author description : text) :
  125 ∉ name -> 125 ∉ version -> 125 ∉ author -> 125 ∉ description ->
  125 ∉ metadata_body name version author description.
Proof.
  intros H1 H2 H3 H4. unfold metadata_body.
  repeat (rewrite not_elem_of_app || rewrite not_elem_of_cons).
  repeat split; try lia; try (by apply quote_no_brace);
    apply quote_no_brace; eval_str; by apply (bool_decide_unpack _).
Qed.

Lemma metadata_distinct_names (name version author description : text) :
  distinct_names (metadata_of name version author description).
Proof.
  apply distinct_names_obj. split.
  - cbn. eval_str. by apply (bool_decide_unpack _).
  - repeat constructor.
Qed.

(** *** Pages to run the plugin system on *)

(** A selector that takes every identifier as it is. *)
Definition literal_selector (tabId : text) (items : list text)
  : result (option nat) := Ok (index_of tabId items).

Lemma literal_selector_standard readFile writeFile run has_room window_has
    plugins_list NumberToString :
  standard (Browser readFile writeFile run literal_selector has_room
              window_has plugins_list NumberToString).
Proof. by intros tabId items _. Qed.

(** A page whose plugin files all hold [source], the code of a plugin that
    keeps to the capability object and runs as [run]; writes succeed, the
    storage has room, the plugin manager is on the page, and a number is
    shown by its JSON text. *)
Definition page (source : text) (run : program) : browser :=
  Browser (fun _ => Ok (Some source)) (fun _ => Ok true)
          (fun _ _ _ api => through_api run api)
          literal_selector (fun _ _ _ => true) (fun _ => false) true
          print_number.


(** The Network Monitor sample: its file, and what it does when loaded (its
    [init] opens the tab [network-monitor]). *)
Definition network_monitor : text := str "network-monitor.js".

Definition network_monitor_run : program :=
  Program []
    (Ok (Some (InitProgram
                 [CreateTab (str "network-monitor") (str "Network Monitor")
                    (str "fas fa-network-wired")] None))).

Definition network_monitor_metadata : json :=
  metadata_of (str "Network Monitor") (str "1.0.0") (str "PlayNexus")
    (str "Advanced network monitoring and analysis").

(** A plugin whose top-level code throws. *)
Definition throwing_run : program :=
  Program [] (Throw (Error (str "boom"))).

(** The registry after the scan found the Network Monitor. *)
Definition scanned : system :=
  System {[network_monitor := network_monitor_metadata]} ∅ ∅ [] [] [] [] ∅ [].

(** *** The module-resolution function *)

(** C5. [moduleRequire(m)] throws exactly when [m] is not ['chart.js'];
    for ['chart.js'] it returns; and the plugin function, whose run is the
    run of the plugin's top-level code, is made with the three parameter
    names [exports], [require], [api]. *)
Theorem moduleRequire_allows_only_chart_js (env : browser) (m : text) :
  ((exists e, moduleRequire env m = Throw e) <-> m <> str "chart.js") /\
  (exists o, moduleRequire env (str "chart.js") = Ok o) /\
  (m <> str "chart.js" ->
     moduleRequire env m =
       Throw (Error (str "Module " ++ m ++ str " not allowed in plugins"))) /\
  pluginFunction_parameters = [str "exports"; str "require"; str "api"] /\
  length pluginFunction_parameters = 3%nat /\
  (forall source,
     behaviour env source =
     new_Function env [str "exports"; str "require"; str "api"] source
       (moduleRequire env) (call env)).
Proof.
  unfold moduleRequire, allowedModules.
  repeat split.
  - intros [e He] ->.
    rewrite bool_decide_eq_true_2 in He by by apply list_elem_of_singleton.
    done.
  - intros Hm.
    rewrite bool_decide_eq_false_2 by by rewrite list_elem_of_singleton.
    eauto.
  - rewrite bool_decide_eq_true_2 by by apply list_elem_of_singleton. eauto.
  - intros Hm.
    by rewrite bool_decide_eq_false_2 by by rewrite list_elem_of_singleton.
Qed.

(** *** The plugin storage *)

(** C10. If [setPluginStorage(k, v)] returns [true] for a value [v] that
    JSON can express, [getPluginStorage(k)] then returns [v]; a key with
    nothing stored gives [null]; neither function lets an exception out:
    a value that cannot be written or a full storage gives [false], a
    stored text that does not parse gives [null]. *)
Theorem plugin_storage_round_trip (env : browser) (k : text) (v : json)
    (st st' : system) :
  distinct_names v ->
  setPluginStorage env k (Serializable v) st = (Ok true, st') ->
  getPluginStorage k st' = (Ok v, st') /\
  (forall k0 st0, localStorage st0 !! (str "plugin_" ++ k0) = None ->
                  getPluginStorage k0 st0 = (Ok JNull, st0)) /\
  (forall k0 value st0,
     exists b st1, setPluginStorage env k0 value st0 = (Ok b, st1) /\
       (b = false -> localStorage st1 = localStorage st0) /\
       (has_room env (localStorage st0) (str "plugin_" ++ k0)
          (default (str "undefined")
             (match value with Serializable x => Some (stringify x)
              | _ => None end)) = false \/ value = Cyclic -> b = false)) /\
  (forall k0 st0,
     exists x st1, getPluginStorage k0 st0 = (Ok x, st1) /\
       (forall document, localStorage st0 !! (str "plugin_" ++ k0)
                         = Some document ->
                         parse document = None -> x = JNull)).
Proof.
  intros Hv Hset. repeat split.
  - revert Hset.
    unfold setPluginStorage, getPluginStorage, setItem, try_catch, bind, lift,
      JSON_stringify, set_localStorage, gets, log, ret.
    cbv beta iota zeta. cbn [default].
    destruct (has_room env _ _ _); [|done].
    intros [= <-]. cbn [localStorage].
    rewrite lookup_insert_eq.
    destruct (stringify v) as [|c t] eqn:Hs;
      [by apply stringify_nonempty in Hs|].
    rewrite <- Hs, parse_stringify by done. done.
  - intros k0 st0 Hnone.
    unfold getPluginStorage, try_catch, bind, gets. by rewrite Hnone.
  - intros k0 value st0.
    unfold setPluginStorage, setItem, try_catch, bind, lift, JSON_stringify,
      set_localStorage, gets, log, ret.
    destruct value as [x| |]; cbv beta iota zeta; cbn [default];
      try destruct (has_room env _ _ _) eqn:Hroom;
      eexists _, _; (split; [reflexivity|]); split; try done;
      intros [?|?]; done.
  - intros k0 st0.
    unfold getPluginStorage, try_catch, bind, lift, gets, log, ret.
    destruct (localStorage st0 !! _) as [[|c t]|] eqn:Hl.
    + eexists _, _. split; [reflexivity|]. done.
    + destruct (parse (c :: t)) eqn:Hp.
      * eexists _, _. split; [reflexivity|]. intros d [= <-]. congruence.
      * eexists _, _. split; [reflexivity|]. done.
    + eexists _, _. split; [reflexivity|]. done.
Qed.

(** A value JSON can express is stored and read back. *)
Lemma plugin_storage_round_trip_sample :
  getPluginStorage (str "games")
    (exec (setPluginStorage (page [] throwing_run) (str "games")
             (Serializable (JArr [JStr (str "Doom"); JNum 1993 0])))
       empty_system)
  = (Ok (JArr [JStr (str "Doom"); JNum 1993 0]),
     exec (setPluginStorage (page [] throwing_run) (str "games")
             (Serializable (JArr [JStr (str "Doom"); JNum 1993 0])))
       empty_system).
Proof.
  exact (proj1 (plugin_storage_round_trip (page [] throwing_run) (str "games")
                  (JArr [JStr (str "Doom"); JNum 1993 0]) empty_system _
                  (conj I (conj I I)) eq_refl)).
Defined.

(** *** Loading *)




(** Plugin code that reaches past the capability object: it puts another
    plugin into the active set through [window.pluginSystem] and then
    throws. *)
Definition intruder : plugin_code :=
  fun st => (Throw (Error (str "x")), activated (str "other.js") st).

Definition intruded : browser :=
  Browser (fun _ => Ok (Some [])) (fun _ => Ok true)
          (fun _ _ _ _ => intruder)
          literal_selector (fun _ _ _ => true) (fun _ => false) true
          print_number.

(** The loader catches the exception of such code and leaves what the code
    has done: the other plugin is in the active set. *)
Lemma loadPlugin_leaves_what_the_code_did :
  loadPlugin intruded network_monitor network_monitor_metadata scanned
  = (Ok tt,
     System {[network_monitor := network_monitor_metadata]} ∅
       {[str "other.js"]} [] [] []
       [LogError (str "Failed to create plugin module:")
          (Some (Error (str "x")))] ∅ [EvLoad network_monitor]).
Proof.
  rewrite loadPlugin_cases. cbn.
  unfold logged, log, exec. cbn. by do 2 f_equal.
Qed.

(** *** Toggling *)

Lemma with_enabled_is_enabled (enabled : bool) (config : option entry)
    (stored : entry) :
  with_enabled enabled config = Ok stored ->
  is_enabled (Some stored) = enabled /\
  ((forall items flag, stored <> Flagged items flag) ->
   is_enabled (Some (Value (to_json stored))) = enabled).
Proof.
  assert (Hset : forall members,
    match list_find (fun kx : text * json => kx.1 = str "enabled")
            (obj_set (str "enabled") (JBool enabled) members) with
    | Some (_, (_, v)) => truthy v
    | None => false
    end = enabled).
  { induction members as [|[k v] members IH]; cbn [obj_set].
    - cbn [list_find]. rewrite decide_True by done. done.
    - destruct (bool_decide_reflect (str "enabled" = k)) as [<-|Hne].
      + cbn [list_find]. rewrite decide_True by done. done.
      + cbn [list_find]. rewrite decide_False by (cbn; congruence).
        destruct (list_find _ (obj_set _ _ members)) as [[i [k' v']]|];
          cbn in *; done. }
  assert (Hnew : is_enabled
                   (Some (Value (JObj [(str "enabled", JBool enabled)])))
                 = enabled).
  { cbn [is_enabled list_find]. rewrite decide_True by done. done. }
  destruct config as [[v|items flag]|]; cbn [with_enabled].
  - destruct v as [|b|m e|s|items|members];
      try (destruct (truthy _); [done|]);
      intros [= <-]; cbn [to_json is_enabled]; auto.
    split; [done|]. intros H. by destruct (H items enabled).
  - intros [= <-]. split; [done|]. intros H. by destruct (H items enabled).
  - intros [= <-]. auto.
Qed.



(** An entry that is [true], as a config document may hold it: toggling
    stops at the assignment. *)
Lemma togglePlugin_on_a_primitive_entry :
  togglePlugin (page [] network_monitor_run) network_monitor true
    (System {[network_monitor := network_monitor_metadata]}
       {[network_monitor := Value (JBool true)]} ∅ [] [] [] [] ∅ [])
  = (Ok tt,
     System {[network_monitor := network_monitor_metadata]}
       {[network_monitor := Value (JBool true)]} ∅ [] []
       [(str "Failed to toggle plugin", str "error")]
       [LogError (str "Failed to toggle plugin:")
          (Some (TypeError "Cannot create property 'enabled'"))] ∅ []).
Proof. vm_compute. reflexivity. Qed.

(** *** Deleting *)

(** The Network Monitor, enabled and running. *)
Definition running : system :=
  exec (togglePlugin (page [] network_monitor_run) network_monitor true)
    scanned.

(** Deleting (the operator having confirmed) unloads first and writes the
    config document last, and leaves the plugin in neither registry; with
    a selector that does not throw it leaves the active set too.  What
    comes after the write, the drawing of the list, is outside every [try]:
    when it throws, [deletePlugin] does, and no notification is shown. *)
Lemma deletePlugin_registries (env : browser) (pluginPath : text)
    (st : system) :
  standard env -> plain (str "plugin-" ++ pluginPath) ->
  exists r st',
    deletePlugin env pluginPath true st = (Settled r, st') /\
    r = drawn env (plugins st') /\
    plugins st' !! pluginPath = None /\
    pluginConfigs st' !! pluginPath = None /\
    (pluginPath ∉ activePlugins st') /\
    trace st' =
      (trace st ++ [EvUnload pluginPath;
                    EvWriteFile (in_directory configFile)
                      (to_json <$> pluginConfigs st')])
    /\
    navItems st' = remove_first (str "plugin-" ++ pluginPath) (navItems st) /\
    tabContents st' = remove_found (str "plugin-" ++ pluginPath)
                        (tabContents st).
Proof.
  intros Hstd Hplain.
  destruct (deletePlugin_cases env pluginPath st)
    as (r & st' & Hrun & Hp & Hc & Ht & Hr & _ & Hq).
  rewrite (Hstd _ (navItems st) Hplain) in Hq.
  destruct Hq as (Ha & Hnav & Htab).
  exists r, st'. rewrite Hp, Hc, Ht, Ha, Hnav, Htab.
  split; [done|]. split; [by rewrite Hr, Hp|].
  split; [apply lookup_delete_eq|].
  split; [apply lookup_delete_eq|]. split.
  { rewrite elem_of_difference, elem_of_singleton. tauto. }
  split; [done|]. split; [|done].
  unfold remove_first. by destruct (index_of _ _).
Qed.

(** C7 fails on the tab: the Network Monitor opens its tab as
    [network-monitor], so its sidebar item and its pane are named
    [plugin-network-monitor], while unloading removes what is named after
    the file, [plugin-network-monitor.js].  After the delete the plugin has
    left the two registries and the active set, and its tab is still on the
    page. *)
Lemma deletePlugin_leaves_the_tab :
  bool_decide (network_monitor ∈ activePlugins running) = true /\
  navItems running = [str "plugin-network-monitor"] /\
  tabContents running = [Pane (str "plugin-network-monitor") true] /\
  plugins (exec (deletePlugin (page [] network_monitor_run) network_monitor
                   true) running) !! network_monitor = None /\
  pluginConfigs (exec (deletePlugin (page [] network_monitor_run)
                         network_monitor true) running) !! network_monitor
    = None /\
  bool_decide
    (network_monitor ∈
       activePlugins (exec (deletePlugin (page [] network_monitor_run)
                              network_monitor true) running)) = false /\
  navItems (exec (deletePlugin (page [] network_monitor_run) network_monitor
                    true) running) = [str "plugin-network-monitor"] /\
  tabContents (exec (deletePlugin (page [] network_monitor_run)
                       network_monitor true) running)
    = [Pane (str "plugin-network-monitor") true].
Proof. repeat split; vm_compute; reflexivity. Qed.

(** *** Metadata *)

(** C4 (as the code has it). When the block
    [/* @plugin {"name":..,"version":..,"author":..,"description":..} */]
    is where the pattern first matches in the source (no closing brace in
    the four texts), extraction returns the record with exactly those four
    fields and [loadPluginMetadata] registers it under the path.  When the
    pattern matches nowhere, or what it captures is not JSON, or the file
    could not be read, extraction returns nothing, nothing is registered,
    and no exception leaves [loadPluginMetadata]. *)
Theorem metadata_block_registered (env : browser) (pluginPath : text)
    (pre post name version author description : text) (st : system) :
  125 ∉ name -> 125 ∉ version -> 125 ∉ author -> 125 ∉ description ->
  unmatched_before pre
    (str "/* @plugin "
     ++ stringify (metadata_of name version author description)
     ++ str " */" ++ post) = true ->
  readFile env (in_directory pluginPath) =
    Ok (Some (pre ++ str "/* @plugin "
              ++ stringify (metadata_of name version author description)
              ++ str " */" ++ post)) ->
  extractPluginMetadata
    (Some (pre ++ str "/* @plugin "
           ++ stringify (metadata_of name version author description)
           ++ str " */" ++ post)) st
  = (Ok (Some (metadata_of name version author description)), st) /\
  (exists st',
     loadPluginMetadata env pluginPath st = (Ok tt, st') /\
     plugins st' =
       <[pluginPath := metadata_of name version author description]>
         (plugins st) /\
     pluginConfigs st' = pluginConfigs st /\
     activePlugins st' = activePlugins st) /\
  (forall env0 path0 st0,
     match readFile env0 (in_directory path0) with
     | Ok (Some source) =>
         search source = None \/
         exists group, search source = Some group /\ parse group = None
     | _ => True
     end ->
     (forall source,
        readFile env0 (in_directory path0) = Ok (Some source) ->
        exists st1, extractPluginMetadata (Some source) st0 = (Ok None, st1))
     /\
     exists st1,
       loadPluginMetadata env0 path0 st0 = (Ok tt, st1) /\
       plugins st1 = plugins st0).
Proof.
  intros H1 H2 H3 H4 Hfirst Hread.
  assert (Hextract :
    extractPluginMetadata
      (Some (pre ++ str "/* @plugin "
             ++ stringify (metadata_of name version author description)
             ++ str " */" ++ post)) st
    = (Ok (Some (metadata_of name version author description)), st)).
  { unfold extractPluginMetadata.
    rewrite (search_unmatched _ _ Hfirst).
    assert (Hm : match_here
                   (str "/* @plugin "
                    ++ stringify (metadata_of name version author description)
                    ++ str " */" ++ post)
                 = Some (stringify
                           (metadata_of name version author description))).
    { rewrite stringify_metadata.
      apply match_here_block. by apply metadata_body_no_brace. }
    assert (Hs : forall s g, match_here s = Some g -> search s = Some g).
    { intros s0 g Hg. destruct s0; cbn [search]; by rewrite Hg. }
    rewrite (Hs _ _ Hm).
    by rewrite parse_stringify by apply metadata_distinct_names. }
  split; [exact Hextract|]. split.
  - unfold loadPluginMetadata, try_catch, bind at 1, lift at 1.
    rewrite Hread. unfold bind. rewrite Hextract.
    eexists. split; [reflexivity|]. done.
  - intros env0 path0 st0 Hno. split.
    + intros source Hsrc. rewrite Hsrc in Hno.
      unfold extractPluginMetadata, bind, log, ret.
      destruct Hno as [-> | (group & -> & ->)]; eauto.
    + unfold loadPluginMetadata, try_catch, bind at 1, lift at 1.
      destruct (readFile env0 (in_directory path0)) as [[source|]|e].
      * unfold bind, extractPluginMetadata, log, ret.
        destruct Hno as [-> | (group & -> & ->)];
          eexists; (split; [reflexivity|]); done.
      * eexists. split; [reflexivity|]. done.
      * eexists. split; [reflexivity|]. done.
Qed.

(** The block of the scenario, behind a line of code and before the
    plugin's [init]. *)
Lemma metadata_block_registered_sample :
  extractPluginMetadata
    (Some (str "'use strict'; " ++ str "/* @plugin "
           ++ stringify (metadata_of (str "X") (str "1.0.0") (str "A")
                           (str "D"))
           ++ str " */" ++ str " exports.init = function (api) { };"))
    empty_system
  = (Ok (Some (metadata_of (str "X") (str "1.0.0") (str "A") (str "D"))),
     empty_system).
Proof.
  refine (proj1 (metadata_block_registered
                   (page (str "'use strict'; " ++ str "/* @plugin "
                          ++ stringify (metadata_of (str "X") (str "1.0.0")
                                          (str "A") (str "D"))
                          ++ str " */"
                          ++ str " exports.init = function (api) { };")
                      network_monitor_run)
                   network_monitor (str "'use strict'; ")
                   (str " exports.init = function (api) { };")
                   (str "X") (str "1.0.0") (str "A") (str "D") empty_system
                   _ _ _ _ _ _));
    try (apply (bool_decide_unpack _); vm_compute; reflexivity);
    vm_compute; reflexivity.
Defined.

(** The head of the Network Monitor sample as [getNetworkMonitorPlugin]
    writes it, the block over several lines, and what is extracted. *)
Definition network_monitor_source : text :=
  [10] ++ str "/* @plugin {" ++ [10]
  ++ str "    " ++ quote (str "name") ++ str ": "
  ++ quote (str "Network Monitor") ++ str "," ++ [10]
  ++ str "    " ++ quote (str "version") ++ str ": "
  ++ quote (str "1.0.0") ++ str "," ++ [10]
  ++ str "    " ++ quote (str "author") ++ str ": "
  ++ quote (str "PlayNexus") ++ str "," ++ [10]
  ++ str "    " ++ quote (str "description") ++ str ": "
  ++ quote (str "Advanced network monitoring and analysis") ++ str ","
  ++ [10]
  ++ str "    " ++ quote (str "features") ++ str ": ["
  ++ quote (str "Real-time network stats") ++ str ", "
  ++ quote (str "Connection monitoring") ++ str ", "
  ++ quote (str "Bandwidth analysis") ++ str "]" ++ [10]
  ++ str "} */" ++ [10] ++ [10] ++ str "let networkChart;".

Example network_monitor_extracted :
  extractPluginMetadata (Some network_monitor_source) empty_system
  = (Ok (Some (JObj [(str "name", JStr (str "Network Monitor"));
                     (str "version", JStr (str "1.0.0"));
                     (str "author", JStr (str "PlayNexus"));
                     (str "description",
                      JStr (str "Advanced network monitoring and analysis"));
                     (str "features",
                      JArr [JStr (str "Real-time network stats");
                            JStr (str "Connection monitoring");
                            JStr (str "Bandwidth analysis")])])),
     empty_system).
Proof. vm_compute. reflexivity. Qed.

(** A source with a draft block in front of the block of the scenario. *)
Definition draft_then_block : text :=
  str "/* @plugin {todo} */ " ++ str "/* @plugin "
  ++ stringify (metadata_of (str "X") (str "1.0.0") (str "A") (str "D"))
  ++ str " */".

(** C4 (as stated) fails when an earlier comment matches the pattern
    first: the source holds the well-formed block of the scenario, yet
    extraction returns nothing and nothing is registered, because the draft
    block in front of it is what the pattern finds. *)
Lemma metadata_block_behind_a_draft_is_missed :
  search draft_then_block = Some (str "{todo}") /\
  (extractPluginMetadata (Some draft_then_block) empty_system).1 = Ok None /\
  plugins
    (exec (loadPluginMetadata (page draft_then_block throwing_run)
             network_monitor) empty_system) !! network_monitor = None.
Proof. repeat split; vm_compute; reflexivity. Qed.

(** *** More on the storage, the tabs and the management of plugins *)

(** *** Storage keys *)

Lemma getPluginStorage_result (key : text) (st : system) :
  (getPluginStorage key st).1 =
  Ok (match localStorage st !! (str "plugin_" ++ key) with
      | Some (c :: t) => default JNull (parse (c :: t))
      | _ => JNull
      end).
Proof.
  unfold getPluginStorage, try_catch, bind, gets, lift, log, ret.
  destruct (localStorage st !! _) as [[|c t]|]; try done.
  by destruct (parse (c :: t)).
Qed.

Lemma setPluginStorage_other (env : browser) (key other : text)
    (value : js_arg) (st : system) :
  other <> str "plugin_" ++ key ->
  localStorage (exec (setPluginStorage env key value) st) !! other
  = localStorage st !! other.
Proof.
  intros Hne.
  unfold exec, setPluginStorage, setItem, try_catch, bind, gets, lift,
    set_localStorage, log, ret.
  destruct (JSON_stringify value) as [document|e]; cbv beta iota zeta;
    [|done].
  destruct (has_room env _ _ _); cbn [snd localStorage]; [|done].
  by rewrite lookup_insert_ne.
Qed.

(** X11. Writing under one key of the plugin storage leaves what every
    other key reads as it was: [getPluginStorage(k2)] returns the same after
    [setPluginStorage(k1, value)] as before, whatever the value and whether
    or not the write succeeds. *)
Theorem storage_keys_independent (env : browser) (k1 k2 : text)
    (value : js_arg) (st : system) :
  k1 <> k2 ->
  (getPluginStorage k2 (exec (setPluginStorage env k1 value) st)).1
  = (getPluginStorage k2 st).1.
Proof.
  intros Hne. rewrite !getPluginStorage_result.
  rewrite setPluginStorage_other; [done|].
  intros H. by apply app_inv_head in H.
Qed.

(** *** Tabs *)



Lemma index_of_None (x : text) (l : list text) :
  index_of x l = None <-> x ∉ l.
Proof.
  induction l as [|y l IH]; simpl.
  - split; [intros _; apply not_elem_of_nil|done].
  - rewrite not_elem_of_cons. destruct (bool_decide_reflect (x = y)).
    + split; [done|tauto].
    + destruct (index_of x l); simpl; split; try done; try tauto.
      intros [_ H]. by apply IH in H.
Qed.




(** The identifiers among the panes that [getElementById] can find. *)
Definition element_ids (panes : list pane) : list text :=
  panes ≫= fun p =>
    pane_id p :: (if pane_body p then [pane_id p ++ str "-body"] else []).

Lemma getElementById_None (tabId : text) (panes : list pane) :
  getElementById tabId panes = None <-> tabId ∉ element_ids panes.
Proof.
  induction panes as [|p panes IH]; cbn [getElementById].
  - split; [intros _; apply not_elem_of_nil|done].
  - change (element_ids (p :: panes))
      with ((pane_id p
             :: (if pane_body p then [pane_id p ++ str "-body"] else []))
            ++ element_ids panes).
    rewrite not_elem_of_app, not_elem_of_cons, <- IH.
    destruct (bool_decide_reflect (pane_id p = tabId)) as [E|E];
      [split; [done|]; intros [[? _] _]; congruence|].
    destruct (pane_body p); cbn [andb].
    + destruct (bool_decide_reflect (pane_id p ++ str "-body" = tabId))
        as [E'|E'].
      * split; [done|]. intros [[_ H] _]. exfalso. apply H.
        apply list_elem_of_singleton. done.
      * destruct (getElementById tabId panes); cbn; split; try done.
        -- by intros [_ ?].
        -- intros _. split; [|done]. split; [congruence|].
           intros H. apply list_elem_of_singleton in H. congruence.
    + destruct (getElementById tabId panes); cbn; split; try done.
      * by intros [_ ?].
      * intros _. split; [|done]. split; [congruence|].
        apply not_elem_of_nil.
Qed.

Lemma getElementById_Some (tabId : text) (panes : list pane)
    (found : nat * bool) :
  getElementById tabId panes = Some found ->
  (found.1 < length panes)%nat /\
  (found.2 = true -> pane_id <$> panes !! found.1 = Some tabId).
Proof.
  revert found. induction panes as [|p panes IH]; intros found;
    cbn [getElementById]; [done|].
  destruct (bool_decide_reflect (pane_id p = tabId)) as [E|E].
  { intros [= <-]. cbn. split; [lia|]. intros _. by rewrite E. }
  destruct (pane_body p && _).
  { intros [= <-]. cbn. split; [lia|done]. }
  destruct (getElementById tabId panes) as [[i b]|]; [|done].
  cbn. intros [= <-]. destruct (IH _ eq_refl) as [H1 H2]. cbn in *.
  split; [lia|done].
Qed.



Lemma remove_element_ids (found : nat * bool) (panes : list pane) :
  found.2 = false ->
  pane_id <$> remove_element found panes = pane_id <$> panes.
Proof.
  intros Hb. unfold remove_element. rewrite Hb.
  destruct found as [i b]. cbn. clear Hb. revert i.
  induction panes as [|p panes IH]; intros [|i]; cbn; try done.
  by rewrite IH.
Qed.

(** Removing what is found under an identifier that no pane has leaves the
    panes, as far as their own identifiers go. *)
Lemma remove_found_ids (tabId : text) (panes : list pane) :
  tabId ∉ pane_id <$> panes ->
  pane_id <$> remove_found tabId panes = pane_id <$> panes.
Proof.
  intros Hno. unfold remove_found.
  destruct (getElementById tabId panes) as [[i b]|] eqn:E; [|done].
  destruct b; [|by apply remove_element_ids].
  apply getElementById_Some in E as [_ E]. cbn in E.
  exfalso. apply Hno. specialize (E eq_refl).
  rewrite <- list_lookup_fmap in E. by eapply list_elem_of_lookup_2.
Qed.

Lemma remove_found_absent (tabId : text) (panes : list pane) :
  tabId ∉ element_ids panes -> remove_found tabId panes = panes.
Proof.
  intros H. apply getElementById_None in H. unfold remove_found.
  by rewrite H.
Qed.


(** **** Scanning the plugin directory *)

Section Scanning.
Context (env : browser).
(** [electronAPI.readDirectory] and [electronAPI.createDirectory], promises
    of the names in a directory and of [true] or [false]. *)
Context (readDirectory : text -> result (list text))
        (createDirectory : text -> result bool).

(** [s.endsWith(suffix)]. *)
Definition endsWith (s suffix : text) : bool :=
  bool_decide (drop (length s - length suffix) s = suffix).

(** [createSamplePlugins()].  The class defines the method twice; the
    definition in force is the later one, whose first step is the call
    [this.createSamplePlugins()]: a call never gets past it, the stack runs
    out, and the promise rejects with the engine's [RangeError]. *)
Definition createSamplePlugins : R unit :=
  lift (Throw (Error (str "Maximum call stack size exceeded"))).

(** [createPluginDirectory()]. *)
Definition createPluginDirectory : R unit :=
  try_catch
    (lift (createDirectory pluginDirectory) ;;
     createSamplePlugins)
    (fun error =>
       log (LogError (str "Failed to create plugin directory:") (Some error))).

(** The loop of [scanPluginDirectory] over the names read. *)
Fixpoint scan_names (names : list text) : R unit :=
  match names with
  | [] => ret tt
  | plugin :: rest =>
      (if endsWith plugin (str ".js") then loadPluginMetadata env plugin
       else ret tt) ;;
      scan_names rest
  end.

(** [scanPluginDirectory()]. *)
Definition scanPluginDirectory : R unit :=
  try_catch
    (names <- lift (readDirectory pluginDirectory) ;;
     scan_names names)
    (fun _ =>
       log (LogInfo (str "Plugin directory not found, creating...")) ;;
       createPluginDirectory).

(** [refreshPlugins()]. *)
Definition refreshPlugins : R unit :=
  scanPluginDirectory ;;
  renderPluginsList env ;;
  showNotification (str "Plugins refreshed") (str "success").

(** What [loadPluginMetadata] registers for a file: the metadata of the
    first block in it, when that parses to a value that counts as true. *)
Definition registers (pluginPath : text) : option json :=
  match readFile env (in_directory pluginPath) with
  | Ok (Some source) =>
      match search source with
      | Some group =>
          match parse group with
          | Some m => if truthy m then Some m else None
          | None => None
          end
      | None => None
      end
  | _ => None
  end.

Lemma loadPluginMetadata_cases (pluginPath : text) (st : system) :
  exists st',
    loadPluginMetadata env pluginPath st = (Ok tt, st') /\
    plugins st' = match registers pluginPath with
                  | Some m => <[pluginPath := m]> (plugins st)
                  | None => plugins st
                  end /\
    pluginConfigs st' = pluginConfigs st /\
    activePlugins st' = activePlugins st /\
    navItems st' = navItems st /\ tabContents st' = tabContents st /\
    notifications st' = notifications st /\
    trace st' = trace st /\ localStorage st' = localStorage st.
Proof.
  unfold loadPluginMetadata, registers, try_catch, bind at 1, lift at 1.
  destruct (readFile env (in_directory pluginPath)) as [[source|]|e];
    [|eexists; (split; [reflexivity|]); done..].
  unfold bind, extractPluginMetadata, log, ret, set_plugins.
  destruct (search source) as [group|];
    [|eexists; (split; [reflexivity|]); done].
  destruct (parse group) as [m|];
    [|eexists; (split; [reflexivity|]); done].
  destruct (truthy m); eexists; (split; [reflexivity|]); done.
Qed.

Lemma scan_names_cases (names : list text) (st : system) :
  exists st',
    scan_names names st = (Ok tt, st') /\
    (forall p, plugins st' !! p =
       if bool_decide (p ∈ names) && endsWith p (str ".js")
       then match registers p with
            | Some m => Some m
            | None => plugins st !! p
            end
       else plugins st !! p) /\
    pluginConfigs st' = pluginConfigs st /\
    activePlugins st' = activePlugins st /\
    navItems st' = navItems st /\ tabContents st' = tabContents st /\
    notifications st' = notifications st /\
    trace st' = trace st /\ localStorage st' = localStorage st.
Proof.
  revert st. induction names as [|plugin rest IH]; intros st.
  - exists st. split; [done|]. split; [|done].
    intros p. by rewrite bool_decide_eq_false_2 by apply not_elem_of_nil.
  - cbn [scan_names]. unfold bind at 1.
    assert (Hstep : exists st1,
      (if endsWith plugin (str ".js") then loadPluginMetadata env plugin
       else ret tt) st = (Ok tt, st1) /\
      plugins st1 = (if endsWith plugin (str ".js")
                     then match registers plugin with
                          | Some m => <[plugin := m]> (plugins st)
                          | None => plugins st
                          end
                     else plugins st) /\
      pluginConfigs st1 = pluginConfigs st /\
      activePlugins st1 = activePlugins st /\
      navItems st1 = navItems st /\ tabContents st1 = tabContents st /\
      notifications st1 = notifications st /\
      trace st1 = trace st /\ localStorage st1 = localStorage st).
    { destruct (endsWith plugin (str ".js")).
      - apply loadPluginMetadata_cases.
      - by exists st. }
    destruct Hstep as (st1 & -> & P1 & C1 & A1 & N1 & T1 & O1 & R1 & L1).
    destruct (IH st1) as (st' & -> & P & C & A & N & T & O & R' & L).
    exists st'. split; [done|].
    rewrite C, A, N, T, O, R', L, C1, A1, N1, T1, O1, R1, L1.
    split; [|done].
    intros p. rewrite (P p), P1.
    destruct (decide (p = plugin)) as [->|Hne].
    + rewrite (bool_decide_eq_true_2 (plugin ∈ plugin :: rest))
        by (apply elem_of_cons; by left).
      destruct (endsWith plugin (str ".js")); simpl;
        [|by rewrite andb_false_r].
      rewrite andb_true_r.
      destruct (registers plugin) as [m|]; [|by destruct (bool_decide _)].
      rewrite lookup_insert_eq. by destruct (bool_decide _).
    + assert (Hin : bool_decide (p ∈ plugin :: rest) = bool_decide (p ∈ rest)).
      { apply bool_decide_ext. rewrite elem_of_cons. tauto. }
      rewrite Hin.
      assert (Hl : (if endsWith plugin (str ".js")
                    then match registers plugin with
                         | Some m => <[plugin := m]> (plugins st)
                         | None => plugins st
                         end
                    else plugins st) !! p = plugins st !! p).
      { destruct (endsWith plugin _); [|done].
        destruct (registers plugin); [|done]. by rewrite lookup_insert_ne. }
      by rewrite Hl.
Qed.

(** X13. When the directory lists [names], [scanPluginDirectory] does not
    throw and leaves the config entries and the active set alone; a path is
    registered anew exactly when it is listed, ends in [.js] and its file
    holds a metadata block that parses to a value that counts as true, and
    every other path, listed or not, keeps the registration it had. *)
Theorem scanPluginDirectory_registers (names : list text) (st : system) :
  readDirectory pluginDirectory = Ok names ->
  exists st',
    scanPluginDirectory st = (Ok tt, st') /\
    pluginConfigs st' = pluginConfigs st /\
    activePlugins st' = activePlugins st /\
    forall p,
      plugins st' !! p =
        if bool_decide (p ∈ names) && endsWith p (str ".js")
        then match registers p with
             | Some m => Some m
             | None => plugins st !! p
             end
        else plugins st !! p.
Proof.
  intros Hread. unfold scanPluginDirectory, try_catch, bind, lift.
  rewrite Hread.
  destruct (scan_names_cases names st) as (st' & -> & P & C & A & _).
  by exists st'.
Qed.

(** [scanPluginDirectory] whatever the directory does. *)
Lemma scanPluginDirectory_cases (st : system) :
  exists st',
    scanPluginDirectory st = (Ok tt, st') /\
    (forall p, is_Some (plugins st !! p) -> is_Some (plugins st' !! p)) /\
    (forall p, registers p = None -> plugins st' !! p = plugins st !! p) /\
    pluginConfigs st' = pluginConfigs st /\
    activePlugins st' = activePlugins st /\
    notifications st' = notifications st /\
    (forall e, readDirectory pluginDirectory = Throw e ->
       plugins st' = plugins st /\
       exists error,
         console st' = console st ++
           [LogInfo (str "Plugin directory not found, creating...");
            LogError (str "Failed to create plugin directory:")
              (Some error)]).
Proof.
  unfold scanPluginDirectory, try_catch.
  unfold bind at 1, lift at 1.
  destruct (readDirectory pluginDirectory) as [names|e].
  - destruct (scan_names_cases names st)
      as (st' & -> & P & C & A & N & T & O & _).
    exists st'. split; [done|]. repeat split; try done.
    + intros p Hp. rewrite (P p).
      destruct (_ && _); [|done]. by destruct (registers p).
    + intros p Hp. rewrite (P p), Hp. by destruct (_ && _).
  - unfold createPluginDirectory, createSamplePlugins, try_catch, bind, lift,
      log.
    destruct (createDirectory pluginDirectory);
      (eexists; split; [reflexivity|]);
      cbn [plugins pluginConfigs activePlugins notifications console];
      repeat split; try done;
      eexists; by rewrite <- (assoc_L (++)).
Qed.

(** X14. [refreshPlugins] never drops a registration: whatever the
    directory holds now, every plugin registered before is registered
    after, a plugin whose file no longer yields metadata keeps the metadata
    it had, and the config entries and the active set are untouched.  The
    list is drawn outside every [try]: when it can be drawn, the
    notification [Plugins refreshed] is shown; when the drawing throws,
    [refreshPlugins] throws and shows nothing. *)
Theorem refreshPlugins_forgets_nothing (st : system) :
  exists r st',
    refreshPlugins st = (Settled r, st') /\
    (forall p, is_Some (plugins st !! p) -> is_Some (plugins st' !! p)) /\
    (forall p, registers p = None -> plugins st' !! p = plugins st !! p) /\
    pluginConfigs st' = pluginConfigs st /\
    activePlugins st' = activePlugins st /\
    r = drawn env (plugins st') /\
    notifications st' =
      notifications st ++
      match r with
      | Ok _ => [(str "Plugins refreshed", str "success")]
      | Throw _ => []
      end.
Proof.
  unfold refreshPlugins. unfold bind at 1.
  destruct (scanPluginDirectory_cases st)
    as (st1 & -> & H1 & H2 & H3 & H4 & H5 & _).
  unfold bind at 1. rewrite renderPluginsList_run.
  destruct (drawn env (plugins st1)) as [[]|e] eqn:Hd.
  - unfold showNotification, show. eexists _, _. split; [reflexivity|].
    cbn [plugins pluginConfigs activePlugins notifications].
    rewrite H5. by repeat split.
  - eexists _, _. split; [reflexivity|]. rewrite app_nil_r.
    by repeat split.
Qed.

(** X15. When the directory cannot be listed, [refreshPlugins] registers
    nothing; the console gets the note that the directory is being created
    and then the failure of [createPluginDirectory] (at the latest the
    samples fail, [createSamplePlugins] being a call of itself); and, as
    long as the list can be drawn from the registry as it is, the
    notification still says [Plugins refreshed]. *)
Theorem refreshPlugins_unreadable_directory (e : exn) (st : system) :
  readDirectory pluginDirectory = Throw e ->
  drawn env (plugins st) = Ok tt ->
  exists st' error,
    refreshPlugins st = (Ok tt, st') /\
    plugins st' = plugins st /\
    console st' = console st ++
      [LogInfo (str "Plugin directory not found, creating...");
       LogError (str "Failed to create plugin directory:") (Some error)] /\
    notifications st' =
      notifications st ++ [(str "Plugins refreshed", str "success")].
Proof.
  intros Hread Hdrawn.
  unfold refreshPlugins. unfold bind at 1.
  destruct (scanPluginDirectory_cases st)
    as (st1 & -> & _ & _ & _ & _ & H5 & H6).
  destruct (H6 e Hread) as (Hp & error & Hc).
  unfold bind at 1. rewrite renderPluginsList_run, Hp, Hdrawn.
  unfold showNotification, show. eexists _, error. split; [reflexivity|].
  cbn [plugins console notifications]. by rewrite Hp, Hc, H5.
Qed.
End Scanning.

(** **** Loading at startup, toggling, reloading *)

Section Management.
Context (env : browser).

(** [reloadPlugin(pluginPath)]. *)
Definition reloadPlugin (pluginPath : text) : R unit :=
  unloadPlugin env pluginPath ;;
  metadata <- gets (fun st => plugins st !! pluginPath) ;;
  match metadata with
  | Some m => if truthy m then loadPlugin env pluginPath m else ret tt
  | None => ret tt
  end ;;
  showNotification (str "Plugin reloaded") (str "success").

(** [loadActivePlugins()]: the loop over the entries of [plugins]; [order]
    lists the keys in the order the [Map] holds them, which the registry
    here does not keep (a key without an entry stands for nothing, and an
    entry that plugin code adds while the loop runs is not visited). *)
Fixpoint loadActivePlugins (order : list text) : R unit :=
  match order with
  | [] => ret tt
  | pluginPath :: rest =>
      metadata <- gets (fun st => plugins st !! pluginPath) ;;
      config <- gets (fun st => pluginConfigs st !! pluginPath) ;;
      match metadata with
      | Some m => if is_enabled config then loadPlugin env pluginPath m
                  else ret tt
      | None => ret tt
      end ;;
      loadActivePlugins rest
  end.

(** The entry of [pluginPath] is loaded by [loadActivePlugins]: it is
    registered and its config entry has a true [enabled]. *)
Definition to_load (st : system) (pluginPath : text) : bool :=
  bool_decide (is_Some (plugins st !! pluginPath))
  && is_enabled (pluginConfigs st !! pluginPath).



(** X30. When the promise of the [init] of the first plugin to load never
    settles, [loadActivePlugins] never completes, and no plugin after that
    one is loaded. *)
Theorem loadActivePlugins_stops_at_a_pending_init (q : text)
    (rest : list text) (st : system) :
  to_load st q = true ->
  (plugin_run env q st).1 = InitPending ->
  exists st',
    loadActivePlugins (q :: rest) st = (Pending, st') /\
    trace st' = trace st ++ [EvLoad q] /\
    activePlugins st' = activePlugins (plugin_run env q st).2.
Proof.
  intros Hload Hpending. unfold to_load in Hload.
  apply andb_true_iff in Hload as [Hm He].
  apply bool_decide_eq_true in Hm as [m Hm].
  cbn [loadActivePlugins]. unfold bind at 1, gets at 1.
  unfold bind at 1, gets at 1. unfold bind at 1. rewrite Hm, He.
  destruct (loadPlugin_run env q m st)
    as (r & st' & -> & _ & _ & _ & _ & _ & _ & T & H).
  rewrite Hpending in H. destruct H as (-> & Ha & _).
  by exists st'.
Qed.

Lemma unloadPlugin_selector_throws (pluginPath : text) (e : exn)
    (st : system) :
  querySelector_data_tab env (str "plugin-" ++ pluginPath) (navItems st)
    = Throw e ->
  unloadPlugin env pluginPath st =
    (Ok tt,
     System (plugins st) (pluginConfigs st) (activePlugins st) (navItems st)
       (tabContents st) (notifications st)
       (console st ++ [LogError (str "Failed to unload plugin:") (Some e)])
       (localStorage st) (trace st ++ [EvUnload pluginPath])).
Proof.
  intros Hq. unfold unloadPlugin, removePluginTab.
  unfold bind at 1. unfold record at 1. cbv beta iota.
  unfold try_catch, bind, lift, set_tabs, ret, gets, set_activePlugins, log.
  cbn [navItems tabContents]. by rewrite Hq.
Qed.

(** X17. When the selector built from the path is rejected (the path
    holds a quote, say), the entry of the plugin takes the assignment, the
    list can be drawn and the name of the plugin can be shown, disabling
    the plugin leaves the active set as it was: [unloadPlugin] logs the
    error before it reaches the active set; yet the config entry says
    [enabled: false] and the notification says the plugin was disabled. *)
Theorem disabling_with_a_selector_error (pluginPath name : text) (e : exn)
    (config : entry) (st : system) :
  querySelector_data_tab env (str "plugin-" ++ pluginPath) (navItems st)
    = Throw e ->
  with_enabled false (pluginConfigs st !! pluginPath) = Ok config ->
  drawn env (plugins st) = Ok tt ->
  name_of env (plugins st !! pluginPath) = Ok name ->
  exists st',
    togglePlugin env pluginPath false st = (Ok tt, st') /\
    activePlugins st' = activePlugins st /\
    is_enabled (pluginConfigs st' !! pluginPath) = false /\
    (exists entries,
       console st' = console st ++
         LogError (str "Failed to unload plugin:") (Some e) :: entries) /\
    notifications st' =
      notifications st ++ [(str "Plugin disabled: " ++ name, str "success")].
Proof.
  intros Hq Hw Hd Hn. rewrite togglePlugin_cases, Hw.
  unfold load_or_unload.
  rewrite (unloadPlugin_selector_throws pluginPath e) by exact Hq.
  cbv zeta.
  set (st1 := System _ _ _ _ _ _ _ _ _).
  destruct (savePluginConfigs_cases env st1)
    as (st2 & Hs & S1 & S2 & S3 & _ & _ & S4 & _ & [lines S5] & _).
  unfold exec. rewrite Hs. cbn [snd].
  rewrite S1. subst st1.
  cbn [plugins entry_set recorded exec record set_pluginConfigs snd].
  rewrite Hd. cbn [mbind result_bind].
  rewrite Hn. unfold showNotification, show.
  eexists. split; [reflexivity|].
  cbn [activePlugins pluginConfigs console notifications].
  rewrite S2, S3, S4, S5.
  cbn [activePlugins pluginConfigs console notifications entry_set recorded
       exec record set_pluginConfigs snd].
  rewrite lookup_insert_eq.
  split; [done|].
  split; [by apply with_enabled_is_enabled in Hw as [? _]|].
  split; [|done]. exists lines. by rewrite <- (assoc_L (++)).
Qed.


(** When no plugin code runs (disabling) or the plugin keeps to the
    capability object, [togglePlugin] completes, and it tells the operator
    that toggling failed in exactly three cases: the entry of the plugin is
    a number, a string or [true], so that the assignment throws; the list
    cannot be drawn; the name of the plugin cannot be shown.  What goes
    wrong while the plugin is loaded, unloaded or saved never ends there. *)
Lemma togglePlugin_failure_branch (pluginPath : text) (enabled : bool)
    (st : system) :
  enabled = false \/ keeps_to_api env pluginPath ->
  exists st',
    togglePlugin env pluginPath enabled st = (Ok tt, st') /\
    (last (notifications st')
       = Some (str "Failed to toggle plugin", str "error") <->
     (exists e, with_enabled enabled (pluginConfigs st !! pluginPath)
                = Throw e) \/
     (exists e, drawn env (plugins st) = Throw e) \/
     (exists e, name_of env (plugins st !! pluginPath) = Throw e)).
Proof.
  intros Hno. rewrite togglePlugin_cases.
  destruct (with_enabled enabled (pluginConfigs st !! pluginPath))
    as [config|e] eqn:Hw.
  - destruct (load_or_unload_cases env pluginPath enabled
                (entry_set pluginPath config st))
      as (r1 & st1 & -> & _ & _ & Hk).
    destruct (Hk Hno) as (P & _ & ->). cbv zeta.
    destruct (savePluginConfigs_cases env st1) as (st2 & Hs & V1 & _).
    unfold exec. rewrite Hs. cbn [snd].
    rewrite V1, P. cbn [plugins entry_set recorded exec record
                        set_pluginConfigs snd].
    destruct (drawn env (plugins st)) as [[]|e1]; cbn [mbind result_bind].
    + destruct (name_of env (plugins st !! pluginPath)) as [name|e2].
      * eexists. split; [reflexivity|].
        unfold showNotification, show. cbn [notifications snd].
        rewrite last_snoc. split.
        -- intros [= _ H]; try (vm_compute in H; discriminate H).
        -- intros [[? ?]|[[? ?]|[? ?]]]; done.
      * eexists. split; [reflexivity|].
        unfold toggle_failed, showNotification, show, exec. cbn.
        rewrite last_snoc. split; [eauto|done].
    + eexists. split; [reflexivity|].
      unfold toggle_failed, showNotification, show, exec. cbn.
      rewrite last_snoc. split; [eauto|done].
  - eexists. split; [reflexivity|].
    unfold toggle_failed, showNotification, show, exec. cbn.
    rewrite last_snoc. split; [eauto|done].
Qed.

Lemma remove_first_absent (x : text) (l : list text) :
  x ∉ l -> remove_first x l = l.
Proof.
  intros H. apply index_of_None in H. unfold remove_first. by rewrite H.
Qed.


Lemma loadPlugin_opens_tab (pluginPath source id title icon : text)
    (metadata : json) (st : system) :
  readFile env (in_directory pluginPath) = Ok (Some source) ->
  behaviour env source =
    through_api
      (Program [] (Ok (Some (InitProgram [CreateTab id title icon] None))))
      (call env) ->
  exists st',
    loadPlugin env pluginPath metadata st = (Ok tt, st') /\
    navItems st' = navItems st ++ [str "plugin-" ++ id] /\
    tabContents st' = tabContents st ++ [Pane (str "plugin-" ++ id) true] /\
    activePlugins st' = {[pluginPath]} ∪ activePlugins st.
Proof.
  intros Hread Hrun.
  destruct (loadPlugin_run env pluginPath metadata st)
    as (r & st' & -> & _ & _ & _ & N & T & _ & _ & H).
  assert (Hp : plugin_run env pluginPath st =
               (InitFulfilled,
                System (plugins st) (pluginConfigs st) (activePlugins st)
                  (navItems st ++ [str "plugin-" ++ id])
                  (tabContents st ++ [Pane (str "plugin-" ++ id) true])
                  (notifications st) (console st) (localStorage st)
                  (trace st))).
  { unfold plugin_run. rewrite Hread, Hrun. reflexivity. }
  rewrite Hp in N, T, H. cbn [fst snd] in *.
  destruct H as (-> & A & _). by exists st'.
Qed.

(** X20. Reloading a plugin whose [init] opens a tab, on a page where no
    tab is named after the plugin's path: the unload step finds nothing to
    remove, the load step opens the tab once more, so the sidebar and the
    panes each hold one more entry than before and the plugin is active. *)
Theorem reloadPlugin_adds_a_tab (pluginPath source id title icon : text)
    (metadata : json) (st : system) :
  standard env -> plain (str "plugin-" ++ pluginPath) ->
  plugins st !! pluginPath = Some metadata -> truthy metadata = true ->
  readFile env (in_directory pluginPath) = Ok (Some source) ->
  behaviour env source =
    through_api
      (Program [] (Ok (Some (InitProgram [CreateTab id title icon] None))))
      (call env) ->
  str "plugin-" ++ pluginPath ∉ navItems st ->
  str "plugin-" ++ pluginPath ∉ pane_id <$> tabContents st ->
  exists st',
    reloadPlugin pluginPath st = (Ok tt, st') /\
    navItems st' = navItems st ++ [str "plugin-" ++ id] /\
    pane_id <$> tabContents st' =
      (pane_id <$> tabContents st) ++ [str "plugin-" ++ id] /\
    (str "plugin-" ++ pluginPath ∉ element_ids (tabContents st) ->
     tabContents st' = tabContents st ++ [Pane (str "plugin-" ++ id) true]) /\
    pluginPath ∈ activePlugins st'.
Proof.
  intros Hstd Hplain Hm Ht Hread Hrun Hnav Htab.
  unfold reloadPlugin. unfold bind at 1.
  destruct (unloadPlugin_cases env pluginPath st)
    as (st1 & -> & P1 & C1 & _ & _ & _ & Hq).
  rewrite (Hstd _ (navItems st) Hplain) in Hq.
  destruct Hq as (A1 & N1 & T1 & _).
  unfold bind at 1, gets at 1. unfold bind at 1. rewrite P1, Hm, Ht.
  destruct (loadPlugin_opens_tab pluginPath source id title icon metadata
              st1 Hread Hrun) as (st2 & -> & N2 & T2 & A2).
  unfold showNotification, show. eexists. split; [reflexivity|].
  cbn [navItems tabContents activePlugins].
  rewrite N2, T2, A2, N1, T1.
  assert (Hi : index_of (str "plugin-" ++ pluginPath) (navItems st) = None)
    by by apply index_of_None.
  rewrite Hi. cbn [from_option]. split; [done|]. split.
  { by rewrite fmap_app, remove_found_ids. }
  split.
  { intros Hno. by rewrite remove_found_absent. }
  apply elem_of_union. left. by apply elem_of_singleton.
Qed.
End Management.

(** *** The statements above, on pages *)

(** A page on which every selector is rejected. *)
Definition strict_page : browser :=
  Browser (fun _ => Ok (Some [])) (fun _ => Ok true)
          (fun _ _ _ api => through_api throwing_run api)
          (fun _ _ => Throw (SyntaxError "not a valid selector"))
          (fun _ _ _ => true) (fun _ => false) true print_number.

(** A page whose plugins export an [init] of which the promise never
    settles. *)
Definition hanging : plugin_code :=
  fun st => (Ok (Some (fun st' => (Pending, st'))), st).

Definition hung_page : browser :=
  Browser (fun _ => Ok (Some [])) (fun _ => Ok true)
          (fun _ _ _ _ => hanging)
          literal_selector (fun _ _ _ => true) (fun _ => false) true
          print_number.

(** The Network Monitor, registered and enabled in the config document. *)
Definition enabled_monitor : system :=
  System {[network_monitor := network_monitor_metadata]}
    {[network_monitor := Value (JObj [(str "enabled", JBool true)])]}
    ∅ [] [] [] [] ∅ [].

Lemma storage_keys_independent_sample :
  (getPluginStorage (str "theme")
     (exec (setPluginStorage (page [] throwing_run) (str "games")
              (Serializable (JArr []))) empty_system)).1
  = (getPluginStorage (str "theme") empty_system).1.
Proof.
  apply (storage_keys_independent (page [] throwing_run) (str "games")
           (str "theme") (Serializable (JArr [])) empty_system).
  intros H. vm_compute in H. discriminate H.
Defined.


(** The tab [x], then a tab named after the inner element of [x]: removing
    the second takes the inner element of the first, and the pane of the
    second stays. *)
Example removePluginTab_takes_the_inner_element :
  tabContents
    (exec (removePluginTab (page [] throwing_run) (str "x-body"))
       (exec (createPluginTab (str "x-body"))
          (exec (createPluginTab (str "x")) empty_system)))
  = [Pane (str "plugin-x") false; Pane (str "plugin-x-body") true].
Proof. vm_compute. reflexivity. Qed.

Lemma scanPluginDirectory_registers_sample :
  exists st',
    scanPluginDirectory (page network_monitor_source network_monitor_run)
      (fun _ => Ok [network_monitor; str "notes.txt"]) (fun _ => Ok true)
      empty_system = (Ok tt, st') /\
    plugins st' !! network_monitor =
      registers (page network_monitor_source network_monitor_run)
        network_monitor /\
    plugins st' !! str "notes.txt" = None.
Proof.
  destruct (scanPluginDirectory_registers
              (page network_monitor_source network_monitor_run)
              (fun _ => Ok [network_monitor; str "notes.txt"])
              (fun _ => Ok true) [network_monitor; str "notes.txt"]
              empty_system eq_refl) as (st' & Hrun & _ & _ & Hp).
  exists st'. split; [exact Hrun|]. split.
  - rewrite (Hp network_monitor). vm_compute. reflexivity.
  - rewrite (Hp (str "notes.txt")). vm_compute. reflexivity.
Defined.

Lemma refreshPlugins_unreadable_directory_sample :
  exists st' error,
    refreshPlugins (page [] throwing_run)
      (fun _ => Throw (Rejected (str "ENOENT"))) (fun _ => Ok true) scanned
      = (Ok tt, st') /\
    plugins st' = plugins scanned /\
    console st' =
      [LogInfo (str "Plugin directory not found, creating...");
       LogError (str "Failed to create plugin directory:") (Some error)] /\
    notifications st' = [(str "Plugins refreshed", str "success")].
Proof.
  refine (refreshPlugins_unreadable_directory (page [] throwing_run)
            (fun _ => Throw (Rejected (str "ENOENT"))) (fun _ => Ok true)
            (Rejected (str "ENOENT")) scanned eq_refl _).
  vm_compute. reflexivity.
Defined.

(** A registry whose one name is an object with a member [toString]: the
    list cannot be drawn, and [refreshPlugins] throws without a
    notification. *)
Example refreshPlugins_throws_in_the_list :
  refreshPlugins (page [] throwing_run)
    (fun _ => Ok []) (fun _ => Ok true)
    (System {[network_monitor :=
                JObj [(str "name", JObj [(str "toString", JNum 1 0)])]]}
       ∅ ∅ [] [] [] [] ∅ [])
  = (Throw (TypeError "Cannot convert object to primitive value"),
     System {[network_monitor :=
                JObj [(str "name", JObj [(str "toString", JNum 1 0)])]]}
       ∅ ∅ [] [] [] [] ∅ []).
Proof. vm_compute. reflexivity. Qed.


Lemma loadActivePlugins_stops_at_a_pending_init_sample :
  exists st',
    loadActivePlugins hung_page [network_monitor; str "other.js"] enabled_monitor
      = (Pending, st') /\
    trace st' = [EvLoad network_monitor] /\
    activePlugins st' = ∅.
Proof.
  refine (loadActivePlugins_stops_at_a_pending_init hung_page network_monitor
            [str "other.js"] enabled_monitor _ _); vm_compute; reflexivity.
Defined.

Lemma disabling_with_a_selector_error_sample :
  exists st',
    togglePlugin strict_page network_monitor false running = (Ok tt, st') /\
    activePlugins st' = activePlugins running /\
    is_enabled (pluginConfigs st' !! network_monitor) = false /\
    (exists entries,
       console st' = console running ++
         LogError (str "Failed to unload plugin:")
           (Some (SyntaxError "not a valid selector")) :: entries) /\
    notifications st' =
      notifications running ++
      [(str "Plugin disabled: " ++ str "Network Monitor", str "success")].
Proof.
  refine (disabling_with_a_selector_error strict_page network_monitor
            (str "Network Monitor") (SyntaxError "not a valid selector")
            (Value (JObj [(str "enabled", JBool false)])) running
            eq_refl _ _ _); vm_compute; reflexivity.
Defined.


Lemma togglePlugin_failure_branch_sample :
  exists st',
    togglePlugin strict_page network_monitor false running = (Ok tt, st') /\
    (last (notifications st')
       = Some (str "Failed to toggle plugin", str "error") <->
     (exists e, with_enabled false (pluginConfigs running !! network_monitor)
                = Throw e) \/
     (exists e, drawn strict_page (plugins running) = Throw e) \/
     (exists e, name_of strict_page (plugins running !! network_monitor)
                = Throw e)).
Proof.
  exact (togglePlugin_failure_branch strict_page network_monitor false
           running (or_introl eq_refl)).
Defined.


Lemma reloadPlugin_adds_a_tab_sample :
  exists st',
    reloadPlugin (page [] network_monitor_run) network_monitor running
      = (Ok tt, st') /\
    navItems st' =
      [str "plugin-network-monitor"; str "plugin-network-monitor"] /\
    tabContents st' =
      [Pane (str "plugin-network-monitor") true;
       Pane (str "plugin-network-monitor") true] /\
    network_monitor ∈ activePlugins st'.
Proof.
  destruct (reloadPlugin_adds_a_tab (page [] network_monitor_run)
              network_monitor [] (str "network-monitor")
              (str "Network Monitor") (str "fas fa-network-wired")
              network_monitor_metadata running)
    as (st' & Hrun & Hn & _ & Ht & Ha).
  - apply literal_selector_standard.
  - apply (bool_decide_unpack _). vm_compute. reflexivity.
  - vm_compute. reflexivity.
  - reflexivity.
  - reflexivity.
  - reflexivity.
  - apply (bool_decide_unpack _). vm_compute. reflexivity.
  - apply (bool_decide_unpack _). vm_compute. reflexivity.
  - exists st'. split; [exact Hrun|]. split; [exact Hn|]. split; [|exact Ha].
    apply Ht. apply (bool_decide_unpack _). vm_compute. reflexivity.
Defined.
End Plugins.

(** ** Colours

    [hexToRgb] and [rgbToHex] of the class [UIUtils], on integral
    numbers. *)

Module Utils.
Import Json.
#[local] Open Scope Z_scope.

(** [ToInt32] of an integral number. *)
Definition ToInt32 (n : Z) : Z :=
  let m := n mod 2 ^ 32 in
  if m <? 2 ^ 31 then m else m - 2 ^ 32.

(** [x << count] on integral numbers. *)
Definition shift_left (x count : Z) : Z :=
  ToInt32 (ToInt32 x * 2 ^ (count mod 32)).

(** The hexadecimal digits of a natural number, most significant first
    ([fuel] bounds their number). *)
Fixpoint hex_fuel (fuel : nat) (n : N) (acc : text) : text :=
  match fuel with
  | O => acc
  | S fuel' =>
      let acc' := hex_digit (n mod 16) :: acc in
      if (n <? 16)%N then acc' else hex_fuel fuel' (n / 16)%N acc'
  end.

Definition hex (n : N) : text :=
  hex_fuel (S (N.to_nat (N.log2 n))) n [].

(** [n.toString(16)] for an integral number [n]. *)
Definition toString16 (n : Z) : text :=
  (if n <? 0 then [45%N] else []) ++ hex (Z.abs_N n).

(** [rgbToHex(r, g, b)] on integral numbers (the sum is exact as long as
    it stays below [2^53] in magnitude). *)
Definition rgbToHex (r g b : Z) : text :=
  35%N :: drop 1 (toString16 (shift_left 1 24 + shift_left r 16
                              + shift_left g 8 + b)).

(** What [hexToRgb] returns when the pattern matches. *)
Record rgb := Rgb { r : Z; g : Z; b : Z }.

(** The class [[a-f\d]] under the flag [i]. *)
Definition is_hex (c : N) : bool :=
  is_digit c || ((97 <=? c)%N && (c <=? 102)%N)
  || ((65 <=? c)%N && (c <=? 70)%N).

(** [parseInt(s, 16)] of two hexadecimal digits. *)
Definition parseInt16 (d1 d2 : N) : Z :=
  Z.of_N (16 * default 0%N (hex_val d1) + default 0%N (hex_val d2)).

(** [hexToRgb(hex)]: the pattern
    [/^#?([a-f\d]{2})([a-f\d]{2})([a-f\d]{2})$/i] takes an optional [#] and
    then exactly six hexadecimal digits; [null] is [None]. *)
Definition hexToRgb (hex : text) : option rgb :=
  let body := match hex with 35%N :: rest => rest | _ => hex end in
  match body with
  | [r1; r2; g1; g2; b1; b2] =>
      if forallb is_hex body
      then Some (Rgb (parseInt16 r1 r2) (parseInt16 g1 g2) (parseInt16 b1 b2))
      else None
  | _ => None
  end.

Lemma hex_fuel_acc (fuel : nat) (n : N) (acc : text) :
  hex_fuel fuel n acc = hex_fuel fuel n [] ++ acc.
Proof.
  revert n acc; induction fuel as [|fuel IH]; intros n acc; simpl; [done|].
  destruct (n <? 16)%N; [done|].
  rewrite IH, (IH _ [_]), <- (assoc_L (++)). done.
Qed.

Lemma hex_fuel_more (fuel : nat) (n : N) (acc : text) :
  (n < 16 ^ N.of_nat (S fuel))%N ->
  hex_fuel (S (S fuel)) n acc = hex_fuel (S fuel) n acc.
Proof.
  revert n acc; induction fuel as [|fuel IH]; intros n acc Hn.
  - change (16 ^ N.of_nat 1)%N with 16%N in Hn. simpl.
    by destruct (N.ltb_spec n 16); [|lia].
  - change (hex_fuel (S (S (S fuel))) n acc) with
      (if (n <? 16)%N then hex_digit (n mod 16) :: acc
       else hex_fuel (S (S fuel)) (n / 16)%N (hex_digit (n mod 16) :: acc)).
    change (hex_fuel (S (S fuel)) n acc) with
      (if (n <? 16)%N then hex_digit (n mod 16) :: acc
       else hex_fuel (S fuel) (n / 16)%N (hex_digit (n mod 16) :: acc)).
    destruct (n <? 16)%N; [done|]. apply IH.
    rewrite Nat2N.inj_succ, N.pow_succ_r' in Hn.
    apply N.Div0.div_lt_upper_bound. lia.
Qed.

Lemma hex_fuel_enough (fuel extra : nat) (n : N) (acc : text) :
  (n < 16 ^ N.of_nat (S fuel))%N ->
  hex_fuel (extra + S fuel) n acc = hex_fuel (S fuel) n acc.
Proof.
  intros Hn. induction extra as [|extra IH]; [done|].
  cbn [Nat.add]. rewrite <- IH.
  replace (extra + S fuel)%nat with (S (extra + fuel)) by lia.
  apply hex_fuel_more.
  eapply N.lt_le_trans; [exact Hn|].
  apply N.pow_le_mono_r; lia.
Qed.

Lemma hex_bound (n : N) : (n < 16 ^ N.of_nat (S (N.to_nat (N.log2 n))))%N.
Proof.
  rewrite Nat2N.inj_succ, N2Nat.id.
  destruct (N.eq_dec n 0%N) as [->|Hn]; [done|].
  eapply N.lt_le_trans; [apply N.log2_spec; lia|].
  apply N.pow_le_mono_l. lia.
Qed.

(** One more digit at the end. *)
Lemma hex_snoc (n d : N) :
  (0 < n)%N -> (d < 16)%N ->
  hex (16 * n + d) = hex n ++ [hex_digit d].
Proof.
  intros Hn Hd. unfold hex.
  set (k := N.to_nat (N.log2 (16 * n + d))).
  change (hex_fuel (S k) (16 * n + d) []) with
    (if (16 * n + d <? 16)%N then [hex_digit ((16 * n + d) mod 16)]
     else hex_fuel k ((16 * n + d) / 16)%N [hex_digit ((16 * n + d) mod 16)]).
  destruct (N.ltb_spec (16 * n + d) 16); [lia|].
  replace ((16 * n + d) / 16)%N with n
    by (apply (N.div_unique _ 16 n d); lia).
  replace ((16 * n + d) mod 16)%N with d
    by (apply (N.mod_unique _ 16 n d); lia).
  rewrite hex_fuel_acc. f_equal.
  assert (Hk : (S (N.to_nat (N.log2 n)) <= k)%nat).
  { subst k.
    assert (N.log2 n + 4 <= N.log2 (16 * n + d))%N; [|lia].
    transitivity (N.log2 (16 * n)); [|apply N.log2_le_mono; lia].
    change 16%N with (2 ^ 4)%N. rewrite N.mul_comm, N.log2_mul_pow2; lia. }
  replace k with ((k - S (N.to_nat (N.log2 n))) + S (N.to_nat (N.log2 n)))%nat
    by lia.
  apply hex_fuel_enough, hex_bound.
Qed.

Lemma is_hex_digit (k : N) : (k < 16)%N -> is_hex (hex_digit k) = true.
Proof.
  intros Hk.
  assert (Hj : exists j, (j < 16)%nat /\ k = N.of_nat j)
    by (exists (N.to_nat k); lia).
  destruct Hj as (j & Hj & ->).
  do 16 (destruct j as [|j]; [reflexivity|]). lia.
Qed.

Lemma shift_left_small (x count : Z) :
  0 <= count < 32 -> 0 <= x -> x * 2 ^ count < 2 ^ 31 ->
  shift_left x count = x * 2 ^ count.
Proof.
  intros Hc Hx Hs. unfold shift_left, ToInt32.
  rewrite (Z.mod_small count) by lia.
  assert (1 <= 2 ^ count) by (apply Z.pow_le_mono_r with (b := 0); lia).
  assert (x <= x * 2 ^ count) by nia.
  rewrite (Z.mod_small x) by lia.
  destruct (Z.ltb_spec x (2 ^ 31)); [|lia].
  rewrite (Z.mod_small (x * 2 ^ count)) by lia.
  destruct (Z.ltb_spec (x * 2 ^ count) (2 ^ 31)); lia.
Qed.

(** Seven hexadecimal digits. *)
Lemma hex_seven (d r g b : Z) :
  1 <= d <= 15 -> 0 <= r <= 255 -> 0 <= g <= 255 -> 0 <= b <= 255 ->
  toString16 (d * 2 ^ 24 + r * 2 ^ 16 + g * 2 ^ 8 + b) =
    hex_digit <$> [Z.to_N d; Z.to_N (r / 16); Z.to_N (r mod 16);
                   Z.to_N (g / 16); Z.to_N (g mod 16);
                   Z.to_N (b / 16); Z.to_N (b mod 16)].
Proof.
  intros Hd Hr Hg Hb. unfold toString16.
  destruct (Z.ltb_spec (d * 2 ^ 24 + r * 2 ^ 16 + g * 2 ^ 8 + b) 0); [lia|].
  cbn [app].
  pose proof (Z.div_mod r 16 ltac:(lia)) as Er.
  pose proof (Z.div_mod g 16 ltac:(lia)) as Eg.
  pose proof (Z.div_mod b 16 ltac:(lia)) as Eb.
  pose proof (Z.mod_pos_bound r 16 ltac:(lia)) as Mr.
  pose proof (Z.mod_pos_bound g 16 ltac:(lia)) as Mg.
  pose proof (Z.mod_pos_bound b 16 ltac:(lia)) as Mb.
  assert (0 <= r / 16 < 16) as Dr
    by (split; [apply Z.div_pos; lia|apply Z.div_lt_upper_bound; lia]).
  assert (0 <= g / 16 < 16) as Dg
    by (split; [apply Z.div_pos; lia|apply Z.div_lt_upper_bound; lia]).
  assert (0 <= b / 16 < 16) as Db
    by (split; [apply Z.div_pos; lia|apply Z.div_lt_upper_bound; lia]).
  revert Er Eg Eb Mr Mg Mb Dr Dg Db.
  generalize (r / 16), (r mod 16), (g / 16), (g mod 16), (b / 16), (b mod 16).
  intros r1 r0 g1 g0 b1 b0 -> -> -> Mr Mg Mb Dr Dg Db.
  replace (Z.abs_N (d * 2 ^ 24 + (16 * r1 + r0) * 2 ^ 16
                    + (16 * g1 + g0) * 2 ^ 8 + (16 * b1 + b0)))
    with (16 * (16 * (16 * (16 * (16 * (16 * Z.to_N d + Z.to_N r1)
                                        + Z.to_N r0)
                              + Z.to_N g1) + Z.to_N g0) + Z.to_N b1)
          + Z.to_N b0)%N by lia.
  rewrite !hex_snoc by lia.
  assert (Hj : exists j, (0 < j < 16)%nat /\ Z.to_N d = N.of_nat j)
    by (exists (Z.to_nat d); lia).
  destruct Hj as (j & Hj & ->).
  do 16 (destruct j as [|j]; [first [lia|reflexivity]|]). lia.
Qed.

(** The text of a colour whose channels are in range. *)
Lemma rgbToHex_in_range (r g b : Z) :
  0 <= r <= 255 -> 0 <= g <= 255 -> 0 <= b <= 255 ->
  rgbToHex r g b =
    35%N :: (hex_digit <$> [Z.to_N (r / 16); Z.to_N (r mod 16);
                            Z.to_N (g / 16); Z.to_N (g mod 16);
                            Z.to_N (b / 16); Z.to_N (b mod 16)]).
Proof.
  intros Hr Hg Hb. unfold rgbToHex.
  rewrite !shift_left_small by lia.
  by rewrite (hex_seven 1) by lia.
Qed.

(** X21. A colour whose three channels are integers from 0 to 255 comes
    back unchanged from its text: [hexToRgb(rgbToHex(r, g, b))] is
    [{r, g, b}]. *)
Theorem hexToRgb_rgbToHex (r g b : Z) :
  0 <= r <= 255 -> 0 <= g <= 255 -> 0 <= b <= 255 ->
  hexToRgb (rgbToHex r g b) = Some (Rgb r g b).
Proof.
  intros Hr Hg Hb. rewrite rgbToHex_in_range by done.
  pose proof (Z.div_mod r 16 ltac:(lia)) as Er.
  pose proof (Z.div_mod g 16 ltac:(lia)) as Eg.
  pose proof (Z.div_mod b 16 ltac:(lia)) as Eb.
  pose proof (Z.mod_pos_bound r 16 ltac:(lia)) as Mr.
  pose proof (Z.mod_pos_bound g 16 ltac:(lia)) as Mg.
  pose proof (Z.mod_pos_bound b 16 ltac:(lia)) as Mb.
  assert (0 <= r / 16 < 16) as Dr
    by (split; [apply Z.div_pos; lia|apply Z.div_lt_upper_bound; lia]).
  assert (0 <= g / 16 < 16) as Dg
    by (split; [apply Z.div_pos; lia|apply Z.div_lt_upper_bound; lia]).
  assert (0 <= b / 16 < 16) as Db
    by (split; [apply Z.div_pos; lia|apply Z.div_lt_upper_bound; lia]).
  revert Er Eg Eb Mr Mg Mb Dr Dg Db.
  generalize (r / 16), (r mod 16), (g / 16), (g mod 16), (b / 16), (b mod 16).
  intros r1 r0 g1 g0 b1 b0 -> -> -> Mr Mg Mb Dr Dg Db.
  unfold hexToRgb. cbn [fmap list_fmap forallb].
  assert (Hk : forall k, 0 <= k < 16 -> (Z.to_N k < 16)%N) by (intros; lia).
  rewrite !is_hex_digit by auto. cbn [andb].
  unfold parseInt16. rewrite !hex_val_digit by auto. cbn [from_option]. unfold id.
  f_equal. f_equal; lia.
Qed.

(** X22. [rgbToHex] does not clamp a channel that is out of range: 256 too
    much of red is dropped without a trace, 256 too much of green is one
    more of red, and 256 too much of blue is one more of green. *)
Theorem rgbToHex_does_not_clamp (r g b : Z) :
  0 <= r <= 255 -> 0 <= g <= 255 -> 0 <= b <= 255 ->
  rgbToHex (r + 256) g b = rgbToHex r g b /\
  rgbToHex r (g + 256) b = rgbToHex (r + 1) g b /\
  rgbToHex r g (b + 256) = rgbToHex r (g + 1) b.
Proof.
  intros Hr Hg Hb. split; [|split].
  - rewrite (rgbToHex_in_range r g b) by done. unfold rgbToHex.
    rewrite !shift_left_small by lia.
    replace (1 * 2 ^ 24 + (r + 256) * 2 ^ 16 + g * 2 ^ 8 + b)
      with (2 * 2 ^ 24 + r * 2 ^ 16 + g * 2 ^ 8 + b) by lia.
    by rewrite (hex_seven 2) by lia.
  - unfold rgbToHex. rewrite !shift_left_small by lia.
    do 3 f_equal. lia.
  - unfold rgbToHex. rewrite !shift_left_small by lia.
    do 3 f_equal. lia.
Qed.

Lemma hex_val_is_hex (c : N) :
  is_hex c = true -> exists k, hex_val c = Some k /\ (k < 16)%N.
Proof.
  unfold is_hex, hex_val. intros H.
  destruct (is_digit c) eqn:E1.
  { apply is_digit_spec in E1. eexists. split; [reflexivity|lia]. }
  destruct ((97 <=? c)%N && (c <=? 102)%N) eqn:E2.
  { apply andb_true_iff in E2 as [?%N.leb_le ?%N.leb_le].
    eexists. split; [reflexivity|lia]. }
  destruct ((65 <=? c)%N && (c <=? 70)%N) eqn:E3; [|done].
  apply andb_true_iff in E3 as [?%N.leb_le ?%N.leb_le].
  eexists. split; [reflexivity|lia].
Qed.

Lemma parseInt16_range (d1 d2 : N) :
  is_hex d1 = true -> is_hex d2 = true -> 0 <= parseInt16 d1 d2 <= 255.
Proof.
  intros H1 H2. unfold parseInt16.
  destruct (hex_val_is_hex _ H1) as (k1 & -> & ?).
  destruct (hex_val_is_hex _ H2) as (k2 & -> & ?).
  cbn [from_option]. unfold id. lia.
Qed.

(** X23. [hexToRgb] answers only for six hexadecimal digits, with or
    without a [#] before them (the three-digit shorthand gives [null]), and
    each channel it returns is from 0 to 255. *)
Theorem hexToRgb_six_digits (hex : text) (colour : rgb) :
  hexToRgb hex = Some colour ->
  (length hex = 6%nat \/ (length hex = 7%nat /\ head hex = Some 35%N)) /\
  0 <= r colour <= 255 /\ 0 <= g colour <= 255 /\ 0 <= b colour <= 255.
Proof.
  unfold hexToRgb.
  set (body := match hex with 35%N :: rest => rest | _ => hex end).
  assert (Hbody : length body = 6%nat ->
            length hex = 6%nat \/ (length hex = 7%nat /\ head hex = Some 35%N)).
  { subst body. destruct hex as [|c rest]; [by left|].
    destruct (N.eq_dec c 35%N) as [->|Hc].
    - intros H. right. simpl. by rewrite H.
    - intros H. left. revert H.
      assert (match c with 35%N => rest | _ => c :: rest end = c :: rest)
        as ->; [|done].
      destruct c as [|p]; [done|].
      do 6 (destruct p as [p|p|]; try done). }
  destruct body as [|r1 [|r2 [|g1 [|g2 [|b1 [|b2 [|]]]]]]]; try done.
  destruct (forallb is_hex _) eqn:Hall; [|done].
  intros [= <-]. split; [by apply Hbody|].
  cbn in Hall. repeat (apply andb_true_iff in Hall as [? Hall]).
  cbn [r g b]. auto using parseInt16_range.
Qed.

(** Orange, to its text and back. *)
Lemma hexToRgb_rgbToHex_sample :
  rgbToHex 255 128 0 = str "#ff8000" /\
  hexToRgb (rgbToHex 255 128 0) = Some (Rgb 255 128 0).
Proof.
  split; [vm_compute; reflexivity|].
  apply (hexToRgb_rgbToHex 255 128 0); lia.
Defined.

(** Channels of 266, 276 and 286. *)
Lemma rgbToHex_does_not_clamp_sample :
  rgbToHex (10 + 256) 20 30 = rgbToHex 10 20 30 /\
  rgbToHex 10 (20 + 256) 30 = rgbToHex (10 + 1) 20 30 /\
  rgbToHex 10 20 (30 + 256) = rgbToHex 10 (20 + 1) 30.
Proof.
  apply (rgbToHex_does_not_clamp 10 20 30); lia.
Defined.

(** Capital digits after a [#]. *)
Lemma hexToRgb_six_digits_sample :
  hexToRgb (str "#FF8000") = Some (Rgb 255 128 0) /\
  (length (str "#FF8000") = 6%nat \/
   (length (str "#FF8000") = 7%nat /\ head (str "#FF8000") = Some 35%N)) /\
  0 <= 255 <= 255 /\ 0 <= 128 <= 255 /\ 0 <= 0 <= 255.
Proof.
  split; [vm_compute; reflexivity|].
  apply (hexToRgb_six_digits (str "#FF8000") (Rgb 255 128 0)).
  vm_compute; reflexivity.
Defined.

(** The shorthand and a digit out of range. *)
Example hexToRgb_rejects :
  hexToRgb (str "#f80") = None /\ hexToRgb (str "#ff80g0") = None.
Proof. split; vm_compute; reflexivity. Qed.
End Utils.

(** ** Validation

    [validateEmail] of the class [UIUtils]. *)

Module Validation.
#[local] Open Scope N_scope.

(** The class [[^\s@]]. *)
Definition part (c : N) : bool := negb (Plugins.is_space c) && negb (c =? 64).

(** [[^\s@]+] at the start of [s], then [next] on what follows: some way
    of ending the run lets [next] match. *)
Fixpoint plus_then (next : text -> bool) (s : text) : bool :=
  match s with
  | c :: rest => part c && (next rest || plus_then next rest)
  | [] => false
  end.

(** A literal code unit, then [next]. *)
Definition unit_then (c : N) (next : text -> bool) (s : text) : bool :=
  match s with
  | d :: rest => (d =? c) && next rest
  | [] => false
  end.

(** [$]. *)
Definition at_end (s : text) : bool :=
  match s with [] => true | _ => false end.

(** [validateEmail(email)]: [/^[^\s@]+@[^\s@]+\.[^\s@]+$/.test(email)]. *)
Definition validateEmail (email : text) : bool :=
  plus_then (unit_then 64 (plus_then (unit_then 46 (plus_then at_end)))) email.

Lemma plus_then_spec (next : text -> bool) (s : text) :
  plus_then next s = true <->
  exists run rest, s = run ++ rest /\ run <> [] /\
                   forallb part run = true /\ next rest = true.
Proof.
  induction s as [|c s IH]; simpl.
  - split; [done|]. intros (run & rest & H & Hne & _).
    by destruct run.
  - rewrite andb_true_iff, orb_true_iff, IH. split.
    + intros [Hc [Hn|(run & rest & -> & Hne & Hrun & Hn)]].
      * exists [c], s. simpl. by rewrite Hc.
      * exists (c :: run), rest. simpl. by rewrite Hc.
    + intros (run & rest & H & Hne & Hrun & Hn).
      destruct run as [|c' run]; [done|]. simpl in *.
      injection H as <- ->. apply andb_true_iff in Hrun as [Hc Hrun].
      split; [done|]. destruct run as [|c'' run]; [by left|].
      right. by exists (c'' :: run), rest.
Qed.

Lemma unit_then_spec (c : N) (next : text -> bool) (s : text) :
  unit_then c next s = true <-> exists rest, s = c :: rest /\ next rest = true.
Proof.
  destruct s as [|d s]; simpl.
  - split; [done|]. by intros (? & ? & _).
  - rewrite andb_true_iff, N.eqb_eq. split.
    + intros [-> H]. eauto.
    + intros (rest & [= -> ->] & H). done.
Qed.

(** X24. [validateEmail] accepts exactly the texts made of a name, an
    [@], a host, a dot and an ending, the three of them non-empty and free
    of white space and of [@]; so an accepted text has exactly one [@] and
    no white space at all. *)
Theorem validateEmail_shape (email : text) :
  (validateEmail email = true <->
   exists name host tld,
     email = name ++ [64] ++ host ++ [46] ++ tld /\
     name <> [] /\ host <> [] /\ tld <> [] /\
     forallb part (name ++ host ++ tld) = true) /\
  (validateEmail email = true ->
   length (filter (fun c => c = 64) email) = 1%nat /\
   forallb (fun c => negb (Plugins.is_space c)) email = true).
Proof.
  assert (Hshape : validateEmail email = true <->
   exists name host tld,
     email = name ++ [64] ++ host ++ [46] ++ tld /\
     name <> [] /\ host <> [] /\ tld <> [] /\
     forallb part (name ++ host ++ tld) = true).
  { unfold validateEmail. rewrite plus_then_spec. split.
    - intros (name & r1 & -> & Hn & Hname & H).
      apply unit_then_spec in H as (r2 & -> & H).
      apply plus_then_spec in H as (host & r3 & -> & Hh & Hhost & H).
      apply unit_then_spec in H as (r4 & -> & H).
      apply plus_then_spec in H as (tld & r5 & -> & Ht & Htld & H).
      destruct r5; [|done]. rewrite app_nil_r.
      exists name, host, tld. repeat split; try done.
      rewrite !forallb_app, Hname, Hhost, Htld. done.
    - intros (name & host & tld & -> & Hn & Hh & Ht & Hall).
      rewrite !forallb_app, !andb_true_iff in Hall.
      destruct Hall as (Hname & Hhost & Htld).
      exists name, ([64] ++ host ++ [46] ++ tld). repeat split; try done.
      apply unit_then_spec. eexists. split; [reflexivity|].
      apply plus_then_spec. exists host, ([46] ++ tld).
      repeat split; try done.
      apply unit_then_spec. eexists. split; [reflexivity|].
      apply plus_then_spec. exists tld, []. by rewrite app_nil_r. }
  split; [exact Hshape|].
  intros H. apply Hshape in H
    as (name & host & tld & -> & _ & _ & _ & Hall).
  assert (Hno : forall l, forallb part l = true ->
                  filter (fun c => c = 64) l = [] /\
                  forallb (fun c => negb (Plugins.is_space c)) l = true).
  { induction l as [|c l IH]; simpl; [done|].
    rewrite andb_true_iff. unfold part at 1. rewrite andb_true_iff.
    intros [[Hs Hc] Hl]. destruct (IH Hl) as [Hf Hw].
    rewrite filter_cons, Hf, Hs, Hw.
    apply negb_true_iff, N.eqb_neq in Hc. by rewrite decide_False. }
  rewrite !forallb_app, !andb_true_iff in Hall.
  destruct Hall as (Hname & Hhost & Htld).
  destruct (Hno _ Hname) as [F1 W1], (Hno _ Hhost) as [F2 W2],
    (Hno _ Htld) as [F3 W3].
  rewrite !filter_app, !forallb_app, F1, F2, F3, W1, W2, W3.
  split; vm_compute; reflexivity.
Qed.

Example validateEmail_samples :
  validateEmail (str "ada@example.org") = true /\
  validateEmail (str "ada@example") = false /\
  validateEmail (str "ada@@example.org") = false /\
  validateEmail (str "ada @example.org") = false /\
  validateEmail (str "a@b..c") = true.
Proof. repeat split; vm_compute; reflexivity. Qed.
End Validation.

(** ** The log of file events

    [handleFileEvent] of the class [PlayNexusApp]. *)

Module FileLog.
(** An entry of the log: the [className] and the markup it was given. *)
Record item := Item { className : text; innerHTML : text }.

Section Events.
(** [String.prototype.toUpperCase] and [Date.prototype.toLocaleTimeString]
    are the engine's. *)
Context (toUpperCase : text -> text).

(** The markup of an entry. *)
Definition markup (type path timeString : text) : text :=
  [10%N] ++ replicate 12 32%N ++ str "<strong>" ++ toUpperCase type
  ++ str "</strong>: " ++ path ++ [10%N] ++ replicate 12 32%N
  ++ str "<small>" ++ timeString ++ str "</small>" ++ [10%N]
  ++ replicate 8 32%N.

(** [while (eventsLog.children.length > 100)
    eventsLog.removeChild(eventsLog.lastChild)]; [fuel] bounds the number
    of turns. *)
Fixpoint remove_excess (fuel : nat) (children : list item) : list item :=
  match fuel with
  | O => children
  | S fuel' =>
      if 100 <? length children
      then remove_excess fuel' (removelast children)
      else children
  end.

(** [handleFileEvent(event)] on the children of the element
    [fileEventsLog], [None] when the page has no such element; [type] and
    [path] are [event.type] and [event.path]. *)
Definition handleFileEvent (type path timeString : text)
    (eventsLog : option (list item)) : option (list item) :=
  match eventsLog with
  | None => None
  | Some children =>
      let eventItem :=
        Item (str "event-item " ++ type) (markup type path timeString) in
      let children := eventItem :: children in
      Some (remove_excess (length children) children)
  end.

Lemma removelast_take {A} (l : list A) : removelast l = take (length l - 1) l.
Proof.
  induction l as [|x l IH]; [done|].
  destruct l as [|y l]; [done|].
  change (removelast (x :: y :: l)) with (x :: removelast (y :: l)).
  rewrite IH. simpl. by rewrite Nat.sub_0_r.
Qed.

Lemma remove_excess_take (fuel : nat) (children : list item) :
  length children <= 100 + fuel ->
  remove_excess fuel children = take 100 children.
Proof.
  revert children; induction fuel as [|fuel IH]; intros children Hl; simpl.
  - symmetry. apply take_ge. lia.
  - destruct (Nat.ltb_spec 100 (length children)).
    + rewrite IH, removelast_take.
      * rewrite take_take. f_equal. lia.
      * rewrite removelast_take, length_take. lia.
    + by rewrite take_ge by lia.
Qed.

Lemma handleFileEvent_take (type path timeString : text)
    (children : list item) :
  handleFileEvent type path timeString (Some children) =
  Some (take 100 (Item (str "event-item " ++ type)
                    (markup type path timeString) :: children)).
Proof.
  unfold handleFileEvent. cbv zeta. rewrite remove_excess_take; [done|].
  simpl. lia.
Qed.

(** The entry made for an event (its type, path and time). *)
Definition entry (event : text * text * text) : item :=
  Item (str "event-item " ++ event.1.1)
       (markup event.1.1 event.1.2 event.2).

(** X25. After any number of file events the log shows the entries of
    the events, the newest first, before what it held, cut to its first
    hundred entries; with no event at all it is left as it was, whatever
    it held. *)
Theorem handleFileEvent_newest_hundred (events : list (text * text * text))
    (children : list item) :
  foldl (fun log event =>
           handleFileEvent event.1.1 event.1.2 event.2 log)
        (Some children) events
  = Some (if decide (events = []) then children
          else take 100 (reverse (entry <$> events) ++ children)).
Proof.
  induction events as [|event events IH] using rev_ind; [done|].
  rewrite foldl_app, IH. cbn [foldl].
  rewrite handleFileEvent_take, fmap_app, reverse_app. cbn [fmap list_fmap].
  rewrite reverse_singleton. cbn [app]. fold (entry event).
  destruct (decide (events ++ [event] = [])) as [H|_];
    [by apply app_nil in H as [_ ?]|].
  f_equal. destruct (decide (events = [])) as [->|Hne]; [done|].
  cbn [take]. f_equal.
  destruct (reverse (entry <$> events) ++ children) as [|x l]; [done|].
  rewrite take_take. f_equal.
Qed.
End Events.
End FileLog.

(** ** Plugin events

    [onPluginEvent] and [emitPluginEvent] of the class [PluginSystem]. *)

Module PluginEvents.
Section Listeners.
(** The payload of an event. *)
Context {D : Type}.

(** [this.eventListeners] ([None] until the first listener is added), the
    console, and the calls made so far (the program keeps no such list; it
    is the record from which the order of the calls is read).  A callback
    is known by a number. *)
Record bus := Bus {
  eventListeners : option (gmap text (list nat));
  errors : list (text * exn);
  called : list (nat * D)
}.

(** [run c data] is what the call [c(data)] does.  The callback is code of
    a plugin: it returns or throws, and on its way it can have added
    listeners ([api.on]), emitted events ([api.emit]) and written on the
    console, so it is any change of the bus. *)
Context (run : nat -> D -> bus -> result unit * bus).

(** The callbacks registered for an event, in the order of registration. *)
Definition listeners (event : text) (st : bus) : list nat :=
  default [] (default ∅ (eventListeners st) !! event).

(** [onPluginEvent(event, callback)]. *)
Definition onPluginEvent (event : text) (callback : nat) (st : bus) : bus :=
  let table := default ∅ (eventListeners st) in
  let callbacks := default [] (table !! event) in
  Bus (Some (<[event := callbacks ++ [callback]]> table))
      (errors st) (called st).

(** The body of the [forEach]: the call, and [console.error] with
    [`Plugin event handler error for ${event}:`] when it throws. *)
Definition deliver (event : text) (data : D) (st : bus) (callback : nat)
  : bus :=
  let st := Bus (eventListeners st) (errors st)
              (called st ++ [(callback, data)]) in
  let ran := run callback data st in
  match ran.1 with
  | Ok _ => ran.2
  | Throw error =>
      Bus (eventListeners ran.2)
          (errors ran.2 ++ [(str "Plugin event handler error for " ++ event
                             ++ str ":", error)])
          (called ran.2)
  end.

(** [callbacks.forEach(...)] from the index [k] on, with [n] indices to
    go: the number of elements the array has when [forEach] starts bounds
    the indices, and each index is read from the array as it is by then, so
    a callback pushed in the meantime is not called and one taken away is
    passed over.  (The array is the one the table has for the event: a
    callback that changes the list is taken to change it in place.) *)
Fixpoint forEach (event : text) (data : D) (k n : nat) (st : bus) : bus :=
  match n with
  | O => st
  | S n =>
      forEach event data (S k) n
        match listeners event st !! k with
        | Some callback => deliver event data st callback
        | None => st
        end
  end.

(** [emitPluginEvent(event, data)]. *)
Definition emitPluginEvent (event : text) (data : D) (st : bus) : bus :=
  match eventListeners st with
  | Some table =>
      match table !! event with
      | Some callbacks => forEach event data 0 (length callbacks) st
      | None => st
      end
  | None => st
  end.

Lemma listeners_on (event other : text) (callback : nat) (st : bus) :
  listeners other (onPluginEvent event callback st) =
  if decide (other = event) then listeners event st ++ [callback]
  else listeners other st.
Proof.
  unfold listeners, onPluginEvent. cbn.
  destruct (decide (other = event)) as [->|Hne].
  - by rewrite lookup_insert_eq.
  - by rewrite lookup_insert_ne.
Qed.

(** The error a callback leaves on the console when it ends as [r]. *)
Definition failure (event : text) (r : result unit) : option (text * exn) :=
  match r with
  | Throw error =>
      Some (str "Plugin event handler error for " ++ event ++ str ":", error)
  | Ok _ => None
  end.

(** A callback that only computes: it ends as [r] and leaves the bus as it
    found it. *)
Definition computes (data : D) (callback : nat) (r : result unit) : Prop :=
  forall st, run callback data st = (r, st).

Lemma forEach_computing (event : text) (data : D) (ends : nat -> result unit)
    (done rest : list nat) (st : bus) :
  listeners event st = done ++ rest ->
  (forall c, c ∈ rest -> computes data c (ends c)) ->
  let st' := forEach event data (length done) (length rest) st in
  eventListeners st' = eventListeners st /\
  called st' = called st ++ ((fun c => (c, data)) <$> rest) /\
  errors st' = errors st ++ omap (fun c => failure event (ends c)) rest.
Proof.
  revert done st. induction rest as [|c rest IH]; intros done st Hl Hc; cbn.
  - by rewrite !app_nil_r.
  - rewrite Hl. rewrite lookup_app_r, Nat.sub_diag by done. cbn.
    assert (Hrun := Hc c (proj2 (elem_of_cons _ _ _) (or_introl eq_refl))).
    assert (Hd : exists st1,
               deliver event data st c = st1 /\
               eventListeners st1 = eventListeners st /\
               called st1 = called st ++ [(c, data)] /\
               errors st1 = errors st ++
                            option_list (failure event (ends c))).
    { unfold deliver. rewrite Hrun. cbn.
      destruct (ends c); eexists; (split; [reflexivity|]); cbn;
        by rewrite ?app_nil_r. }
    destruct Hd as (st1 & -> & H1 & H2 & H3).
    destruct (IH (done ++ [c]) st1) as (I1 & I2 & I3).
    + unfold listeners. rewrite H1. fold (listeners event st).
      by rewrite Hl, <- (assoc_L (++)).
    + intros c' Hc'. apply Hc. by apply elem_of_cons; right.
    + rewrite length_app, Nat.add_1_r in I1, I2, I3.
      rewrite I1, I2, I3, H1, H2, H3, <- !(assoc_L (++)).
      split; [done|]. split; [done|]. by destruct (failure event (ends c)).
Qed.

(** X26. When the listeners of an event only compute (each ends in its
    own way, returning or throwing, and leaves the listener table and the
    console alone), [emitPluginEvent] calls every one of them, once each,
    in the order of registration and with the data given; a listener that
    throws is reported on the console and the ones after it are still
    called; the listeners stay registered.  [onPluginEvent] adds its
    callback after the ones the event has and touches no other event. *)
Theorem emitPluginEvent_reaches_every_listener (event : text) (data : D)
    (ends : nat -> result unit) (st : bus) :
  (forall c, c ∈ listeners event st -> computes data c (ends c)) ->
  called (emitPluginEvent event data st) =
    called st ++ ((fun c => (c, data)) <$> listeners event st) /\
  errors (emitPluginEvent event data st) =
    errors st ++
    omap (fun c => failure event (ends c)) (listeners event st) /\
  eventListeners (emitPluginEvent event data st) = eventListeners st /\
  (forall other callback,
     listeners other (onPluginEvent event callback st) =
     if decide (other = event) then listeners event st ++ [callback]
     else listeners other st).
Proof.
  intros Hc.
  assert (H : let st' := emitPluginEvent event data st in
              eventListeners st' = eventListeners st /\
              called st' =
                called st ++ ((fun c => (c, data)) <$> listeners event st) /\
              errors st' =
                errors st ++
                omap (fun c => failure event (ends c)) (listeners event st)).
  { unfold emitPluginEvent.
    destruct (eventListeners st) as [table|] eqn:Ht.
    - destruct (table !! event) as [callbacks|] eqn:Hcs.
      + assert (Hl : listeners event st = callbacks)
          by (unfold listeners; by rewrite Ht; cbn; rewrite Hcs).
        rewrite Hl in *.
        destruct (forEach_computing event data ends [] callbacks st Hl Hc)
          as (H1 & H2 & H3).
        cbn in H1, H2, H3. by rewrite Ht in H1.
      + assert (Hl : listeners event st = [])
          by (unfold listeners; by rewrite Ht; cbn; rewrite Hcs).
        rewrite Hl. cbn. by rewrite !app_nil_r.
    - assert (Hl : listeners event st = [])
        by (unfold listeners; by rewrite Ht).
      rewrite Hl. cbn. by rewrite !app_nil_r. }
  destruct H as (H1 & H2 & H3).
  split; [done|]. split; [done|]. split; [done|].
  intros; apply listeners_on.
Qed.
End Listeners.

(** Two listeners of [tick]: the first throws, the second returns. *)
Definition first_throws (c : nat) (data : nat) (st : @bus nat)
  : result unit * @bus nat :=
  (match c with O => Throw (Error (str "boom")) | _ => Ok tt end, st).

Definition two_listeners : @bus nat :=
  onPluginEvent (str "tick") 1 (onPluginEvent (str "tick") 0 (Bus None [] [])).

Lemma emitPluginEvent_reaches_every_listener_sample :
  called (emitPluginEvent first_throws (str "tick") 7 two_listeners)
    = [(0, 7); (1, 7)] /\
  errors (emitPluginEvent first_throws (str "tick") 7 two_listeners)
    = [(str "Plugin event handler error for tick:", Error (str "boom"))].
Proof.
  destruct (emitPluginEvent_reaches_every_listener first_throws
              (str "tick") 7
              (fun c => match c with O => Throw (Error (str "boom"))
                                | _ => Ok tt end)
              two_listeners) as (H1 & H2 & _).
  - intros c _ st. reflexivity.
  - split; [exact H1 | exact H2].
Defined.

(** A listener that adds a listener for the event it is called for: the
    new one is registered and is not called by the [emit] under way. *)
Definition adds_a_listener (c : nat) (data : nat) (st : @bus nat)
  : result unit * @bus nat :=
  match c with
  | O => (Ok tt, onPluginEvent (str "tick") 1 st)
  | _ => (Ok tt, st)
  end.

Example emitPluginEvent_passes_over_new_listeners :
  let st := onPluginEvent (str "tick") 0 (Bus None [] []) in
  called (emitPluginEvent adds_a_listener (str "tick") 7 st) = [(0, 7)] /\
  listeners (str "tick") (emitPluginEvent adds_a_listener (str "tick") 7 st)
    = [0; 1]%nat.
Proof. vm_compute; split; reflexivity. Qed.
End PluginEvents.

(** ** The configuration of the main process

    [loadConfig], [saveConfig], the handler of [save-config] and the
    callback of [app.whenReady()] in [src/main.js]. *)

Module Config.
Import Json.

(** What the main process did that matters here. *)
Inductive step :=
| CreateWindow
| StartSystemMonitoring
| StartFileWatcher
| WriteFile (document : gmap text json).

(** A line on the console. *)
Inductive line :=
| Log (message : text)
| Failure (message : text) (error : exn).

(** The [config] object: its own properties by name, and its prototype,
    [None] for [Object.prototype], which it has at the start, and
    [Some v] once an assignment to [config.__proto__] has put the object,
    the array or the [null] that [v] is in its place.  Then the console,
    and the steps taken so far in their order: the window created, the
    sampler and the file watcher started, the config file written with the
    object it holds the text of. *)
Record process := Process {
  config : gmap text json;
  prototype : option json;
  console : list line;
  steps : list step
}.

Abbreviation P := (Stmt process).

Definition set_config
    (f : gmap text json * option json -> gmap text json * option json)
  : P unit :=
  fun st =>
    let target := f (config st, prototype st) in
    (Ok tt, Process target.1 target.2 (console st) (steps st)).

Definition print (l : line) : P unit :=
  fun st =>
    (Ok tt, Process (config st) (prototype st) (console st ++ [l]) (steps st)).

Definition take_step (s : step) : P unit :=
  fun st =>
    (Ok tt, Process (config st) (prototype st) (console st) (steps st ++ [s])).

(** The [config] literal of [main.js]. *)
Definition defaults : gmap text json :=
  {[ str "monitoring" :=
       JObj [(str "enabled", JBool true); (str "interval", JNum 5000 0);
             (str "fileWatching", JBool true)];
     str "ui" :=
       JObj [(str "theme", JStr (str "cyberpunk"));
             (str "notifications", JBool true);
             (str "soundEffects", JBool false)];
     str "performance" :=
       JObj [(str "lowMode", JBool false);
             (str "reduceAnimations", JBool false)] ]}.

(** The own enumerable properties of a value, as [Object.assign] reads
    them from its source: the members of an object, the elements of an array
    and the code units of a string under their indices, nothing for the
    other values. *)
Definition own_properties (source : json) : list (text * json) :=
  match source with
  | JObj members => members
  | JArr items => imap (fun i x => (digits (N.of_nat i), x)) items
  | JStr s => imap (fun i c => (digits (N.of_nat i), JStr [c])) s
  | JNull | JBool _ | JNum _ _ => []
  end.

(** Whether an assignment to [config.__proto__] gets to the setter that
    [Object.prototype] has under this name: [config] has no property
    [__proto__] of its own, and neither has an object on the way to
    [Object.prototype]; with the prototype [null] there is no way to it.
    (A value read from JSON can have such a property of its own: [JSON.parse]
    defines the key as it does any other.) *)
Definition reaches_setter (own : gmap text json) (proto : option json)
  : bool :=
  bool_decide (own !! str "__proto__" = None) &&
  match proto with
  | None => true
  | Some JNull => false
  | Some (JObj members) => bool_decide (str "__proto__" ∉ members.*1)
  | Some _ => true
  end.

(** [target[key] = value] on [config].  Under every name but [__proto__]
    the value becomes a property of [config] itself (the properties of the
    prototypes are all writable ones).  Under [__proto__], an assignment
    that gets to the setter makes an object, an array or [null] the
    prototype, does nothing with any other value, and makes no property;
    one that does not get to it makes a property as under any name. *)
Definition assign (target : gmap text json * option json)
    (kv : text * json) : gmap text json * option json :=
  if decide (kv.1 = str "__proto__") then
    if reaches_setter target.1 target.2 then
      (target.1,
       match kv.2 with
       | JObj _ | JArr _ | JNull => Some kv.2
       | JBool _ | JNum _ _ | JStr _ => target.2
       end)
    else (<[kv.1 := kv.2]> target.1, target.2)
  else (<[kv.1 := kv.2]> target.1, target.2).

(** [Object.assign(config, source)]. *)
Definition Object_assign (source : json)
    (target : gmap text json * option json)
  : gmap text json * option json :=
  foldl assign target (own_properties source).

(** [loadConfig()]; [configData] is what reading the file gave. *)
Definition loadConfig (configData : result text) : P unit :=
  try_catch
    (data <- lift configData ;;
     match parse data with
     | Some value => set_config (Object_assign value)
     | None => lift (Throw (SyntaxError "JSON.parse"))
     end)
    (fun _ => print (Log (str "No config file found, using defaults"))).

(** [saveConfig()]; [written] is what writing the file gave. *)
Definition saveConfig (written : result unit) : P unit :=
  try_catch
    (document <- gets config ;;
     lift written ;;
     take_step (WriteFile document))
    (fun error => print (Failure (str "Failed to save config:") error)).

(** The handler of [save-config]. *)
Definition save_config (newConfig : json) (written : result unit) : P bool :=
  set_config (Object_assign newConfig) ;;
  saveConfig written ;;
  ret true.

(** [ToBoolean] of [object.name], a [TypeError] when [object] is
    [undefined] or [null]. *)
Definition flag (object : option json) (name : text) : result bool :=
  match object with
  | None | Some JNull =>
      Throw (TypeError "Cannot read properties of undefined or null")
  | Some (JObj members) =>
      Ok (match list_find (fun kx => kx.1 = name) members with
          | Some (_, (_, v)) => Plugins.truthy v
          | None => false
          end)
  | Some _ => Ok false
  end.

(** [config.name] for a name that [Object.prototype] and [Array.prototype]
    have no property of: the property of [config] itself, or else the one
    of the object that is its prototype. *)
Definition get (name : text) (st : process) : option json :=
  match config st !! name with
  | Some value => Some value
  | None =>
      match prototype st with
      | Some (JObj members) =>
          match list_find (fun kx => kx.1 = name) members with
          | Some (_, (_, value)) => Some value
          | None => None
          end
      | _ => None
      end
  end.

(** [config.monitoring.name] as a condition. *)
Definition monitoring (name : text) : P bool :=
  fun st => (flag (get (str "monitoring") st) name, st).

(** The callback of [app.whenReady()], up to the registration of the
    [activate] handler. *)
Definition whenReady (configData : result text) : P unit :=
  loadConfig configData ;;
  take_step CreateWindow ;;
  enabled <- monitoring (str "enabled") ;;
  (if enabled then take_step StartSystemMonitoring else ret tt) ;;
  fileWatching <- monitoring (str "fileWatching") ;;
  (if fileWatching then take_step StartFileWatcher else ret tt).

Lemma assign_other (target : gmap text json * option json)
    (kv : text * json) (k : text) :
  k <> kv.1 -> (assign target kv).1 !! k = target.1 !! k.
Proof.
  intros Hne. unfold assign.
  destruct (decide _); [destruct (reaches_setter _ _)|]; cbn;
    by rewrite ?lookup_insert_ne.
Qed.

Lemma assign_lookup_absent (members : list (text * json))
    (target : gmap text json * option json) (k : text) :
  k ∉ members.*1 -> (foldl assign target members).1 !! k = target.1 !! k.
Proof.
  revert target. induction members as [|[k' v'] members IH]; intros target;
    [done|].
  cbn. rewrite not_elem_of_cons. intros [Hne Hk].
  rewrite IH by done. by apply assign_other.
Qed.

Lemma assign_lookup_member (members : list (text * json))
    (target : gmap text json * option json) (k : text) (v : json) :
  NoDup members.*1 -> (k, v) ∈ members -> k <> str "__proto__" ->
  (foldl assign target members).1 !! k = Some v.
Proof.
  revert target. induction members as [|[k' v'] members IH]; intros target.
  - intros _ H. by apply elem_of_nil in H.
  - cbn. rewrite NoDup_cons, elem_of_cons.
    intros [Hk' Hnd] [[= -> ->]|Hin] Hne.
    + rewrite assign_lookup_absent by done. unfold assign. cbn.
      rewrite decide_False by done. apply lookup_insert_eq.
    + by apply IH.
Qed.

Lemma assign_prototype_absent (members : list (text * json))
    (target : gmap text json * option json) :
  str "__proto__" ∉ members.*1 ->
  (foldl assign target members).2 = target.2.
Proof.
  revert target. induction members as [|[k' v'] members IH]; intros target;
    [done|].
  cbn. rewrite not_elem_of_cons. intros [Hne Hk].
  rewrite IH by done. unfold assign. cbn. by rewrite decide_False.
Qed.

(** What the key [__proto__] of the source does when the assignment gets
    to the setter. *)
Definition set_prototype (v : json) (proto : option json) : option json :=
  match v with
  | JObj _ | JArr _ | JNull => Some v
  | JBool _ | JNum _ _ | JStr _ => proto
  end.

Lemma reaches_setter_other (target : gmap text json * option json)
    (kv : text * json) :
  kv.1 <> str "__proto__" ->
  reaches_setter (assign target kv).1 (assign target kv).2
  = reaches_setter target.1 target.2.
Proof.
  intros Hne. unfold assign. rewrite decide_False by done. cbn.
  unfold reaches_setter. by rewrite lookup_insert_ne.
Qed.

Lemma assign_prototype_member (members : list (text * json))
    (target : gmap text json * option json) (v : json) :
  NoDup members.*1 -> (str "__proto__", v) ∈ members ->
  reaches_setter target.1 target.2 = true ->
  (foldl assign target members).1 !! str "__proto__" = None /\
  (foldl assign target members).2 = set_prototype v target.2.
Proof.
  revert target. induction members as [|[k' v'] members IH]; intros target.
  - intros _ H. by apply elem_of_nil in H.
  - cbn. rewrite NoDup_cons, elem_of_cons.
    intros [Hk' Hnd] [[= <- <-]|Hin] Hr.
    + rewrite assign_lookup_absent, assign_prototype_absent by done.
      unfold assign. cbn. rewrite decide_True by done. rewrite Hr. cbn.
      split; [|done]. unfold reaches_setter in Hr.
      apply andb_prop in Hr as [Hr _]. by apply bool_decide_eq_true in Hr.
    + assert (Hne : k' <> str "__proto__").
      { intros ->. apply Hk'. apply list_elem_of_fmap.
        by exists (str "__proto__", v). }
      destruct (IH (assign target (k', v')) Hnd Hin) as [H1 H2].
      { by rewrite reaches_setter_other. }
      split; [done|]. rewrite H2. f_equal. unfold assign. cbn.
      by rewrite decide_False.
Qed.

Lemma loadConfig_cases (configData : result text) (st : process) :
  loadConfig configData st =
  match configData with
  | Ok data =>
      match parse data with
      | Some value =>
          (Ok tt,
           Process (Object_assign value (config st, prototype st)).1
                   (Object_assign value (config st, prototype st)).2
                   (console st) (steps st))
      | None =>
          (Ok tt,
           Process (config st) (prototype st)
             (console st ++ [Log (str "No config file found, using defaults")])
             (steps st))
      end
  | Throw _ =>
      (Ok tt,
       Process (config st) (prototype st)
         (console st ++ [Log (str "No config file found, using defaults")])
         (steps st))
  end.
Proof.
  unfold loadConfig, try_catch, bind, lift, set_config, print.
  destruct configData as [data|e]; [|done]. by destruct (parse data).
Qed.

(** X27. [loadConfig] never fails and merges at the top level only: when
    the file holds an object, each of its keys other than [__proto__] gets
    the value the file gives it, whole, and the other keys keep theirs; the
    key [__proto__] makes no property of the configuration (on the
    configuration as it is at startup, where the assignment gets to the
    setter of [Object.prototype]): it sets the prototype when its value is
    an object, an array or [null] and does nothing otherwise; when the file
    cannot be read or is not JSON, the configuration is unchanged and the
    console says that no file was found. *)
Theorem loadConfig_merges_top_level (configData : result text)
    (st : process) :
  exists st',
    loadConfig configData st = (Ok tt, st') /\
    steps st' = steps st /\
    (forall data members,
       configData = Ok data -> parse data = Some (JObj members) ->
       console st' = console st /\
       (forall k, k ∉ members.*1 -> config st' !! k = config st !! k) /\
       (forall k v, NoDup members.*1 -> (k, v) ∈ members ->
                    k <> str "__proto__" -> config st' !! k = Some v) /\
       (forall v, NoDup members.*1 -> (str "__proto__", v) ∈ members ->
                  reaches_setter (config st) (prototype st) = true ->
                  config st' !! str "__proto__" = None /\
                  prototype st' = set_prototype v (prototype st)) /\
       (str "__proto__" ∉ members.*1 -> prototype st' = prototype st)) /\
    ((forall data, configData = Ok data -> parse data = None) ->
     config st' = config st /\ prototype st' = prototype st /\
     console st' =
       console st ++ [Log (str "No config file found, using defaults")]).
Proof.
  rewrite loadConfig_cases.
  destruct configData as [data|e]; [destruct (parse data) as [value|] eqn:Hp|];
    (eexists; split; [reflexivity|]); (split; [done|]); cbn; split.
  - intros data' members [= <-] Hm. rewrite Hp in Hm. injection Hm as ->.
    split; [done|]. split; [|split; [|split]].
    + intros k. apply assign_lookup_absent.
    + intros k v. apply assign_lookup_member.
    + intros v Hnd Hin Hr. by apply assign_prototype_member.
    + apply assign_prototype_absent.
  - intros Hno. specialize (Hno data eq_refl). congruence.
  - intros data' members [= <-] Hm. congruence.
  - done.
  - done.
  - done.
Qed.

Lemma flag_absent (section : list (text * json)) (name : text) :
  name ∉ section.*1 -> flag (Some (JObj section)) name = Ok false.
Proof.
  intros H. cbn.
  destruct (list_find _ section) as [[i [k v]]|] eqn:E; [|done].
  apply list_find_Some in E as (Hi & Hk & _). cbn in Hk. subst k.
  exfalso. apply H. apply list_elem_of_fmap. exists (name, v).
  split; [done|]. by eapply list_elem_of_lookup_2.
Qed.

(** X28. A config file that has a [monitoring] section without the key
    [enabled] (one that only sets the interval, say) takes the place of the
    whole default section, so at startup the window is created and the
    sampler is not started. *)
Theorem partial_monitoring_section_stops_sampling (data : text)
    (members section : list (text * json)) (st : process) :
  parse data = Some (JObj members) -> NoDup members.*1 ->
  (str "monitoring", JObj section) ∈ members ->
  str "enabled" ∉ section.*1 ->
  exists st' rest,
    whenReady (Ok data) st = (Ok tt, st') /\
    steps st' = steps st ++ CreateWindow :: rest /\
    (StartSystemMonitoring ∉ rest) /\
    config st' !! str "monitoring" = Some (JObj section).
Proof.
  intros Hp Hnd Hin Hno. unfold whenReady.
  unfold bind at 1. rewrite loadConfig_cases, Hp.
  unfold bind at 1, take_step at 1. cbv beta iota.
  unfold bind at 1, monitoring at 1, get at 1. cbn [config prototype].
  assert (Hm : (Object_assign (JObj members) (config st, prototype st)).1
                 !! str "monitoring" = Some (JObj section))
    by by apply assign_lookup_member.
  rewrite Hm, flag_absent by done. cbv beta iota.
  unfold bind at 1, ret at 1. cbv beta iota.
  unfold bind at 1, monitoring at 1, get at 1. cbn [config prototype].
  rewrite Hm.
  destruct (flag _ _) as [[|]|e] eqn:Hf.
  - eexists _, [StartFileWatcher]. split; [reflexivity|]. cbn [steps config].
    rewrite <- (assoc_L (++)). split; [done|]. split; [|done].
    rewrite !not_elem_of_cons. split; [done|]. apply not_elem_of_nil.
  - eexists _, []. split; [reflexivity|]. cbn [steps config].
    split; [done|]. split; [|done]. apply not_elem_of_nil.
  - done.
Qed.

(** X29. The handler of [save-config] merges the new configuration in
    and answers [true] whatever happens to the file: when the write fails
    the failure is on the console only, and the configuration in memory is
    the merged one all the same. *)
Theorem save_config_reports_success (newConfig : json)
    (written : result unit) (st : process) :
  exists st',
    save_config newConfig written st = (Ok true, st') /\
    (config st', prototype st')
      = Object_assign newConfig (config st, prototype st) /\
    match written with
    | Ok _ =>
        steps st' = steps st ++ [WriteFile (config st')] /\
        console st' = console st
    | Throw error =>
        steps st' = steps st /\
        console st' =
          console st ++ [Failure (str "Failed to save config:") error]
    end.
Proof.
  unfold save_config, saveConfig, try_catch, bind, lift, gets, set_config,
    take_step, print, ret.
  destruct written as [[]|e]; eexists; (split; [reflexivity|]); cbn;
    by destruct (Object_assign _ _).
Qed.

(** A file that only sets the sampling interval. *)
Definition only_interval : json :=
  JObj [(str "monitoring", JObj [(str "interval", JNum 1000 0)])].

Lemma partial_monitoring_section_stops_sampling_sample :
  exists st' rest,
    whenReady (Ok (stringify only_interval)) (Process defaults None [] [])
      = (Ok tt, st') /\
    steps st' = [] ++ CreateWindow :: rest /\
    (StartSystemMonitoring ∉ rest) /\
    config st' !! str "monitoring"
      = Some (JObj [(str "interval", JNum 1000 0)]).
Proof.
  apply (partial_monitoring_section_stops_sampling
           (stringify only_interval)
           [(str "monitoring", JObj [(str "interval", JNum 1000 0)])]
           [(str "interval", JNum 1000 0)] (Process defaults None [] [])).
  - vm_compute; reflexivity.
  - apply NoDup_singleton.
  - apply list_elem_of_singleton; reflexivity.
  - intros H. apply list_elem_of_singleton in H. vm_compute in H.
    discriminate H.
Defined.

(** With the defaults, or with no file, both the sampler and the file
    watcher are started. *)
Example whenReady_defaults :
  steps (whenReady (Throw (Error (str "ENOENT")))
           (Process defaults None [] [])).2
  = [CreateWindow; StartSystemMonitoring; StartFileWatcher].
Proof. vm_compute; reflexivity. Qed.

(** A file with the key [__proto__] adds no property under this name; the
    object it gives becomes the prototype. *)
Example loadConfig_proto_key :
  let file :=
    stringify (JObj [(str "__proto__", JObj [(str "x", JNum 1 0)])]) in
  let st' := (loadConfig (Ok file) (Process defaults None [] [])).2 in
  config st' = defaults /\
  prototype st' = Some (JObj [(str "x", JNum 1 0)]).
Proof. vm_compute; split; reflexivity. Qed.
End Config.
